(** * Kernel dispatch and KeOps helpers of falkon: a shallow embedding

    The development follows the two source files
    [falkon/kernels/keops_helpers.py] and [falkon/kernels/kernel.py].
    Python objects that are mutated or compared by identity (tensor buffers,
    option records) live in finite maps indexed by locations; everything
    else is a plain value.  Exceptions are values of [exn]; a computation
    that can raise and touch the store has type [M St A]. *)

From stdpp Require Import base gmap strings list pretty.

Local Open Scope string_scope.

(** ** Exceptions and the state-and-exception monad *)

Inductive exn : Type :=
| ValueError (msg : string)
| TypeError (msg : string)
| RuntimeError (msg : string)
| IndexError (msg : string)
| AttributeError (msg : string)
| ImportError (msg : string)
| ModuleNotFoundError (msg : string).

Inductive result (A : Type) : Type :=
| Ok (a : A)
| Raise (e : exn).
Arguments Ok {A} a.
Arguments Raise {A} e.

Definition M (St A : Type) : Type := St -> result A * St.

Definition ret {St A} (a : A) : M St A := fun st => (Ok a, st).

Definition raise {St A} (e : exn) : M St A := fun st => (Raise e, st).

Definition bind {St A B} (m : M St A) (k : A -> M St B) : M St B :=
  fun st =>
    match m st with
    | (Ok a, st') => k a st'
    | (Raise e, st') => (Raise e, st')
    end.

Definition lift {St A} (r : result A) : M St A := fun st => (r, st).

Definition rbind {A B} (r : result A) (k : A -> result B) : result B :=
  match r with
  | Ok a => k a
  | Raise e => Raise e
  end.

Notation "'do' x <- m ;; k" := (bind m (fun x => k))
  (at level 10, x name, m at level 99, k at level 200, only parsing).
Notation "'do' ' p <- m ;; k" := (bind m (fun x => let 'p := x in k))
  (at level 10, p pattern, m at level 99, k at level 200, only parsing).

(** ** Operands

    A primary operand is either a [torch.Tensor] (which carries the
    [is_sparse] attribute) or a [falkon.sparse.SparseTensor].  Only the
    metadata that the dispatch code inspects is kept. *)

Inductive dtype : Type := float16 | float32 | float64.

Inductive device : Type := cpu | cuda (index : nat).

Definition device_type (d : device) : string :=
  match d with
  | cpu => "cpu"
  | cuda _ => "cuda"
  end.

Record meta : Type := Meta {
  m_shape : list nat;
  m_dtype : dtype;
  m_device : device
}.

Inductive operand : Type :=
| TorchTensor (m : meta) (sparse_layout : bool)
| SparseTensor (m : meta).

#[global] Instance dtype_eq_dec : EqDecision dtype.
Proof. solve_decision. Defined.
#[global] Instance device_eq_dec : EqDecision device.
Proof. solve_decision. Defined.
#[global] Instance meta_eq_dec : EqDecision meta.
Proof. solve_decision. Defined.
#[global] Instance operand_eq_dec : EqDecision operand.
Proof. solve_decision. Defined.

Definition meta_of (t : operand) : meta :=
  match t with
  | TorchTensor m _ => m
  | SparseTensor m => m
  end.

(** [t.shape], [t.dtype], [t.device], [t.dim()] *)
Definition shape (t : operand) : list nat := m_shape (meta_of t).
Definition dtype_of (t : operand) : dtype := m_dtype (meta_of t).
Definition device_of (t : operand) : device := m_device (meta_of t).
Definition dim (t : operand) : nat := length (shape t).

(** [t.shape[i]] and [t.size(i)]: an index past the rank raises. *)
Definition shape_at (t : operand) (i : nat) : result nat :=
  match shape t !! i with
  | Some d => Ok d
  | None => Raise (IndexError "tuple index out of range")
  end.

Definition size (t : operand) (i : nat) : result nat :=
  match shape t !! i with
  | Some d => Ok d
  | None => Raise (IndexError "Dimension out of range")
  end.

(** [isinstance(t, torch.Tensor)] *)
Definition isinstance_Tensor (t : operand) : bool :=
  match t with
  | TorchTensor _ _ => true
  | SparseTensor _ => false
  end.

(** [t.is_sparse]; the source reads it only after both [isinstance] tests
    have succeeded, so the [SparseTensor] case is never evaluated. *)
Definition is_sparse (t : operand) : bool :=
  match t with
  | TorchTensor _ s => s
  | SparseTensor _ => true
  end.

(** A dense operand: a [torch.Tensor] whose [is_sparse] is [False]. *)
Definition dense (t : operand) : bool :=
  isinstance_Tensor t && negb (is_sparse t).

(** ** Options *)

Record FalkonOptions : Type := Options {
  use_cpu : bool;
  keops_active : string
}.

#[global] Instance FalkonOptions_eq_dec : EqDecision FalkonOptions.
Proof. solve_decision. Defined.

Abbreviation loc := positive.

(** ** [falkon/kernels/keops_helpers.py] *)

Module KeopsHelpers.

(** *** Eligibility of the KeOps engine *)

Section Eligibility.

(** Whether the KeOps library can be loaded in this process; the probe
    itself is performed by [decide_keops]. *)
Variable keops_installed : bool.

(** Modelled from the spec: [falkon.utils.switches.decide_keops] is not
    part of the sources at hand.  The spec (section 4.3) lets the check
    pass when the engine is available and the activation mode is not
    off, and the comment at its call site reads "No handling if keops is
    not installed correctly or 'keops_active' is 'no'". *)
Definition decide_keops (opt : FalkonOptions) : bool :=
  keops_installed && negb (String.eqb (keops_active opt) "no").

Definition should_use_keops (T1 T2 : operand) (opt : FalkonOptions)
  : result bool :=
  (* No handling of sparse tensors *)
  if negb (isinstance_Tensor T1) || negb (isinstance_Tensor T2)
     || is_sparse T1 || is_sparse T2
  then Ok false
  (* No handling if keops is not installed correctly or 'keops_active' is 'no' *)
  else if negb (decide_keops opt) then Ok false
  (* No handling for high dimensional data unless keops_active is in 'force' mode. *)
  else
    rbind (shape_at T1 1) (fun d =>
      if (50 <? d)%nat && negb (String.eqb (keops_active opt) "force")
      then Ok false
      else Ok true).

(** The mixin's predicates.  The vector arguments are not inspected. *)
Definition keops_can_handle_mm (X1 X2 : operand) (opt : FalkonOptions)
  : result bool := Ok false.

Definition keops_can_handle_mmv (X1 X2 : operand) (v : option loc)
    (opt : FalkonOptions) : result bool :=
  should_use_keops X1 X2 opt.

(** Python's [a and b]: [b] is evaluated only when [a] is true. *)
Definition keops_can_handle_dmmv (X1 X2 : operand) (v w : option loc)
    (opt : FalkonOptions) : result bool :=
  rbind (keops_can_handle_mmv X1 X2 v opt) (fun b1 =>
    if b1 then keops_can_handle_mmv X2 X1 w opt else Ok false).

End Eligibility.

(** *** The engine entry point and the fused double product *)

Section Engine.

(** Tensor contents and the kernel object are opaque to the helpers. *)
Variable T : Type.
Variable K : Type.

(** [torch.Tensor.add_] on contents: the sum, or the error torch raises
    when the shapes cannot be combined. *)
Variable tensor_add : T -> T -> result T.

Record keops_args : Type := KeopsArgs {
  ka_X1 : operand;
  ka_X2 : operand;
  ka_v : option loc;
  ka_other_vars : list loc;
  ka_out : option loc;
  ka_formula : string;
  ka_aliases : list string;
  ka_axis : nat;
  ka_reduction : string;
  ka_opt : FalkonOptions
}.

(** One entry per invocation of an external callable, in call order. *)
Inductive event : Type :=
| MmvCall (X1 X2 : operand) (v : option loc) (kernel : K)
          (out : option loc) (opt : FalkonOptions)
| KeopsCall (a : keops_args).

Record world : Type := World {
  buffers : gmap loc T;
  trace : list event
}.

(** A callable that works on tensor buffers: it returns a reference to a
    tensor, or [None]. *)
Definition callable (A : Type) : Type :=
  A -> gmap loc T -> result (option loc) * gmap loc T.

(** The module attempts [from falkon.mmv_ops.keops import run_keops_mmv]
    when it is loaded; [_has_keops] records whether that worked, and the
    name [run_keops_mmv] is bound only if it did. *)
Record module_env : Type := ModuleEnv {
  run_keops_mmv : option (callable keops_args)
}.

Definition _has_keops (env : module_env) : bool :=
  match run_keops_mmv env with
  | Some _ => true
  | None => false
  end.

(** Run an external callable on the buffers, recording the call. *)
Definition invoke {A} (f : callable A) (ev : event) (a : A)
  : M world (option loc) :=
  fun st =>
    let '(r, b') := f a (buffers st) in
    (r, World b' (trace st ++ [ev])).

Definition keops_mmv (env : module_env) (X1 X2 : operand) (v out : option loc)
    (formula : string) (aliases : list string)
    (other_vars : option (list loc)) (opt : FalkonOptions)
  : M world (option loc) :=
  if negb (_has_keops env) then
    raise (ModuleNotFoundError
      "Module 'pykeops' is not properly installed. Please install 'pykeops' before running 'keops_mmv'.")
  else
    let other_vars := match other_vars with
                      | None => []
                      | Some l => l
                      end in
    let a := KeopsArgs X1 X2 v other_vars out formula aliases 1 "Sum" opt in
    match run_keops_mmv env with
    | Some f => invoke f (KeopsCall a) a
    | None => raise (AttributeError "name 'run_keops_mmv' is not defined")
    end.

(** The user-supplied [mmv_fn(X1, X2, v, kernel, out, opt)]. *)
Definition mmv_callable : Type :=
  callable (operand * operand * option loc * K * option loc * FalkonOptions).

Definition call_mmv_fn (mmv_fn : mmv_callable) (X1 X2 : operand)
    (v : option loc) (kernel : K) (out : option loc) (opt : FalkonOptions)
  : M world (option loc) :=
  invoke mmv_fn (MmvCall X1 X2 v kernel out opt) (X1, X2, v, kernel, out, opt).

(** [out1.add_(w)]: the buffer of [out1] is overwritten with the sum;
    no buffer is allocated. *)
Definition add_ (out1 w : option loc) : M world unit :=
  fun st =>
    match out1 with
    | None => (Raise (AttributeError "'NoneType' object has no attribute 'add_'"), st)
    | Some l1 =>
      match buffers st !! l1 with
      | None => (Raise (AttributeError "object has no attribute 'add_'"), st)
      | Some a =>
        match w ≫= (fun l2 => buffers st !! l2) with
        | None => (Raise (TypeError "add_(): argument 'other' must be Tensor"), st)
        | Some b =>
          match tensor_add a b with
          | Ok c => (Ok tt, World (<[l1 := c]> (buffers st)) (trace st))
          | Raise e => (Raise e, st)
          end
        end
      end
    end.

Definition is_None {A} (x : option A) : bool :=
  match x with
  | None => true
  | Some _ => false
  end.

Definition keops_dmmv_helper (X1 X2 : operand) (v w : option loc) (kernel : K)
    (out : option loc) (opt : FalkonOptions) (mmv_fn : mmv_callable)
  : M world (option loc) :=
  if negb (is_None v) && negb (is_None w) then
    do out1 <- call_mmv_fn mmv_fn X1 X2 v kernel None opt ;;
    do _ <- add_ out1 w ;;
    call_mmv_fn mmv_fn X2 X1 out1 kernel out opt
  else if is_None v then
    call_mmv_fn mmv_fn X2 X1 w kernel out opt
  else if is_None w then
    do out1 <- call_mmv_fn mmv_fn X1 X2 v kernel None opt ;;
    call_mmv_fn mmv_fn X2 X1 out1 kernel out opt
  else
    (* no branch taken: the function falls off its end *)
    ret None.

End Engine.

Arguments MmvCall {K} X1 X2 v kernel out opt.
Arguments KeopsCall {K} a.
Arguments World {T K} buffers trace.
Arguments buffers {T K} w.
Arguments trace {T K} w.
Arguments ModuleEnv {T} run_keops_mmv.
Arguments run_keops_mmv {T} m.
Arguments _has_keops {T} env.
Arguments keops_mmv {T K} env X1 X2 v out formula aliases other_vars opt.
Arguments call_mmv_fn {T K} mmv_fn X1 X2 v kernel out opt.
Arguments add_ {T K} tensor_add out1 w.
Arguments keops_dmmv_helper {T K} tensor_add X1 X2 v w kernel out opt mmv_fn.

(** One call of the helper to [mmv_fn]: either the first stage, without an
    output buffer, or the last stage, with the operands swapped and the
    caller's output buffer. *)
Definition helper_call {K} (X1 X2 : operand) (kernel : K) (out : option loc)
    (opt : FalkonOptions) (ev : event K) : Prop :=
  exists x, ev = MmvCall X1 X2 x kernel None opt
            \/ ev = MmvCall X2 X1 x kernel out opt.

End KeopsHelpers.

(** ** [falkon/kernels/kernel.py] *)

Module Kernel.

(** *** Helpers imported by the module *)

(** Python's [all] and [any] on a list of booleans. *)
Definition py_all (l : list bool) : bool := forallb id l.
Definition py_any (l : list bool) : bool := existsb id l.

(** Modelled from the spec: [falkon.utils.helpers.check_sparse] is not part
    of the sources at hand.  The spec (section 4.2) has the resolver
    "determine sparsity of X1 and X2 independently"; an operand is sparse
    when it is not dense. *)
Definition check_sparse (args : list operand) : list bool :=
  map (fun t => negb (dense t)) args.

(** Modelled from the spec: [falkon.utils.helpers.check_same_dtype] is not
    part of the sources at hand.  The spec (section 4.1) requires that all
    operands, including an output buffer when one is given, share one
    numeric type; arguments that are [None] do not take part. *)
Definition check_same_dtype (args : list (option operand)) : bool :=
  match omap id args with
  | [] => true
  | t :: rest => forallb (fun u => bool_decide (dtype_of u = dtype_of t)) rest
  end.

(** Modelled from the spec: [falkon.utils.helpers.check_same_device] is not
    part of the sources at hand.  The spec (section 4.1) requires that all
    operands reside on the same device; arguments that are [None] do not
    take part. *)
Definition check_same_device (args : list (option operand)) : bool :=
  match omap id args with
  | [] => true
  | t :: rest => forallb (fun u => bool_decide (device_of u = device_of t)) rest
  end.

(** Modelled from the spec: [falkon.utils.decide_cuda] is not part of the
    sources at hand.  The spec (section 4.2) reads the policy's CPU-only
    flag to get the preferred-backend boolean. *)
Definition decide_cuda_of (opt : FalkonOptions) : bool := negb (use_cpu opt).

(** *** Formatting of error messages *)

Definition str_nat (n : nat) : string := pretty n.

Fixpoint join (sep : string) (l : list string) : string :=
  match l with
  | [] => ""
  | [x] => x
  | x :: rest => x ++ sep ++ join sep rest
  end.

(** [str(t.shape)], as in [torch.Size([99, 3])] *)
Definition str_shape (s : list nat) : string :=
  "torch.Size([" ++ join ", " (map str_nat s) ++ "])".

Definition str_pair (a b : nat) : string :=
  "(" ++ str_nat a ++ ", " ++ str_nat b ++ ")".

(** *** Tensors: the operations the validators use *)

Definition with_shape (t : operand) (s : list nat) : operand :=
  match t with
  | TorchTensor m sp => TorchTensor (Meta s (m_dtype m) (m_device m)) sp
  | SparseTensor m => SparseTensor (Meta s (m_dtype m) (m_device m))
  end.

Definition numel (t : operand) : nat := foldr Nat.mul 1 (shape t).

(** [t.reshape((-1, 1))] *)
Definition reshape_column (t : operand) : operand := with_shape t [numel t; 1].

Definition when_raise (b : bool) (e : exn) : result unit :=
  if b then Raise e else Ok tt.

(** *** Shape and type validation *)

Definition _check_dmmv_dimensions (X1 X2 : operand) (v w out : option operand)
  : result (operand * operand * option operand * option operand * option operand) :=
  rbind (when_raise (bool_decide (v = None) && bool_decide (w = None))
           (ValueError "One of v and w must be specified to run fdMMV.")) (fun _ =>
  rbind (when_raise (negb (dim X1 =? 2)%nat)
           (ValueError "Matrix X1 must be 2D.")) (fun _ =>
  rbind (when_raise (negb (dim X2 =? 2)%nat)
           (ValueError "Matrix X2 must be 2D.")) (fun _ =>
  let v := (fun t => if (dim t =? 1)%nat then reshape_column t else t) <$> v in
  rbind (match v with
         | Some t => when_raise (negb (dim t =? 2)%nat)
             (ValueError ("v must be a vector or a 2D matrix. Found "
                          ++ str_nat (length (shape t)) ++ "D."))
         | None => Ok tt
         end) (fun _ =>
  let w := (fun t => if (dim t =? 1)%nat then reshape_column t else t) <$> w in
  rbind (match w with
         | Some t => when_raise (negb (dim t =? 2)%nat)
             (ValueError ("w must be a vector or a 2D matrix. Found "
                          ++ str_nat (length (shape t)) ++ "D."))
         | None => Ok tt
         end) (fun _ =>
  rbind (match v, w with
         | Some t, _ => size t 1
         | None, Some t => size t 1
         | None, None =>
             Raise (AttributeError "'NoneType' object has no attribute 'size'")
         end) (fun T =>
  rbind (size X2 0) (fun M =>
  rbind (match out with
         | Some o => when_raise (bool_decide (shape o <> [M; T]))
             (ValueError ("Output dimension is incorrect. Expected "
                          ++ str_pair M T ++ " found " ++ str_shape (shape o)))
         | None => Ok tt
         end) (fun _ =>
  rbind (match v with
         | Some t =>
             rbind (size X2 0) (fun M' =>
               when_raise (bool_decide (shape t <> [M'; T]))
                 (ValueError ("Dimensions of matrix v are incorrect: Expected "
                              ++ str_pair M T ++ " found " ++ str_shape (shape t))))
         | None => Ok tt
         end) (fun _ =>
  rbind (match w with
         | Some t =>
             rbind (size X1 0) (fun N =>
               when_raise (bool_decide (shape t <> [N; T]))
                 (ValueError ("Dimensions of matrix w are incorrect: Expected "
                              ++ str_pair N T ++ " found " ++ str_shape (shape t))))
         | None => Ok tt
         end) (fun _ =>
  rbind (when_raise (negb (check_same_dtype [Some X1; Some X2; v; w; out]))
           (TypeError "Data types of input matrices must be equal.")) (fun _ =>
  Ok (X1, X2, v, w, out)))))))))))).

Definition _check_mmv_dimensions (X1 X2 v : operand) (out : option operand)
  : result (operand * operand * operand * option operand) :=
  rbind (when_raise (negb (dim X1 =? 2)%nat)
           (ValueError "Matrix X1 must be 2D.")) (fun _ =>
  rbind (when_raise (negb (dim X2 =? 2)%nat)
           (ValueError "Matrix X2 must be 2D.")) (fun _ =>
  let v := if (dim v =? 1)%nat then reshape_column v else v in
  rbind (when_raise (negb (dim v =? 2)%nat)
           (ValueError ("v must be a vector or a 2D matrix. Found "
                        ++ str_nat (length (shape v)) ++ "D."))) (fun _ =>
  rbind (match out with
         | Some o =>
             rbind (size X1 0) (fun N =>
             rbind (size v 1) (fun T =>
               when_raise (bool_decide (shape o <> [N; T]))
                 (ValueError ("Output dimension is incorrect. Expected "
                              ++ str_pair N T ++ " found " ++ str_shape (shape o)))))
         | None => Ok tt
         end) (fun _ =>
  rbind (size X2 0) (fun M =>
  rbind (size v 1) (fun T =>
  rbind (when_raise (bool_decide (shape v <> [M; T]))
           (ValueError ("Dimensions of matrix v are incorrect: Expected "
                        ++ str_pair M T ++ " found " ++ str_shape (shape v)))) (fun _ =>
  rbind (when_raise (negb (check_same_dtype [Some X1; Some X2; Some v; out]))
           (TypeError "Data types of input matrices must be equal.")) (fun _ =>
  Ok (X1, X2, v, out))))))))).

Definition _check_mm_dimensions (X1 X2 : operand) (out : option operand)
  : result (operand * operand * option operand) :=
  rbind (when_raise (negb (dim X1 =? 2)%nat)
           (ValueError "Matrix X1 must be 2D.")) (fun _ =>
  rbind (when_raise (negb (dim X2 =? 2)%nat)
           (ValueError "Matrix X2 must be 2D.")) (fun _ =>
  rbind (size X1 0) (fun N =>
  rbind (size X2 0) (fun M =>
  rbind (match out with
         | Some o => when_raise (bool_decide (shape o <> [N; M]))
             (ValueError ("Output dimension is incorrect. Expected "
                          ++ str_pair N M ++ " found " ++ str_shape (shape o)))
         | None => Ok tt
         end) (fun _ =>
  rbind (when_raise (negb (check_same_dtype [Some X1; Some X2; out]))
           (TypeError "Data types of input matrices must be equal.")) (fun _ =>
  Ok (X1, X2, out))))))).

Definition _check_device_properties (args : list (option operand))
    (fn_name : string) (opt : option loc) : result unit :=
  when_raise (negb (check_same_device args))
    (RuntimeError ("All input arguments to " ++ fn_name
                   ++ " must be on the same device")).

(** *** Option records and [dataclasses] *)

Inductive field_value : Type :=
| VBool (b : bool)
| VStr (s : string).

(** [dataclasses.asdict(opt)]: one entry per field. *)
Definition asdict (opt : FalkonOptions) : gmap string field_value :=
  <["use_cpu" := VBool (use_cpu opt)]>
    (<["keops_active" := VStr (keops_active opt)]> ∅).

Definition field_names : gset string := {["use_cpu"; "keops_active"]}.

(** [dataclasses.replace(obj, **changes)]: a new record whose fields are
    those of [changes] where present and those of [obj] otherwise; a key
    that is not a field is rejected by the constructor.  The record is
    typed here, so a value of the wrong kind is rejected as well. *)
Definition replace (obj : FalkonOptions) (changes : gmap string field_value)
  : result FalkonOptions :=
  if bool_decide (dom changes ⊆ field_names) then
    rbind (match changes !! "use_cpu" with
           | None => Ok (use_cpu obj)
           | Some (VBool b) => Ok b
           | Some _ => Raise (TypeError "use_cpu: bool expected")
           end) (fun c =>
    rbind (match changes !! "keops_active" with
           | None => Ok (keops_active obj)
           | Some (VStr s) => Ok s
           | Some _ => Raise (TypeError "keops_active: str expected")
           end) (fun k =>
    Ok (Options c k)))
  else Raise (TypeError "__init__() got an unexpected keyword argument").

(** *** The kernel object, the backends and the store *)

Record kernel : Type := KernelObj {
  name : string;
  kernel_type : string;
  params : loc
}.

Inductive backend : Type :=
| fmm_cpu | fmm_cpu_sparse | fmm_cuda | fmm_cuda_sparse
| fmmv_cpu | fmmv_cpu_sparse | fmmv_cuda | fmmv_cuda_sparse
| fdmmv_cpu | fdmmv_cpu_sparse | fdmmv_cuda | fdmmv_cuda_sparse.

#[global] Instance backend_eq_dec : EqDecision backend.
Proof. solve_decision. Defined.

Definition is_cuda_backend (b : backend) : bool :=
  match b with
  | fmm_cuda | fmm_cuda_sparse | fmmv_cuda | fmmv_cuda_sparse
  | fdmmv_cuda | fdmmv_cuda_sparse => true
  | _ => false
  end.

(** The arguments of one backend invocation:
    [impl(X1, X2, [v, [w]], kernel, out, params)]. *)
Record backend_call : Type := BackendCall {
  bc_fn : backend;
  bc_X1 : operand;
  bc_X2 : operand;
  bc_vecs : list (option operand);
  bc_kernel : kernel;
  bc_out : option operand;
  bc_params : loc
}.

(** Option records are objects: they are reached through their location.
    [warnings] is the sink of [warnings.warn]; [backend_calls] lists the
    backend invocations in call order.  [import_failure module names] is
    what the statement [from module import names] raises in the running
    process, if anything: the CUDA modules of [falkon.mmv_ops] are optional
    (spec, section 6), so that importing them may fail. *)
Record kstate : Type := KState {
  policies : gmap loc FalkonOptions;
  warnings : list string;
  backend_calls : list backend_call;
  import_failure : string -> list string -> option exn
}.

Definition get_opt (l : loc) : M kstate FalkonOptions :=
  fun st =>
    match policies st !! l with
    | Some o => (Ok o, st)
    | None => (Raise (AttributeError "not an options record"), st)
    end.

(** Construction of a new options object. *)
Definition new_opt (o : FalkonOptions) : M kstate loc :=
  fun st =>
    let l := fresh (dom (policies st)) in
    (Ok l, KState (<[l := o]> (policies st)) (warnings st) (backend_calls st)
             (import_failure st)).

Definition warn (msg : string) : M kstate unit :=
  fun st => (Ok tt, KState (policies st) (warnings st ++ [msg]) (backend_calls st)
                      (import_failure st)).

(** [from module import names], executed where it stands in a function
    body: it raises what the import machinery raises, and binds the names
    otherwise. *)
Definition import_from (module : string) (names : list string) : M kstate unit :=
  fun st =>
    match import_failure st module names with
    | Some e => (Raise e, st)
    | None => (Ok tt, st)
    end.

Definition decide_cuda (opt : loc) : M kstate bool :=
  do o <- get_opt opt ;; ret (decide_cuda_of o).

(** [dataclasses.replace(self.params, **dataclasses.asdict(opt))] *)
Definition replace_asdict (self_params opt : loc) : M kstate loc :=
  do o <- get_opt opt ;;
  do p <- get_opt self_params ;;
  do r <- lift (replace p (asdict o)) ;;
  new_opt r.

Definition sparsity_error : exn :=
  ValueError "Either all or none of 'X1', 'X2' must be sparse.".

Definition cpu_backend_warning (what : string) : string :=
  what ++ " backend was chosen to be CPU, but GPU input tensors found. "
  ++ "Defaulting to use the GPU (note this may cause issues later). "
  ++ "To force usage of the CPU backend, please pass CPU tensors; "
  ++ "to avoid this warning if the GPU backend is "
  ++ "desired, check your options (i.e. set 'use_cpu=False').".

(** *** The device and sparsity policy resolver

    The CPU backends are imported when the module is loaded.  The CUDA
    backends are imported inside the [if use_cuda:] branch, after the
    sparsity test and the warning: a failing import raises there. *)

Definition _decide_mm_impl (X1 X2 : operand) (opt : loc) : M kstate backend :=
  do use_cuda <- decide_cuda opt ;;
  let sparsity := check_sparse [X1; X2] in
  if negb (py_all sparsity) && py_any sparsity then raise sparsity_error
  else
    let sparsity := py_all sparsity in
    do use_cuda <-
      (if String.eqb (device_type (device_of X1)) "cuda" && negb use_cuda
       then do _ <- warn (cpu_backend_warning "kernel") ;; ret true
       else ret use_cuda) ;;
    if use_cuda then
      do _ <- import_from "falkon.mmv_ops.fmm_cuda" ["fmm_cuda"; "fmm_cuda_sparse"] ;;
      if sparsity then ret fmm_cuda_sparse else ret fmm_cuda
    else
      if sparsity then ret fmm_cpu_sparse else ret fmm_cpu.

Definition _decide_mmv_impl (X1 X2 v : operand) (opt : loc) : M kstate backend :=
  do use_cuda <- decide_cuda opt ;;
  let sparsity := check_sparse [X1; X2] in
  if negb (py_all sparsity) && py_any sparsity then raise sparsity_error
  else
    do use_cuda <-
      (if String.eqb (device_type (device_of X1)) "cuda" && negb use_cuda
       then do _ <- warn (cpu_backend_warning "kernel-vector product") ;; ret true
       else ret use_cuda) ;;
    let sparsity := py_all sparsity in
    if use_cuda then
      do _ <- import_from "falkon.mmv_ops.fmmv_cuda"
                ["fmmv_cuda"; "fmmv_cuda_sparse"] ;;
      if sparsity then ret fmmv_cuda_sparse else ret fmmv_cuda
    else
      if sparsity then ret fmmv_cpu_sparse else ret fmmv_cpu.

Definition _decide_dmmv_impl (X1 X2 : operand) (v w : option operand) (opt : loc)
  : M kstate backend :=
  do use_cuda <- decide_cuda opt ;;
  let sparsity := check_sparse [X1; X2] in
  if negb (py_all sparsity) && py_any sparsity then raise sparsity_error
  else
    do use_cuda <-
      (if String.eqb (device_type (device_of X1)) "cuda" && negb use_cuda
       then do _ <- warn (cpu_backend_warning "kernel-vector double product") ;;
            ret true
       else ret use_cuda) ;;
    let sparsity := py_all sparsity in
    if use_cuda then
      do _ <- import_from "falkon.mmv_ops.fmmv_cuda"
                ["fdmmv_cuda"; "fdmmv_cuda_sparse"] ;;
      if sparsity then ret fdmmv_cuda_sparse else ret fdmmv_cuda
    else
      if sparsity then ret fdmmv_cpu_sparse else ret fdmmv_cpu.

(** *** The public operations *)

Section Operations.

(** Modelled from the spec: the backend functions ([falkon.mmv_ops]) are
    not part of the sources at hand.  The spec (section 3) gives them as
    stateless mappings from the operands, the kernel, the output buffer
    and the policy to the output buffer; they may fail. *)
Variable run_backend : backend_call -> gmap loc FalkonOptions -> result operand.

Definition call_backend (impl : backend) (X1 X2 : operand)
    (vecs : list (option operand)) (self : kernel) (out : option operand)
    (params : loc) : M kstate operand :=
  fun st =>
    let c := BackendCall impl X1 X2 vecs self out params in
    (run_backend c (policies st),
     KState (policies st) (warnings st) (backend_calls st ++ [c])
       (import_failure st)).

Definition __call__ (self : kernel) (X1 X2 : operand) (out : option operand)
    (opt : option loc) : M kstate operand :=
  do '(X1, X2, out) <- lift (_check_mm_dimensions X1 X2 out) ;;
  do _ <- lift (_check_device_properties [Some X1; Some X2; out] "kernel" opt) ;;
  do params <- (match opt with
                | Some o => replace_asdict (params self) o
                | None => ret (params self)
                end) ;;
  do mm_impl <- _decide_mm_impl X1 X2 params ;;
  call_backend mm_impl X1 X2 [] self out params.

(** Kernel(X1, X2)*v *)
Definition mmv (self : kernel) (X1 X2 v : operand) (out : option operand)
    (opt : option loc) : M kstate operand :=
  do '(X1, X2, v, out) <- lift (_check_mmv_dimensions X1 X2 v out) ;;
  do _ <- lift (_check_device_properties
                  [Some X1; Some X2; Some v; out] "mmv" opt) ;;
  do params <- (match opt with
                | Some o => replace_asdict (params self) o
                | None => ret (params self)
                end) ;;
  do mmv_impl <- _decide_mmv_impl X1 X2 v params ;;
  call_backend mmv_impl X1 X2 [Some v] self out params.

(** Kernel(X1, X2)'*(Kernel(X1, X2)*v + w) *)
Definition dmmv (self : kernel) (X1 X2 : operand) (v w out : option operand)
    (opt : option loc) : M kstate operand :=
  do '(X1, X2, v, w, out) <- lift (_check_dmmv_dimensions X1 X2 v w out) ;;
  do _ <- lift (_check_device_properties
                  [Some X1; Some X2; v; w; out] "dmmv" opt) ;;
  do params <- (match opt with
                | Some o => replace_asdict (params self) o
                | None => ret (params self)
                end) ;;
  do dmmv_impl <- _decide_dmmv_impl X1 X2 v w params ;;
  call_backend dmmv_impl X1 X2 [v; w] self out params.

End Operations.

(** *** Notions used to state the properties *)

(** [v] after the reshaping step of the validators. *)
Definition as_column (v : operand) : operand :=
  if (dim v =? 1)%nat then reshape_column v else v.

(** The policy of a call: the kernel's own record, or the merge of it with
    the per-call one.  The three operations contain these lines verbatim. *)
Definition resolve_params (self : kernel) (opt : option loc) : M kstate loc :=
  match opt with
  | Some o => replace_asdict (params self) o
  | None => ret (params self)
  end.

(** The kernel's policy and the per-call policy, when given, are records
    of the store. *)
Definition store_ok (self : kernel) (opt : option loc) (st : kstate) : Prop :=
  is_Some (policies st !! params self)
  /\ forall o, opt = Some o -> is_Some (policies st !! o).

Definition sparse (t : operand) : bool := negb (dense t).

Definition on_gpu (t : operand) : bool :=
  String.eqb (device_type (device_of t)) "cuda".

(** The call raises, and no backend has been invoked. *)
Definition fails_before_backend {A} (m : M kstate A) (st : kstate) : Prop :=
  exists e st', m st = (Raise e, st')
                /\ backend_calls st' = backend_calls st.

(** The call raises the sparsity error; no backend has been invoked and no
    warning emitted. *)
Definition raises_sparsity_error {A} (m : M kstate A) (st : kstate) : Prop :=
  exists st', m st = (Raise sparsity_error, st')
              /\ backend_calls st' = backend_calls st
              /\ warnings st' = warnings st.

(** The four backends of each operation family. *)
Definition mm_backend (use_cuda sparsity : bool) : backend :=
  if use_cuda then (if sparsity then fmm_cuda_sparse else fmm_cuda)
  else (if sparsity then fmm_cpu_sparse else fmm_cpu).

Definition mmv_backend (use_cuda sparsity : bool) : backend :=
  if use_cuda then (if sparsity then fmmv_cuda_sparse else fmmv_cuda)
  else (if sparsity then fmmv_cpu_sparse else fmmv_cpu).

Definition dmmv_backend (use_cuda sparsity : bool) : backend :=
  if use_cuda then (if sparsity then fdmmv_cuda_sparse else fdmmv_cuda)
  else (if sparsity then fdmmv_cpu_sparse else fdmmv_cpu).

(** The store after [warnings.warn(msg)]. *)
Definition warned (st : kstate) (msg : string) : kstate :=
  KState (policies st) (warnings st ++ [msg]) (backend_calls st)
    (import_failure st).

(** The store after a record [o] has been constructed. *)
Definition allocated (st : kstate) (o : FalkonOptions) : kstate :=
  KState (<[fresh (dom (policies st)) := o]> (policies st))
         (warnings st) (backend_calls st) (import_failure st).

(** The common shape of the three operations: validate, check the devices,
    resolve the policy, choose a backend, run it. *)
Definition operation {A} (chk : result A) (dev : A -> result unit)
    (self : kernel) (opt : option loc) (decide : A -> loc -> M kstate backend)
    (run : A -> backend -> loc -> M kstate operand) : M kstate operand :=
  do a <- lift chk ;;
  do _ <- lift (dev a) ;;
  do params <- resolve_params self opt ;;
  do impl <- decide a params ;;
  run a impl params.

(** *** The constructor, and notions for the further properties *)

(** [Kernel.__init__].  [FalkonOptions()] builds a record with the default
    values of its fields; those defaults are declared in [falkon.options]
    and are taken as a parameter. *)
Definition __init__ (default_options : FalkonOptions) (name kernel_type : string)
    (opt : option loc) : M kstate kernel :=
  do opt <- (match opt with
             | None => new_opt default_options
             | Some o => ret o
             end) ;;
  ret (KernelObj name kernel_type opt).

Inductive family : Type := Product | VectorProduct | DoubleVectorProduct.

Definition family_of (b : backend) : family :=
  match b with
  | fmm_cpu | fmm_cpu_sparse | fmm_cuda | fmm_cuda_sparse => Product
  | fmmv_cpu | fmmv_cpu_sparse | fmmv_cuda | fmmv_cuda_sparse => VectorProduct
  | fdmmv_cpu | fdmmv_cpu_sparse | fdmmv_cuda | fdmmv_cuda_sparse =>
      DoubleVectorProduct
  end.

Definition is_sparse_backend (b : backend) : bool :=
  match b with
  | fmm_cpu_sparse | fmm_cuda_sparse | fmmv_cpu_sparse | fmmv_cuda_sparse
  | fdmmv_cpu_sparse | fdmmv_cuda_sparse => true
  | _ => false
  end.

(** The store after a backend call [c] has been recorded. *)
Definition called (st : kstate) (c : backend_call) : kstate :=
  KState (policies st) (warnings st) (backend_calls st ++ [c])
    (import_failure st).

(** The store after the resolver has run for an operand [X1] under the
    policy [o]: one warning more when it overrides the policy. *)
Definition resolved (st : kstate) (X1 : operand) (o : FalkonOptions)
    (what : string) : kstate :=
  if on_gpu X1 && negb (decide_cuda_of o)
  then warned st (cpu_backend_warning what)
  else st.

(** The device the resolver settles on. *)
Definition use_cuda_for (X1 : operand) (o : FalkonOptions) : bool :=
  decide_cuda_of o || on_gpu X1.

(** Per operation family: the name used in the warning, the deferred import
    of the CUDA backends, the table of the four backends and the resolver. *)
Definition operation_name (F : family) : string :=
  match F with
  | Product => "kernel"
  | VectorProduct => "kernel-vector product"
  | DoubleVectorProduct => "kernel-vector double product"
  end.

Definition cuda_module (F : family) : string :=
  match F with
  | Product => "falkon.mmv_ops.fmm_cuda"
  | VectorProduct | DoubleVectorProduct => "falkon.mmv_ops.fmmv_cuda"
  end.

Definition cuda_names (F : family) : list string :=
  match F with
  | Product => ["fmm_cuda"; "fmm_cuda_sparse"]
  | VectorProduct => ["fmmv_cuda"; "fmmv_cuda_sparse"]
  | DoubleVectorProduct => ["fdmmv_cuda"; "fdmmv_cuda_sparse"]
  end.

Definition backend_of (F : family) : bool -> bool -> backend :=
  match F with
  | Product => mm_backend
  | VectorProduct => mmv_backend
  | DoubleVectorProduct => dmmv_backend
  end.

Definition resolver (F : family) (X1 X2 v : operand) (vo wo : option operand)
    (opt : loc) : M kstate backend :=
  match F with
  | Product => _decide_mm_impl X1 X2 opt
  | VectorProduct => _decide_mmv_impl X1 X2 v opt
  | DoubleVectorProduct => _decide_dmmv_impl X1 X2 vo wo opt
  end.

(** What the import of the family's CUDA backends raises in [st]. *)
Definition cuda_import (F : family) (st : kstate) : option exn :=
  import_failure st (cuda_module F) (cuda_names F).

(** The backend the resolver returns for operands of one sparsity under the
    policy [o]: the CPU backend, or the CUDA backend once its import has
    succeeded; the error of the import otherwise. *)
Definition selection (F : family) (st : kstate) (X1 : operand)
    (o : FalkonOptions) : result backend :=
  if use_cuda_for X1 o then
    match cuda_import F st with
    | Some e => Raise e
    | None => Ok (backend_of F true (sparse X1))
    end
  else Ok (backend_of F false (sparse X1)).

(** [v] and [w] of [dmmv] after the reshaping step. *)
Definition as_column_opt (v : option operand) : option operand :=
  as_column <$> v.

End Kernel.

(** ** Selection between the KeOps engine and the standard backends *)

Module Dispatch.

Import KeopsHelpers Kernel.

Inductive mmv_choice : Type :=
| UseKeops
| UseBackend (b : backend).

(** Modelled from the spec: the concrete kernels that combine the mixin's
    predicate with the resolver are not part of the sources at hand.  The
    spec (sections 2, 4.3 and 6) has the eligibility check decide whether
    the engine replaces the standard backend; an operation that is not
    eligible falls back to the standard backend of the resolver. *)
Definition decide_mmv_impl_keops (keops_installed : bool) (X1 X2 v : operand)
    (opt : loc) : M kstate mmv_choice :=
  do o <- get_opt opt ;;
  do eligible <- lift (keops_can_handle_mmv keops_installed X1 X2 None o) ;;
  if eligible then ret UseKeops
  else do b <- _decide_mmv_impl X1 X2 v opt ;; ret (UseBackend b).

End Dispatch.

(** ** Concrete inputs used by the examples below *)

Module Examples.

Import KeopsHelpers Kernel.

Definition dense_on (s : list nat) (d : device) : operand :=
  TorchTensor (Meta s float32 d) false.

Definition sparse_on (s : list nat) (d : device) : operand :=
  SparseTensor (Meta s float32 d).

(** X1 is 100 x 10, X2 is 80 x 10, v is 80 x 3, w is 100 x 3. *)
Definition X1 : operand := dense_on [100; 10] cpu.
Definition X2 : operand := dense_on [80; 10] cpu.
Definition v : operand := dense_on [80; 3] cpu.
Definition w : operand := dense_on [100; 3] cpu.
Definition X1_sparse : operand := sparse_on [100; 10] cpu.
Definition X1_gpu : operand := dense_on [100; 10] (cuda 0).
Definition X2_gpu : operand := dense_on [80; 10] (cuda 0).
Definition X1_gpu_sparse : operand := sparse_on [100; 10] (cuda 0).
Definition v_3d : operand := dense_on [80; 3; 1] cpu.
Definition out_99 : operand := dense_on [99; 3] cpu.
Definition wide : operand := dense_on [100; 64] cpu.

Definition auto_opt : FalkonOptions := Options false "auto".
Definition cpu_opt : FalkonOptions := Options true "auto".
Definition force_opt : FalkonOptions := Options false "force".

(** A kernel whose default policy sits at location 1; location 2 holds a
    per-call policy. *)
Definition gaussian : kernel := KernelObj "Gaussian" "gaussian" 1%positive.

Definition st0 : kstate :=
  KState (<[1%positive := cpu_opt]> (<[2%positive := force_opt]> ∅)) [] []
    (fun _ _ => None).

(** The same store in a process without the CUDA modules. *)
Definition missing_cuda (module : string) (_ : list string) : option exn :=
  if bool_decide (module ∈ ["falkon.mmv_ops.fmm_cuda"; "falkon.mmv_ops.fmmv_cuda"])
  then Some (ModuleNotFoundError ("No module named '" ++ module ++ "'"))
  else None.

Definition st0_no_cuda : kstate :=
  KState (policies st0) [] [] missing_cuda.

(** A backend that returns a buffer of the shape of [out] when it is
    given, and a 100 x 3 buffer otherwise. *)
Definition toy_backend (c : backend_call) (_ : gmap loc FalkonOptions)
  : result operand :=
  Ok (default (dense_on [100; 3] cpu) (bc_out c)).

(** Integer buffers: [toy_mmv] doubles the buffer of [v] into [out], or
    into location 9 when [out] is [None]; it rejects a missing [v]. *)
Definition toy_add (a b : Z) : result Z := Ok (a + b)%Z.

Definition toy_mmv : mmv_callable Z unit :=
  fun '(_, _, v, _, out, _) b =>
    match v ≫= (fun l => b !! l) with
    | Some x => let l := default 9%positive out in
                (Ok (Some l), <[l := (2 * x)%Z]> b)
    | None => (Raise (TypeError "v must be a tensor"), b)
    end.

Definition w0 : world Z unit :=
  World (<[1%positive := 3%Z]> (<[2%positive := 4%Z]> ∅)) [].

Definition no_keops : module_env Z := ModuleEnv None.

(** An engine whose entry point writes 7 into location 8 and returns it,
    and a callable that always fails. *)
Definition toy_keops : callable Z keops_args :=
  fun _ b => (Ok (Some 8%positive), <[8%positive := 7%Z]> b).

Definition with_keops : module_env Z := ModuleEnv (Some toy_keops).

Definition failing_mmv : mmv_callable Z unit :=
  fun _ b => (Raise (RuntimeError "out of memory"), b).

Definition vector : operand := dense_on [80] cpu.
Definition X2_wide : operand := dense_on [80; 64] cpu.
Definition v_gpu : operand := dense_on [80; 3] (cuda 0).
Definition out_ok : operand := dense_on [100; 3] cpu.

Definition w_4 : operand := dense_on [100; 4] cpu.
Definition default_opt : FalkonOptions := Options false "auto".

End Examples.

(** * Properties of [keops_helpers.py] *)

Import KeopsHelpers.

Section EligibilityFacts.

Variable keops_installed : bool.

(** On an operand that has a column count the check returns the
    conjunction of its three conditions. *)
Lemma should_use_keops_eq (T1 T2 : operand) (opt : FalkonOptions) (d : nat) :
  shape T1 !! 1 = Some d ->
  should_use_keops keops_installed T1 T2 opt =
    Ok (dense T1 && dense T2 && decide_keops keops_installed opt
        && ((d <=? 50)%nat || String.eqb (keops_active opt) "force")).
Proof.
  intros Hd. unfold should_use_keops, dense, shape_at. rewrite Hd.
  rewrite (Nat.leb_antisym 50 d).
  destruct T1 as [m1 [|]|m1], T2 as [m2 [|]|m2]; simpl; try reflexivity;
    destruct (decide_keops keops_installed opt); simpl; try reflexivity;
    destruct (50 <? d)%nat; simpl; try reflexivity;
    destruct (String.eqb (keops_active opt) "force"); reflexivity.
Qed.

Lemma should_use_keops_not_dense (T1 T2 : operand) (opt : FalkonOptions) :
  dense T1 = false \/ dense T2 = false ->
  should_use_keops keops_installed T1 T2 opt = Ok false.
Proof.
  unfold should_use_keops, dense.
  destruct T1 as [m1 [|]|m1], T2 as [m2 [|]|m2]; simpl; intros [H|H];
    try discriminate; reflexivity.
Qed.

Lemma should_use_keops_undecided (T1 T2 : operand) (opt : FalkonOptions) :
  decide_keops keops_installed opt = false ->
  should_use_keops keops_installed T1 T2 opt = Ok false.
Proof.
  unfold should_use_keops. intros ->. simpl.
  destruct (negb (isinstance_Tensor T1) || negb (isinstance_Tensor T2)
            || is_sparse T1 || is_sparse T2); reflexivity.
Qed.

Lemma decide_keops_off (opt : FalkonOptions) :
  keops_active opt = "no" -> decide_keops keops_installed opt = false.
Proof.
  intros H. unfold decide_keops. rewrite H. simpl. apply andb_false_r.
Qed.

(** C2: for operands [T1], [T2] where [T1] has a column count [d], the
    eligibility check returns true exactly when both operands are dense,
    [decide_keops] holds, and [d] is at most 50 or the activation mode is
    "force".  It returns false when [d] exceeds 50 in mode "auto", true
    for every [d] in mode "force" (dense operands, engine available), and
    false when an operand is sparse or the mode is "no". *)
Theorem should_use_keops_iff (T1 T2 : operand) (opt : FalkonOptions) (d : nat) :
  shape T1 !! 1 = Some d ->
  (should_use_keops keops_installed T1 T2 opt = Ok true <->
     dense T1 = true /\ dense T2 = true
     /\ decide_keops keops_installed opt = true
     /\ (d <= 50 \/ keops_active opt = "force"))
  /\ (should_use_keops keops_installed T1 T2 opt = Ok false <->
      ~ (dense T1 = true /\ dense T2 = true
         /\ decide_keops keops_installed opt = true
         /\ (d <= 50 \/ keops_active opt = "force")))
  /\ (50 < d -> keops_active opt = "auto" ->
      should_use_keops keops_installed T1 T2 opt = Ok false)
  /\ (keops_active opt = "force" -> dense T1 = true -> dense T2 = true ->
      keops_installed = true ->
      should_use_keops keops_installed T1 T2 opt = Ok true)
  /\ (dense T1 = false \/ dense T2 = false \/ keops_active opt = "no" ->
      should_use_keops keops_installed T1 T2 opt = Ok false).
Proof.
  intros Hd. rewrite (should_use_keops_eq T1 T2 opt d Hd).
  assert (Hcond : dense T1 && dense T2 && decide_keops keops_installed opt
                  && ((d <=? 50)%nat || String.eqb (keops_active opt) "force") = true
                  <-> dense T1 = true /\ dense T2 = true
                      /\ decide_keops keops_installed opt = true
                      /\ (d <= 50 \/ keops_active opt = "force")).
  { rewrite !andb_true_iff, orb_true_iff, Nat.leb_le, String.eqb_eq. tauto. }
  split; [split | split; [split | split; [| split]]].
  - intros H. apply Hcond. congruence.
  - intros H. apply Hcond in H. congruence.
  - intros H Hc. apply Hcond in Hc. congruence.
  - intros H. f_equal. apply not_true_is_false. intros Hc. apply H, Hcond, Hc.
  - intros Hgt Hauto. f_equal. apply not_true_is_false. intros Hc.
    apply Hcond in Hc. destruct Hc as (_ & _ & _ & [Hle | Hf]); [lia | congruence].
  - intros Hf H1 H2 Hk. f_equal. apply Hcond. unfold decide_keops.
    rewrite Hf, Hk. auto.
  - intros [H | [H | H]]; f_equal.
    + rewrite H. reflexivity.
    + rewrite H. apply andb_false_iff. left. apply andb_false_iff. left.
      apply andb_false_r.
    + rewrite (decide_keops_off opt H). rewrite andb_false_r. reflexivity.
Qed.

(** C3: the double-product eligibility holds exactly when the single
    vector-product check passes for (X1, X2, v) and for (X2, X1, w); when
    both checks return, it is their conjunction. *)
Theorem keops_can_handle_dmmv_both_orders (X1 X2 : operand) (v w : option loc)
    (opt : FalkonOptions) :
  (keops_can_handle_dmmv keops_installed X1 X2 v w opt = Ok true <->
     keops_can_handle_mmv keops_installed X1 X2 v opt = Ok true
     /\ keops_can_handle_mmv keops_installed X2 X1 w opt = Ok true)
  /\ (forall b1 b2 : bool,
        should_use_keops keops_installed X1 X2 opt = Ok b1 ->
        should_use_keops keops_installed X2 X1 opt = Ok b2 ->
        keops_can_handle_dmmv keops_installed X1 X2 v w opt = Ok (b1 && b2)).
Proof.
  unfold keops_can_handle_dmmv, keops_can_handle_mmv. split.
  - destruct (should_use_keops keops_installed X1 X2 opt) as [[|]|e]; simpl;
      split; try tauto; try (intros H; discriminate H);
      intros [H _]; discriminate H.
  - intros b1 b2 -> H2. simpl. destruct b1; simpl; [exact H2 | reflexivity].
Qed.

End EligibilityFacts.

Lemma should_use_keops_iff_witness :
  should_use_keops true Examples.X1 Examples.X2 Examples.auto_opt = Ok true
  /\ should_use_keops true Examples.wide Examples.X2 Examples.auto_opt = Ok false
  /\ should_use_keops true Examples.wide Examples.X2 Examples.force_opt = Ok true.
Proof.
  split; [| split].
  - destruct (should_use_keops_iff true Examples.X1 Examples.X2 Examples.auto_opt 10
                eq_refl) as (Hiff & _).
    apply Hiff. split; [reflexivity | split; [reflexivity | split; [reflexivity |]]].
    left. lia.
  - destruct (should_use_keops_iff true Examples.wide Examples.X2 Examples.auto_opt 64
                eq_refl) as (_ & _ & Hauto & _).
    apply Hauto; [lia | reflexivity].
  - destruct (should_use_keops_iff true Examples.wide Examples.X2 Examples.force_opt 64
                eq_refl) as (_ & _ & _ & Hforce & _).
    apply Hforce; reflexivity.
Defined.

Lemma keops_can_handle_dmmv_both_orders_witness :
  keops_can_handle_dmmv true Examples.X1 Examples.X2 None None Examples.auto_opt
  = Ok true.
Proof.
  apply (proj2 (keops_can_handle_dmmv_both_orders true Examples.X1 Examples.X2
                  None None Examples.auto_opt) true true); reflexivity.
Defined.

(** ** Running a computation step by step *)

Lemma bind_ok {St A B} (m : M St A) (k : A -> M St B) (st st' : St) (a : A) :
  m st = (Ok a, st') -> bind m k st = k a st'.
Proof. intros H. unfold bind. rewrite H. reflexivity. Qed.

Lemma bind_raise {St A B} (m : M St A) (k : A -> M St B) (st st' : St) (e : exn) :
  m st = (Raise e, st') -> bind m k st = (Raise e, st').
Proof. intros H. unfold bind. rewrite H. reflexivity. Qed.

Section EngineFacts.

Context {T K : Type}.
Variable tensor_add : T -> T -> result T.

Lemma call_mmv_fn_eq (mmv_fn : mmv_callable T K) (X1 X2 : operand)
    (v : option loc) (kernel : K) (out : option loc) (opt : FalkonOptions)
    (st : world T K) r b :
  mmv_fn (X1, X2, v, kernel, out, opt) (buffers st) = (r, b) ->
  call_mmv_fn mmv_fn X1 X2 v kernel out opt st
  = (r, World b (trace st ++ [MmvCall X1 X2 v kernel out opt])).
Proof. intros H. unfold call_mmv_fn, invoke. rewrite H. reflexivity. Qed.

Lemma add__eq (l1 l2 : loc) (st : world T K) a c s :
  buffers st !! l1 = Some a -> buffers st !! l2 = Some c ->
  tensor_add a c = Ok s ->
  add_ tensor_add (Some l1) (Some l2) st
  = (Ok tt, World (<[l1 := s]> (buffers st)) (trace st)).
Proof.
  intros H1 H2 Hs. unfold add_. rewrite H1. simpl. rewrite H2, Hs. reflexivity.
Qed.

(** C1: the fused double product is two calls of [mmv_fn] with the
    operands swapped on the second one.  With [v] and [w] both given, the
    buffer of the intermediate [t1 = mmv_fn(X1, X2, v)] is overwritten
    with its sum with [w] and [mmv_fn(X2, X1, t1)] is the result; with [w]
    only, the result is [mmv_fn(X2, X1, w)] and nothing runs before it;
    with [v] only, [mmv_fn(X2, X1, mmv_fn(X1, X2, v))] is the result and
    no buffer is changed between the two calls. *)
Theorem keops_dmmv_helper_decomposition (X1 X2 : operand) (kernel : K)
    (out : option loc) (opt : FalkonOptions) (mmv_fn : mmv_callable T K)
    (st : world T K) :
  (forall (lv lw l1 : loc) b1 a c s r b3,
      mmv_fn (X1, X2, Some lv, kernel, None, opt) (buffers st)
        = (Ok (Some l1), b1) ->
      b1 !! l1 = Some a -> b1 !! lw = Some c -> tensor_add a c = Ok s ->
      mmv_fn (X2, X1, Some l1, kernel, out, opt) (<[l1 := s]> b1) = (r, b3) ->
      keops_dmmv_helper tensor_add X1 X2 (Some lv) (Some lw) kernel out opt
        mmv_fn st
      = (r, World b3 (trace st ++ [MmvCall X1 X2 (Some lv) kernel None opt;
                                   MmvCall X2 X1 (Some l1) kernel out opt])))
  /\ (forall (lw : loc) r b1,
      mmv_fn (X2, X1, Some lw, kernel, out, opt) (buffers st) = (r, b1) ->
      keops_dmmv_helper tensor_add X1 X2 None (Some lw) kernel out opt mmv_fn st
      = (r, World b1 (trace st ++ [MmvCall X2 X1 (Some lw) kernel out opt])))
  /\ (forall (lv : loc) t1 b1 r b2,
      mmv_fn (X1, X2, Some lv, kernel, None, opt) (buffers st) = (Ok t1, b1) ->
      mmv_fn (X2, X1, t1, kernel, out, opt) b1 = (r, b2) ->
      keops_dmmv_helper tensor_add X1 X2 (Some lv) None kernel out opt mmv_fn st
      = (r, World b2 (trace st ++ [MmvCall X1 X2 (Some lv) kernel None opt;
                                   MmvCall X2 X1 t1 kernel out opt]))).
Proof.
  split; [| split].
  - intros lv lw l1 b1 a c s r b3 H1 Ha Hc Hs H2.
    unfold keops_dmmv_helper. simpl.
    erewrite bind_ok by (apply call_mmv_fn_eq; exact H1).
    erewrite bind_ok by (apply (add__eq l1 lw _ a c s); [exact Ha | exact Hc | exact Hs]).
    simpl. erewrite call_mmv_fn_eq by exact H2. simpl.
    rewrite <- app_assoc. reflexivity.
  - intros lw r b1 H. unfold keops_dmmv_helper. simpl.
    apply call_mmv_fn_eq, H.
  - intros lv t1 b1 r b2 H1 H2. unfold keops_dmmv_helper. simpl.
    erewrite bind_ok by (apply call_mmv_fn_eq; exact H1).
    erewrite call_mmv_fn_eq by exact H2. simpl.
    rewrite <- app_assoc. reflexivity.
Qed.

(** C10, as amended: with [v] and [w] both [None] the branch [v is None]
    is taken: the helper calls [mmv_fn(X2, X1, None, kernel, out, opt)]
    once and returns what that call returns or raises. *)
Theorem keops_dmmv_helper_both_None (X1 X2 : operand) (kernel : K)
    (out : option loc) (opt : FalkonOptions) (mmv_fn : mmv_callable T K)
    (st : world T K) :
  keops_dmmv_helper tensor_add X1 X2 None None kernel out opt mmv_fn st
  = (let '(r, b) := mmv_fn (X2, X1, None, kernel, out, opt) (buffers st) in
     (r, World b (trace st ++ [MmvCall X2 X1 None kernel out opt]))).
Proof. reflexivity. Qed.

End EngineFacts.

Lemma keops_dmmv_helper_decomposition_witness :
  keops_dmmv_helper Examples.toy_add Examples.X1 Examples.X2
    (Some 1%positive) (Some 2%positive) tt (Some 5%positive) Examples.auto_opt
    Examples.toy_mmv Examples.w0
  = (Ok (Some 5%positive),
     World (<[5%positive := 20%Z]>
              (<[9%positive := 10%Z]>
                 (<[9%positive := 6%Z]> (buffers Examples.w0))))
       [MmvCall Examples.X1 Examples.X2 (Some 1%positive) tt None Examples.auto_opt;
        MmvCall Examples.X2 Examples.X1 (Some 9%positive) tt (Some 5%positive)
          Examples.auto_opt])
  /\ keops_dmmv_helper Examples.toy_add Examples.X1 Examples.X2
       None (Some 2%positive) tt None Examples.auto_opt
       Examples.toy_mmv Examples.w0
     = (Ok (Some 9%positive),
        World (<[9%positive := 8%Z]> (buffers Examples.w0))
          [MmvCall Examples.X2 Examples.X1 (Some 2%positive) tt None
             Examples.auto_opt])
  /\ keops_dmmv_helper Examples.toy_add Examples.X1 Examples.X2
       (Some 1%positive) None tt None Examples.auto_opt
       Examples.toy_mmv Examples.w0
     = (Ok (Some 9%positive),
        World (<[9%positive := 12%Z]> (<[9%positive := 6%Z]> (buffers Examples.w0)))
          [MmvCall Examples.X1 Examples.X2 (Some 1%positive) tt None Examples.auto_opt;
           MmvCall Examples.X2 Examples.X1 (Some 9%positive) tt None
             Examples.auto_opt]).
Proof.
  destruct (keops_dmmv_helper_decomposition Examples.toy_add Examples.X1
              Examples.X2 tt (Some 5%positive) Examples.auto_opt Examples.toy_mmv
              Examples.w0) as (Hboth & _).
  destruct (keops_dmmv_helper_decomposition Examples.toy_add Examples.X1
              Examples.X2 tt None Examples.auto_opt Examples.toy_mmv
              Examples.w0) as (_ & Hw & Hv).
  split; [| split].
  - apply (Hboth 1%positive 2%positive 9%positive
             (<[9%positive := 6%Z]> (buffers Examples.w0)) 6%Z 4%Z 10%Z);
      reflexivity.
  - apply (Hw 2%positive); reflexivity.
  - apply (Hv 1%positive (Some 9%positive)
             (<[9%positive := 6%Z]> (buffers Examples.w0))); reflexivity.
Defined.

(** C10 as stated does not hold: with both vectors [None] the helper does
    call [mmv_fn]; here that call raises. *)
Lemma keops_dmmv_helper_both_None_calls_mmv_fn :
  ~ (forall (mmv_fn : mmv_callable Z unit) (st : world Z unit),
       keops_dmmv_helper Examples.toy_add Examples.X1 Examples.X2 None None tt
         None Examples.auto_opt mmv_fn st = (Ok None, st)).
Proof.
  intros H. specialize (H Examples.toy_mmv Examples.w0). discriminate H.
Qed.

Section NotInstalled.

Context {T K : Type}.

(** C8: without the engine, [keops_mmv] raises [ModuleNotFoundError] and
    leaves the buffers and the call trace as they were, so nothing has been
    computed.  An operation that is merely not eligible raises nothing: the
    check returns [False], and the selection is the one of the standard
    resolver. *)
Theorem keops_mmv_not_installed (env : module_env T) (X1 X2 : operand)
    (v out : option loc) (formula : string) (aliases : list string)
    (other_vars : option (list loc)) (opt : FalkonOptions) (st : world T K) :
  _has_keops env = false ->
  keops_mmv env X1 X2 v out formula aliases other_vars opt st
  = (Raise (ModuleNotFoundError
       "Module 'pykeops' is not properly installed. Please install 'pykeops' before running 'keops_mmv'."),
     st)
  /\ (forall (keops_installed : bool) (d : nat),
        dense X1 = false \/ dense X2 = false
        \/ decide_keops keops_installed opt = false
        \/ (shape X1 !! 1 = Some d /\ 50 < d /\ keops_active opt <> "force") ->
        should_use_keops keops_installed X1 X2 opt = Ok false)
  /\ (forall (keops_installed : bool) (x : operand) (l : loc)
             (ks : Kernel.kstate),
        Kernel.policies ks !! l = Some opt ->
        should_use_keops keops_installed X1 X2 opt = Ok false ->
        Dispatch.decide_mmv_impl_keops keops_installed X1 X2 x l ks
        = (let '(r, ks') := Kernel._decide_mmv_impl X1 X2 x l ks in
           (match r with
            | Ok b => Ok (Dispatch.UseBackend b)
            | Raise e => Raise e
            end, ks'))).
Proof.
  intros Hno. split; [| split].
  - unfold keops_mmv. rewrite Hno. reflexivity.
  - intros ki d [H | [H | [H | (Hd & Hgt & Hf)]]].
    + apply should_use_keops_not_dense. left. exact H.
    + apply should_use_keops_not_dense. right. exact H.
    + apply should_use_keops_undecided. exact H.
    + rewrite (should_use_keops_eq ki X1 X2 opt d Hd). f_equal.
      apply andb_false_iff. right. apply orb_false_iff. split.
      * apply Nat.leb_gt. exact Hgt.
      * apply String.eqb_neq. exact Hf.
  - intros ki x l ks Hl Hne. unfold Dispatch.decide_mmv_impl_keops.
    erewrite bind_ok by (unfold Kernel.get_opt; rewrite Hl; reflexivity).
    unfold keops_can_handle_mmv. rewrite Hne.
    unfold lift at 1. unfold bind at 1.
    unfold bind at 1. destruct (Kernel._decide_mmv_impl X1 X2 x l ks) as [[b | e] ks'];
      reflexivity.
Qed.

End NotInstalled.

Lemma keops_mmv_not_installed_witness :
  keops_mmv Examples.no_keops Examples.wide Examples.X2 (Some 1%positive) None
    "formula" [] None Examples.cpu_opt Examples.w0
  = (Raise (ModuleNotFoundError
       "Module 'pykeops' is not properly installed. Please install 'pykeops' before running 'keops_mmv'."),
     Examples.w0)
  /\ should_use_keops true Examples.wide Examples.X2 Examples.cpu_opt = Ok false
  /\ Dispatch.decide_mmv_impl_keops true Examples.wide Examples.X2 Examples.v
       1%positive Examples.st0
     = (Ok (Dispatch.UseBackend Kernel.fmmv_cpu), Examples.st0).
Proof.
  destruct (keops_mmv_not_installed (K := unit) Examples.no_keops Examples.wide
              Examples.X2 (Some 1%positive) None "formula" [] None
              Examples.cpu_opt Examples.w0 eq_refl) as (Hraise & Hfalse & Hstd).
  split; [exact Hraise | split].
  - apply (Hfalse true 64). right. right. right.
    split; [reflexivity | split; [lia | discriminate]].
  - apply (Hstd true Examples.v 1%positive Examples.st0); reflexivity.
Defined.

(** * Properties of [kernel.py] *)

Import Kernel.

Lemma dim2_shape (t : operand) : dim t = 2 -> exists a b, shape t = [a; b].
Proof.
  unfold dim. destruct (shape t) as [| a [| b [| c l]]]; simpl; intros H;
    try discriminate H. eauto.
Qed.

Lemma rbind_when {A} (c : bool) (e : exn) (k : unit -> result A) :
  rbind (when_raise c e) k = if c then Raise e else k tt.
Proof. destruct c; reflexivity. Qed.

Section ValidationFacts.

Variable run_backend : backend_call -> gmap loc FalkonOptions -> result operand.

(** C4: [dmmv] without [v] and without [w] raises the "One of v and w must
    be specified" error whatever the other arguments are, and nothing else
    has happened when it does. *)
Theorem dmmv_requires_v_or_w (self : kernel) (X1 X2 : operand)
    (out : option operand) (opt : option loc) (st : kstate) :
  _check_dmmv_dimensions X1 X2 None None out
  = Raise (ValueError "One of v and w must be specified to run fdMMV.")
  /\ dmmv run_backend self X1 X2 None None out opt st
     = (Raise (ValueError "One of v and w must be specified to run fdMMV."), st).
Proof. split; reflexivity. Qed.


Lemma shape_with_shape (t : operand) (s : list nat) : shape (with_shape t s) = s.
Proof. destruct t; reflexivity. Qed.

Lemma as_column_vector (v : operand) :
  dim v = 1 -> as_column v = reshape_column v.
Proof. intros H. unfold as_column. rewrite H. reflexivity. Qed.

Lemma as_column_other (v : operand) : dim v <> 1 -> as_column v = v.
Proof.
  intros H. unfold as_column. destruct (Nat.eqb_spec (dim v) 1); [contradiction | reflexivity].
Qed.

Lemma dim_as_column (v : operand) :
  dim (as_column v) = 2 <-> dim v = 1 \/ dim v = 2.
Proof.
  destruct (decide (dim v = 1)) as [H1 | H1].
  - rewrite (as_column_vector v H1). unfold dim at 1, reshape_column.
    rewrite shape_with_shape. simpl. tauto.
  - rewrite (as_column_other v H1). tauto.
Qed.

Lemma check_mmv_X1 (X1 X2 v : operand) (out : option operand) :
  dim X1 <> 2 ->
  _check_mmv_dimensions X1 X2 v out = Raise (ValueError "Matrix X1 must be 2D.").
Proof.
  intros H. unfold _check_mmv_dimensions.
  destruct (Nat.eqb_spec (dim X1) 2); [contradiction | reflexivity].
Qed.

Lemma check_mmv_X2 (X1 X2 v : operand) (out : option operand) :
  dim X1 = 2 -> dim X2 <> 2 ->
  _check_mmv_dimensions X1 X2 v out = Raise (ValueError "Matrix X2 must be 2D.").
Proof.
  intros H1 H2. unfold _check_mmv_dimensions. rewrite H1. simpl.
  destruct (Nat.eqb_spec (dim X2) 2); [contradiction | reflexivity].
Qed.

Lemma check_mmv_v (X1 X2 v : operand) (out : option operand) :
  dim X1 = 2 -> dim X2 = 2 -> dim (as_column v) <> 2 ->
  _check_mmv_dimensions X1 X2 v out
  = Raise (ValueError ("v must be a vector or a 2D matrix. Found "
                       ++ str_nat (dim (as_column v)) ++ "D.")).
Proof.
  intros H1 H2 H3. unfold _check_mmv_dimensions. rewrite H1, H2. simpl.
  fold (as_column v).
  destruct (Nat.eqb_spec (dim (as_column v)) 2); [contradiction | reflexivity].
Qed.

(** Once the three ranks are right, the remaining checks. *)
Lemma check_mmv_shapes (X1 X2 v : operand) (out : option operand)
    (N D1 M D2 A T : nat) :
  shape X1 = [N; D1] -> shape X2 = [M; D2] -> shape (as_column v) = [A; T] ->
  _check_mmv_dimensions X1 X2 v out
  = rbind (match out with
           | Some o => when_raise (bool_decide (shape o <> [N; T]))
               (ValueError ("Output dimension is incorrect. Expected "
                            ++ str_pair N T ++ " found " ++ str_shape (shape o)))
           | None => Ok tt
           end) (fun _ =>
    rbind (when_raise (bool_decide (A <> M))
             (ValueError ("Dimensions of matrix v are incorrect: Expected "
                          ++ str_pair M T ++ " found "
                          ++ str_shape (shape (as_column v))))) (fun _ =>
    rbind (when_raise (negb (check_same_dtype
                               [Some X1; Some X2; Some (as_column v); out]))
             (TypeError "Data types of input matrices must be equal.")) (fun _ =>
    Ok (X1, X2, as_column v, out)))).
Proof.
  intros H1 H2 H3. unfold _check_mmv_dimensions, dim, size.
  fold (dim v). fold (as_column v). rewrite H1, H2, H3. simpl.
  destruct out as [o |]; simpl.
  - destruct (bool_decide (shape o <> [N; T])); simpl; [reflexivity |].
    rewrite (bool_decide_ext ([A; T] <> [M; T]) (A <> M)) by (split; congruence).
    reflexivity.
  - rewrite (bool_decide_ext ([A; T] <> [M; T]) (A <> M)) by (split; congruence).
    reflexivity.
Qed.

(** C6: what [_check_mmv_dimensions] accepts and what it raises, and that
    [mmv] stops with the same error before a backend is chosen or run. *)
Theorem check_mmv_dimensions_spec (X1 X2 v : operand) (out : option operand) :
  (forall r, _check_mmv_dimensions X1 X2 v out = Ok r <->
     r = (X1, X2, as_column v, out)
     /\ (dim v = 1 \/ dim v = 2)
     /\ exists N D1 M D2 T,
          shape X1 = [N; D1] /\ shape X2 = [M; D2]
          /\ shape (as_column v) = [M; T]
          /\ (forall o, out = Some o -> shape o = [N; T])
          /\ check_same_dtype [Some X1; Some X2; Some (as_column v); out] = true)
  /\ (dim v = 1 -> shape (as_column v) = [numel v; 1] /\ shape v = [numel v])
  /\ (dim X1 <> 2 ->
      _check_mmv_dimensions X1 X2 v out = Raise (ValueError "Matrix X1 must be 2D."))
  /\ (dim X1 = 2 -> dim X2 <> 2 ->
      _check_mmv_dimensions X1 X2 v out = Raise (ValueError "Matrix X2 must be 2D."))
  /\ (dim X1 = 2 -> dim X2 = 2 -> dim v <> 1 -> dim v <> 2 ->
      _check_mmv_dimensions X1 X2 v out
      = Raise (ValueError ("v must be a vector or a 2D matrix. Found "
                           ++ str_nat (dim v) ++ "D.")))
  /\ (forall N D1 A T o,
        shape X1 = [N; D1] -> dim X2 = 2 -> shape (as_column v) = [A; T] ->
        out = Some o -> shape o <> [N; T] ->
        _check_mmv_dimensions X1 X2 v out
        = Raise (ValueError ("Output dimension is incorrect. Expected "
                             ++ str_pair N T ++ " found " ++ str_shape (shape o))))
  /\ (forall N D1 M D2 A T,
        shape X1 = [N; D1] -> shape X2 = [M; D2] -> shape (as_column v) = [A; T] ->
        (forall o, out = Some o -> shape o = [N; T]) -> A <> M ->
        _check_mmv_dimensions X1 X2 v out
        = Raise (ValueError ("Dimensions of matrix v are incorrect: Expected "
                             ++ str_pair M T ++ " found "
                             ++ str_shape (shape (as_column v)))))
  /\ (forall N D1 M D2 T,
        shape X1 = [N; D1] -> shape X2 = [M; D2] -> shape (as_column v) = [M; T] ->
        (forall o, out = Some o -> shape o = [N; T]) ->
        check_same_dtype [Some X1; Some X2; Some (as_column v); out] = false ->
        _check_mmv_dimensions X1 X2 v out
        = Raise (TypeError "Data types of input matrices must be equal."))
  /\ (forall (self : kernel) (opt : option loc) (st : kstate) (e : exn),
        _check_mmv_dimensions X1 X2 v out = Raise e ->
        mmv run_backend self X1 X2 v out opt st = (Raise e, st)).
Proof.
  split; [| split; [| split; [| split; [| split; [| split; [| split; [| split]]]]]]].
  - intros r. split.
    + intros Hr.
      destruct (decide (dim X1 = 2)) as [H1 | H1];
        [| rewrite (check_mmv_X1 X1 X2 v out H1) in Hr; discriminate Hr].
      destruct (decide (dim X2 = 2)) as [H2 | H2];
        [| rewrite (check_mmv_X2 X1 X2 v out H1 H2) in Hr; discriminate Hr].
      destruct (decide (dim (as_column v) = 2)) as [H3 | H3];
        [| rewrite (check_mmv_v X1 X2 v out H1 H2 H3) in Hr; discriminate Hr].
      destruct (dim2_shape X1 H1) as (N & D1 & E1).
      destruct (dim2_shape X2 H2) as (M & D2 & E2).
      destruct (dim2_shape (as_column v) H3) as (A & T & E3).
      rewrite (check_mmv_shapes X1 X2 v out N D1 M D2 A T E1 E2 E3) in Hr.
      assert (Hout : forall o, out = Some o -> shape o = [N; T]).
      { intros o ->. simpl in Hr. rewrite rbind_when in Hr.
        destruct (decide (shape o = [N; T])) as [Ho | Ho]; [exact Ho |].
        rewrite bool_decide_eq_true_2 in Hr by exact Ho. discriminate Hr. }
      assert (Hskip : match out with
                      | Some o => when_raise (bool_decide (shape o <> [N; T]))
                          (ValueError ("Output dimension is incorrect. Expected "
                             ++ str_pair N T ++ " found " ++ str_shape (shape o)))
                      | None => Ok tt
                      end = Ok tt).
      { destruct out as [o |]; [| reflexivity].
        rewrite bool_decide_eq_false_2; [reflexivity |].
        intros Hne. apply Hne, Hout. reflexivity. }
      rewrite Hskip in Hr. simpl in Hr. rewrite !rbind_when in Hr.
      destruct (decide (A = M)) as [-> | HA];
        [| rewrite bool_decide_eq_true_2 in Hr by exact HA; discriminate Hr].
      rewrite bool_decide_eq_false_2 in Hr by (intros Hne; apply Hne; reflexivity).
      destruct (check_same_dtype [Some X1; Some X2; Some (as_column v); out]) eqn:Hd;
        simpl in Hr; [| discriminate Hr].
      split; [congruence |]. split; [apply dim_as_column, H3 |].
      exists N, D1, M, D2, T. auto.
    + intros (-> & _ & N & D1 & M & D2 & T & E1 & E2 & E3 & Hout & Hd).
      rewrite (check_mmv_shapes X1 X2 v out N D1 M D2 M T E1 E2 E3).
      destruct out as [o |]; simpl.
      * rewrite bool_decide_eq_false_2
          by (intros Hne; apply Hne, Hout; reflexivity).
        simpl. rewrite !rbind_when.
        rewrite bool_decide_eq_false_2 by (intros Hne; apply Hne; reflexivity).
        rewrite Hd. reflexivity.
      * rewrite !rbind_when.
        rewrite bool_decide_eq_false_2 by (intros Hne; apply Hne; reflexivity).
        rewrite Hd. reflexivity.
  - intros H1. rewrite (as_column_vector v H1). unfold reshape_column.
    rewrite shape_with_shape. unfold numel. unfold dim in H1.
    destruct (shape v) as [| n [| m l]]; try discriminate H1.
    simpl. rewrite Nat.mul_1_r. split; reflexivity.
  - apply check_mmv_X1.
  - apply check_mmv_X2.
  - intros H1 H2 Hv1 Hv2. rewrite <- (as_column_other v Hv1) at 2.
    apply check_mmv_v; [exact H1 | exact H2 |].
    rewrite dim_as_column. tauto.
  - intros N D1 A T o E1 H2 E3 -> Ho.
    destruct (dim2_shape X2 H2) as (M & D2 & E2).
    rewrite (check_mmv_shapes X1 X2 v (Some o) N D1 M D2 A T E1 E2 E3).
    rewrite rbind_when. rewrite bool_decide_eq_true_2 by exact Ho. reflexivity.
  - intros N D1 M D2 A T E1 E2 E3 Hout HA.
    rewrite (check_mmv_shapes X1 X2 v out N D1 M D2 A T E1 E2 E3).
    destruct out as [o |]; simpl.
    + rewrite bool_decide_eq_false_2
        by (intros Hne; apply Hne, Hout; reflexivity).
      simpl. rewrite rbind_when. rewrite bool_decide_eq_true_2 by exact HA.
      reflexivity.
    + rewrite rbind_when. rewrite bool_decide_eq_true_2 by exact HA. reflexivity.
  - intros N D1 M D2 T E1 E2 E3 Hout Hd.
    rewrite (check_mmv_shapes X1 X2 v out N D1 M D2 M T E1 E2 E3).
    destruct out as [o |]; simpl.
    + rewrite bool_decide_eq_false_2
        by (intros Hne; apply Hne, Hout; reflexivity).
      simpl. rewrite !rbind_when.
      rewrite bool_decide_eq_false_2 by (intros Hne; apply Hne; reflexivity).
      rewrite Hd. reflexivity.
    + rewrite !rbind_when.
      rewrite bool_decide_eq_false_2 by (intros Hne; apply Hne; reflexivity).
      rewrite Hd. reflexivity.
  - intros self opt st e He. unfold mmv.
    apply bind_raise. unfold lift. rewrite He. reflexivity.
Qed.

End ValidationFacts.

Lemma check_mmv_dimensions_spec_witness :
  _check_mmv_dimensions Examples.X1 Examples.X2 Examples.v (Some Examples.out_99)
  = Raise (ValueError
      "Output dimension is incorrect. Expected (100, 3) found torch.Size([99, 3])")
  /\ _check_mmv_dimensions Examples.X1 Examples.X2 Examples.v None
     = Ok (Examples.X1, Examples.X2, Examples.v, None)
  /\ mmv Examples.toy_backend Examples.gaussian Examples.X1 Examples.X2
       Examples.v_3d None None Examples.st0
     = (Raise (ValueError "v must be a vector or a 2D matrix. Found 3D."),
        Examples.st0).
Proof.
  split; [| split].
  - destruct (check_mmv_dimensions_spec Examples.toy_backend Examples.X1
                Examples.X2 Examples.v (Some Examples.out_99))
      as (_ & _ & _ & _ & _ & Hout & _).
    apply (Hout 100 10 80 3 Examples.out_99); try reflexivity. discriminate.
  - destruct (check_mmv_dimensions_spec Examples.toy_backend Examples.X1
                Examples.X2 Examples.v None) as (Hok & _).
    apply Hok. split; [reflexivity | split; [right; reflexivity |]].
    exists 100, 10, 80, 10, 3.
    split; [reflexivity | split; [reflexivity | split; [reflexivity |]]].
    split; [intros o Ho; discriminate Ho | reflexivity].
  - destruct (check_mmv_dimensions_spec Examples.toy_backend Examples.X1
                Examples.X2 Examples.v_3d None)
      as (_ & _ & _ & _ & Hrank & _ & _ & _ & Hmmv).
    apply Hmmv. apply Hrank; try reflexivity; discriminate.
Defined.

(** ** The resolver *)

Lemma get_opt_ok (l : loc) (o : FalkonOptions) (st : kstate) :
  policies st !! l = Some o -> get_opt l st = (Ok o, st).
Proof. intros H. unfold get_opt. rewrite H. reflexivity. Qed.

Lemma get_opt_frame (l : loc) (st st' : kstate) (r : result FalkonOptions) :
  get_opt l st = (r, st') -> st' = st.
Proof.
  unfold get_opt. destruct (policies st !! l); intros H; congruence.
Qed.

Lemma decide_cuda_ok (l : loc) (o : FalkonOptions) (st : kstate) :
  policies st !! l = Some o -> decide_cuda l st = (Ok (decide_cuda_of o), st).
Proof.
  intros H. unfold decide_cuda. erewrite bind_ok by (apply get_opt_ok, H).
  reflexivity.
Qed.

Lemma decide_cuda_dangling (l : loc) (st : kstate) :
  policies st !! l = None ->
  decide_cuda l st = (Raise (AttributeError "not an options record"), st).
Proof.
  intros H. unfold decide_cuda, get_opt, bind. rewrite H. reflexivity.
Qed.

Lemma policies_resolved (st : kstate) (X1 : operand) (o : FalkonOptions)
    (what : string) :
  policies (resolved st X1 o what) = policies st.
Proof. unfold resolved. destruct (on_gpu X1 && negb (decide_cuda_of o)); reflexivity. Qed.

(** The three resolvers in one equation: for a policy record [o], either
    the sparsity error, or the selected backend (or the error of the
    deferred import) after the warning, if any. *)
Lemma resolver_eq (F : family) (X1 X2 v : operand) (vo wo : option operand)
    (l : loc) (o : FalkonOptions) (st : kstate) :
  policies st !! l = Some o ->
  resolver F X1 X2 v vo wo l st
  = if xorb (sparse X1) (sparse X2) then (Raise sparsity_error, st)
    else (selection F st X1 o, resolved st X1 o (operation_name F)).
Proof.
  intros H.
  destruct F; simpl;
    unfold _decide_mm_impl, _decide_mmv_impl, _decide_dmmv_impl;
    (erewrite bind_ok by (apply decide_cuda_ok, H));
    unfold selection, cuda_import, resolved, use_cuda_for, sparse, on_gpu,
      check_sparse, py_all, py_any, mm_backend, mmv_backend, dmmv_backend,
      import_from, warn, warned, raise, ret, bind; simpl;
    destruct (dense X1), (dense X2),
      (String.eqb (device_type (device_of X1)) "cuda"), (decide_cuda_of o);
    simpl; try reflexivity;
    match goal with
    | |- context [import_failure st ?m ?n] => destruct (import_failure st m n)
    end; reflexivity.
Qed.

Lemma resolver_dangling (F : family) (X1 X2 v : operand) (vo wo : option operand)
    (l : loc) (st : kstate) :
  policies st !! l = None ->
  resolver F X1 X2 v vo wo l st
  = (Raise (AttributeError "not an options record"), st).
Proof.
  intros H.
  destruct F; simpl;
    unfold _decide_mm_impl, _decide_mmv_impl, _decide_dmmv_impl;
    (erewrite bind_raise by (apply decide_cuda_dangling, H)); reflexivity.
Qed.

Lemma _decide_mm_impl_eq (X1 X2 : operand) (l : loc) (o : FalkonOptions)
    (st : kstate) :
  policies st !! l = Some o ->
  _decide_mm_impl X1 X2 l st
  = if xorb (sparse X1) (sparse X2) then (Raise sparsity_error, st)
    else (selection Product st X1 o, resolved st X1 o "kernel").
Proof. apply (resolver_eq Product X1 X2 X1 None None). Qed.

Lemma _decide_mmv_impl_eq (X1 X2 v : operand) (l : loc) (o : FalkonOptions)
    (st : kstate) :
  policies st !! l = Some o ->
  _decide_mmv_impl X1 X2 v l st
  = if xorb (sparse X1) (sparse X2) then (Raise sparsity_error, st)
    else (selection VectorProduct st X1 o,
          resolved st X1 o "kernel-vector product").
Proof. apply (resolver_eq VectorProduct X1 X2 v None None). Qed.

Lemma _decide_dmmv_impl_eq (X1 X2 : operand) (v w : option operand) (l : loc)
    (o : FalkonOptions) (st : kstate) :
  policies st !! l = Some o ->
  _decide_dmmv_impl X1 X2 v w l st
  = if xorb (sparse X1) (sparse X2) then (Raise sparsity_error, st)
    else (selection DoubleVectorProduct st X1 o,
          resolved st X1 o "kernel-vector double product").
Proof. apply (resolver_eq DoubleVectorProduct X1 X2 X1 v w). Qed.

Lemma is_cuda_backend_of (F : family) (c s : bool) :
  is_cuda_backend (backend_of F c s) = c.
Proof. destruct F, c, s; reflexivity. Qed.

(** C7 as stated does not hold: in a process without the CUDA modules, with
    [X1] and [X2] dense on the same GPU and a CPU-only policy, the resolver
    emits the warning and then raises the error of the deferred import: no
    backend is selected. *)
Lemma resolver_override_import_error :
  ~ (forall (X1 X2 : operand) (l : loc) (o : FalkonOptions) (st : kstate),
       policies st !! l = Some o ->
       sparse X1 = sparse X2 ->
       device_of X1 = device_of X2 ->
       on_gpu X1 = true \/ on_gpu X2 = true ->
       decide_cuda_of o = false ->
       exists b st',
         _decide_mm_impl X1 X2 l st = (Ok b, st')
         /\ is_cuda_backend b = true
         /\ warnings st' <> warnings st).
Proof.
  intros H.
  destruct (H Examples.X1_gpu Examples.X2_gpu 1%positive Examples.cpu_opt
              Examples.st0_no_cuda)
    as (b & st' & Hrun & _); try reflexivity.
  - left. reflexivity.
  - vm_compute in Hrun. discriminate Hrun.
Qed.

(** C7, as amended: for each operation family and for [X1], [X2] of one
    sparsity and on one device.  When an operand is on a GPU and
    [decide_cuda] is false, the resolver emits one warning and turns to the
    CUDA backends; when [decide_cuda] is true it turns to them without a
    warning.  Turning to the CUDA backends means importing them at that
    point: the CUDA backend for the sparsity is returned when the import
    succeeds, and the error of the import is raised, after the warning,
    when it fails.  When no operand is on a GPU and [decide_cuda] is false,
    the CPU backend for the sparsity is returned; nothing is imported and no
    warning is emitted. *)
Theorem resolver_override (F : family) (X1 X2 v : operand)
    (vo wo : option operand) (l : loc) (o : FalkonOptions) (st : kstate) :
  policies st !! l = Some o ->
  sparse X1 = sparse X2 ->
  device_of X1 = device_of X2 ->
  (on_gpu X1 = true \/ on_gpu X2 = true -> decide_cuda_of o = false ->
     (cuda_import F st = None ->
        resolver F X1 X2 v vo wo l st
        = (Ok (backend_of F true (sparse X1)),
           warned st (cpu_backend_warning (operation_name F)))
        /\ is_cuda_backend (backend_of F true (sparse X1)) = true)
     /\ (forall e, cuda_import F st = Some e ->
        resolver F X1 X2 v vo wo l st
        = (Raise e, warned st (cpu_backend_warning (operation_name F)))))
  /\ (decide_cuda_of o = true ->
     (cuda_import F st = None ->
        resolver F X1 X2 v vo wo l st
        = (Ok (backend_of F true (sparse X1)), st)
        /\ is_cuda_backend (backend_of F true (sparse X1)) = true)
     /\ (forall e, cuda_import F st = Some e ->
        resolver F X1 X2 v vo wo l st = (Raise e, st)))
  /\ (on_gpu X1 = false -> on_gpu X2 = false -> decide_cuda_of o = false ->
     resolver F X1 X2 v vo wo l st
     = (Ok (backend_of F false (sparse X1)), st)
     /\ is_cuda_backend (backend_of F false (sparse X1)) = false).
Proof.
  intros Hl Hs Hd.
  rewrite (resolver_eq F X1 X2 v vo wo l o st Hl).
  rewrite <- Hs, xorb_nilpotent.
  assert (Hg : on_gpu X2 = on_gpu X1).
  { unfold on_gpu. rewrite Hd. reflexivity. }
  rewrite Hg. unfold selection, resolved, use_cuda_for.
  split; [| split].
  - intros Hgpu Hc.
    assert (Hg1 : on_gpu X1 = true) by (destruct Hgpu as [H | H]; exact H).
    rewrite Hg1, Hc. simpl. split.
    + intros Hi. rewrite Hi. split; [reflexivity | apply is_cuda_backend_of].
    + intros e Hi. rewrite Hi. reflexivity.
  - intros Hc. rewrite Hc, andb_false_r. simpl. split.
    + intros Hi. rewrite Hi. split; [reflexivity | apply is_cuda_backend_of].
    + intros e Hi. rewrite Hi. reflexivity.
  - intros Hg1 _ Hc. rewrite Hg1, Hc. simpl.
    split; [reflexivity | apply is_cuda_backend_of].
Qed.

Lemma resolver_override_witness :
  _decide_mmv_impl Examples.X1_gpu Examples.X2_gpu Examples.v 1%positive Examples.st0
  = (Ok fmmv_cuda,
     warned Examples.st0 (cpu_backend_warning "kernel-vector product"))
  /\ _decide_mmv_impl Examples.X1_gpu Examples.X2_gpu Examples.v 1%positive
       Examples.st0_no_cuda
     = (Raise (ModuleNotFoundError "No module named 'falkon.mmv_ops.fmmv_cuda'"),
        warned Examples.st0_no_cuda (cpu_backend_warning "kernel-vector product"))
  /\ _decide_mm_impl Examples.X1 Examples.X2 1%positive Examples.st0_no_cuda
     = (Ok fmm_cpu, Examples.st0_no_cuda).
Proof.
  split; [| split].
  - destruct (resolver_override VectorProduct Examples.X1_gpu Examples.X2_gpu
                Examples.v None None 1%positive Examples.cpu_opt Examples.st0
                eq_refl eq_refl eq_refl) as (Hover & _).
    destruct (Hover (or_introl eq_refl) eq_refl) as (Hok & _).
    destruct (Hok eq_refl) as (Hrun & _). exact Hrun.
  - destruct (resolver_override VectorProduct Examples.X1_gpu Examples.X2_gpu
                Examples.v None None 1%positive Examples.cpu_opt
                Examples.st0_no_cuda eq_refl eq_refl eq_refl) as (Hover & _).
    destruct (Hover (or_introl eq_refl) eq_refl) as (_ & Hfail).
    exact (Hfail _ eq_refl).
  - destruct (resolver_override Product Examples.X1 Examples.X2 Examples.v None
                None 1%positive Examples.cpu_opt Examples.st0_no_cuda
                eq_refl eq_refl eq_refl) as (_ & _ & Hcpu).
    destruct (Hcpu eq_refl eq_refl eq_refl) as (Hrun & _). exact Hrun.
Defined.

(** ** Policy records and the store *)

Lemma replace_asdict_fields (p q : FalkonOptions) : replace p (asdict q) = Ok q.
Proof.
  unfold replace, asdict.
  rewrite bool_decide_eq_true_2
    by (rewrite !dom_insert_L; unfold field_names; set_solver).
  rewrite lookup_insert_eq. simpl.
  rewrite lookup_insert_ne by discriminate. rewrite lookup_insert_eq. simpl.
  destruct q; reflexivity.
Qed.

Lemma fresh_loc_unused (st : kstate) :
  policies st !! fresh (dom (policies st)) = None.
Proof. apply not_elem_of_dom, is_fresh. Qed.

Lemma allocated_extends (st : kstate) (o : FalkonOptions) :
  policies st ⊆ policies (allocated st o).
Proof. unfold allocated. simpl. apply insert_subseteq, fresh_loc_unused. Qed.

Lemma replace_asdict_ok (lp lo : loc) (p q : FalkonOptions) (st : kstate) :
  policies st !! lp = Some p -> policies st !! lo = Some q ->
  replace_asdict lp lo st = (Ok (fresh (dom (policies st))), allocated st q).
Proof.
  intros Hp Hq. unfold replace_asdict.
  erewrite bind_ok by (apply get_opt_ok, Hq).
  erewrite bind_ok by (apply get_opt_ok, Hp).
  rewrite replace_asdict_fields. reflexivity.
Qed.

(** Whatever happens, resolving the policy only adds a record. *)
Lemma resolve_params_frame (self : kernel) (opt : option loc) (st st' : kstate)
    (r : result loc) :
  resolve_params self opt st = (r, st') ->
  policies st ⊆ policies st' /\ warnings st' = warnings st
  /\ backend_calls st' = backend_calls st.
Proof.
  unfold resolve_params. destruct opt as [o |].
  - unfold replace_asdict, bind, get_opt.
    destruct (policies st !! o) as [q |] eqn:Hq;
      [| intros H; inversion H; subst; auto].
    destruct (policies st !! params self) as [p |] eqn:Hp;
      [| intros H; inversion H; subst; auto].
    rewrite replace_asdict_fields. unfold lift, new_opt. intros H.
    inversion H; subst. simpl. split; [| auto].
    apply insert_subseteq, fresh_loc_unused.
  - unfold ret. intros H. inversion H; subst. auto.
Qed.

Lemma resolve_params_ok (self : kernel) (opt : option loc) (st : kstate) :
  store_ok self opt st ->
  exists l st', resolve_params self opt st = (Ok l, st')
                /\ is_Some (policies st' !! l).
Proof.
  intros [[p Hp] Ho]. unfold resolve_params. destruct opt as [o |].
  - destruct (Ho o eq_refl) as [q Hq].
    rewrite (replace_asdict_ok _ _ p q st Hp Hq).
    eexists _, _. split; [reflexivity |]. unfold allocated. simpl.
    rewrite lookup_insert_eq. eauto.
  - exists (params self), st. split; [reflexivity | eauto].
Qed.

(** ** The three operations as instances of one shape *)

Section OperationFacts.

Variable run_backend : backend_call -> gmap loc FalkonOptions -> result operand.

Lemma __call___shape (self : kernel) (X1 X2 : operand) (out : option operand)
    (opt : option loc) (st : kstate) :
  __call__ run_backend self X1 X2 out opt st
  = operation (_check_mm_dimensions X1 X2 out)
      (fun '(X1, X2, out) =>
         _check_device_properties [Some X1; Some X2; out] "kernel" opt)
      self opt
      (fun '(X1, X2, out) params => _decide_mm_impl X1 X2 params)
      (fun '(X1, X2, out) impl params =>
         call_backend run_backend impl X1 X2 [] self out params) st.
Proof.
  unfold __call__, operation, resolve_params, bind, lift.
  destruct (_check_mm_dimensions X1 X2 out) as [[[a b] c] | e]; reflexivity.
Qed.

Lemma mmv_shape (self : kernel) (X1 X2 v : operand) (out : option operand)
    (opt : option loc) (st : kstate) :
  mmv run_backend self X1 X2 v out opt st
  = operation (_check_mmv_dimensions X1 X2 v out)
      (fun '(X1, X2, v, out) =>
         _check_device_properties [Some X1; Some X2; Some v; out] "mmv" opt)
      self opt
      (fun '(X1, X2, v, out) params => _decide_mmv_impl X1 X2 v params)
      (fun '(X1, X2, v, out) impl params =>
         call_backend run_backend impl X1 X2 [Some v] self out params) st.
Proof.
  unfold mmv, operation, resolve_params, bind, lift.
  destruct (_check_mmv_dimensions X1 X2 v out) as [[[[a b] c] d] | e]; reflexivity.
Qed.

Lemma dmmv_shape (self : kernel) (X1 X2 : operand) (v w out : option operand)
    (opt : option loc) (st : kstate) :
  dmmv run_backend self X1 X2 v w out opt st
  = operation (_check_dmmv_dimensions X1 X2 v w out)
      (fun '(X1, X2, v, w, out) =>
         _check_device_properties [Some X1; Some X2; v; w; out] "dmmv" opt)
      self opt
      (fun '(X1, X2, v, w, out) params => _decide_dmmv_impl X1 X2 v w params)
      (fun '(X1, X2, v, w, out) impl params =>
         call_backend run_backend impl X1 X2 [v; w] self out params) st.
Proof.
  unfold dmmv, operation, resolve_params, bind, lift.
  destruct (_check_dmmv_dimensions X1 X2 v w out) as [[[[[a b] c] d] f] | e];
    reflexivity.
Qed.

End OperationFacts.

Section OperationShape.

Context {A : Type}.
Variables (chk : result A) (dev : A -> result unit) (self : kernel)
  (decide : A -> loc -> M kstate backend)
  (run : A -> backend -> loc -> M kstate operand).

(** If the resolver raises for the validated arguments, the operation
    raises and no backend runs. *)
Lemma operation_fails (opt : option loc) (st : kstate) :
  (forall a l st1, chk = Ok a -> exists e, decide a l st1 = (Raise e, st1)) ->
  fails_before_backend (operation chk dev self opt decide run) st.
Proof.
  intros Hdec. unfold fails_before_backend, operation, bind, lift.
  destruct chk as [a | e]; [| eauto].
  destruct (dev a) as [[] | e]; [| eauto].
  destruct (resolve_params self opt st) as [[l | e] st1] eqn:Hres;
    destruct (resolve_params_frame _ _ _ _ _ Hres) as (_ & _ & Hcalls);
    [| eauto].
  destruct (Hdec a l st1 eq_refl) as [e He]. rewrite He. eauto.
Qed.

Lemma operation_sparsity (opt : option loc) (st : kstate) (a : A) :
  store_ok self opt st -> chk = Ok a -> dev a = Ok tt ->
  (forall l st1, is_Some (policies st1 !! l) ->
                 decide a l st1 = (Raise sparsity_error, st1)) ->
  raises_sparsity_error (operation chk dev self opt decide run) st.
Proof.
  intros Hst Hchk Hdev Hdec. unfold raises_sparsity_error, operation, bind, lift.
  rewrite Hchk, Hdev.
  destruct (resolve_params_ok self opt st Hst) as (l & st1 & Hres & Hl).
  rewrite Hres. destruct (resolve_params_frame _ _ _ _ _ Hres) as (_ & Hw & Hc).
  rewrite (Hdec l st1 Hl). eauto.
Qed.

(** The operation leaves every record of the store as it was. *)
Lemma operation_frame (opt : option loc) (st st' : kstate) (r : result operand) :
  (forall a l st1 r1 st2, decide a l st1 = (r1, st2) ->
                          policies st2 = policies st1) ->
  (forall a b l st1 r1 st2, run a b l st1 = (r1, st2) ->
                            policies st2 = policies st1) ->
  operation chk dev self opt decide run st = (r, st') ->
  policies st ⊆ policies st'.
Proof.
  intros Hdec Hrun. unfold operation, bind, lift.
  destruct chk as [a | e]; [| intros H; inversion H; subst; reflexivity].
  destruct (dev a) as [[] | e]; [| intros H; inversion H; subst; reflexivity].
  destruct (resolve_params self opt st) as [[l | e] st1] eqn:Hres;
    destruct (resolve_params_frame _ _ _ _ _ Hres) as (Hsub & _ & _);
    [| intros H; inversion H; subst; exact Hsub].
  destruct (decide a l st1) as [[b | e] st2] eqn:Hd;
    pose proof (Hdec _ _ _ _ _ Hd) as Hp2.
  - intros H. rewrite (Hrun _ _ _ _ _ _ H), Hp2. exact Hsub.
  - intros H. inversion H; subst. rewrite Hp2. exact Hsub.
Qed.

(** With a per-call policy, dispatch runs on a newly allocated record that
    holds the merged fields. *)
Lemma operation_merged (o : loc) (p q : FalkonOptions) (st : kstate) (a : A) :
  policies st !! params self = Some p -> policies st !! o = Some q ->
  chk = Ok a -> dev a = Ok tt ->
  operation chk dev self (Some o) decide run st
  = (do impl <- decide a (fresh (dom (policies st))) ;;
     run a impl (fresh (dom (policies st)))) (allocated st q).
Proof.
  intros Hp Hq Hchk Hdev. unfold operation, resolve_params.
  erewrite bind_ok by (unfold lift; rewrite Hchk; reflexivity).
  erewrite bind_ok by (unfold lift; rewrite Hdev; reflexivity).
  erewrite bind_ok by (apply (replace_asdict_ok _ _ p q st Hp Hq)).
  reflexivity.
Qed.

Lemma operation_invalid (opt : option loc) (st : kstate) (e : exn) :
  chk = Raise e -> operation chk dev self opt decide run st = (Raise e, st).
Proof.
  intros H. unfold operation. apply bind_raise. unfold lift. rewrite H.
  reflexivity.
Qed.

Lemma operation_device_error (opt : option loc) (st : kstate) (a : A) (e : exn) :
  chk = Ok a -> dev a = Raise e ->
  operation chk dev self opt decide run st = (Raise e, st).
Proof.
  intros Hc Hd. unfold operation.
  erewrite bind_ok by (unfold lift; rewrite Hc; reflexivity).
  apply bind_raise. unfold lift. rewrite Hd. reflexivity.
Qed.

Lemma operation_default (st : kstate) (a : A) :
  chk = Ok a -> dev a = Ok tt ->
  operation chk dev self None decide run st
  = (do impl <- decide a (params self) ;; run a impl (params self)) st.
Proof.
  intros Hc Hd. unfold operation.
  erewrite bind_ok by (unfold lift; rewrite Hc; reflexivity).
  erewrite bind_ok by (unfold lift; rewrite Hd; reflexivity).
  erewrite bind_ok by reflexivity. reflexivity.
Qed.

End OperationShape.

(** ** The resolver on operands of different sparsity, and its footprint *)

Lemma xorb_sparse (X1 X2 : operand) :
  sparse X1 <> sparse X2 -> xorb (sparse X1) (sparse X2) = true.
Proof. destruct (sparse X1), (sparse X2); simpl; congruence. Qed.

Lemma _decide_mm_impl_mismatch (X1 X2 : operand) (l : loc) (st : kstate) :
  sparse X1 <> sparse X2 ->
  exists e, _decide_mm_impl X1 X2 l st = (Raise e, st)
            /\ (is_Some (policies st !! l) -> e = sparsity_error).
Proof.
  intros Hne. destruct (policies st !! l) as [o |] eqn:Hl.
  - rewrite (_decide_mm_impl_eq X1 X2 l o st Hl), (xorb_sparse X1 X2 Hne). eauto.
  - unfold _decide_mm_impl. erewrite bind_raise by (apply decide_cuda_dangling, Hl).
    eexists. split; [reflexivity |]. intros [x Hx]. discriminate Hx.
Qed.

Lemma _decide_mmv_impl_mismatch (X1 X2 v : operand) (l : loc) (st : kstate) :
  sparse X1 <> sparse X2 ->
  exists e, _decide_mmv_impl X1 X2 v l st = (Raise e, st)
            /\ (is_Some (policies st !! l) -> e = sparsity_error).
Proof.
  intros Hne. destruct (policies st !! l) as [o |] eqn:Hl.
  - rewrite (_decide_mmv_impl_eq X1 X2 v l o st Hl), (xorb_sparse X1 X2 Hne). eauto.
  - unfold _decide_mmv_impl. erewrite bind_raise by (apply decide_cuda_dangling, Hl).
    eexists. split; [reflexivity |]. intros [x Hx]. discriminate Hx.
Qed.

Lemma _decide_dmmv_impl_mismatch (X1 X2 : operand) (v w : option operand)
    (l : loc) (st : kstate) :
  sparse X1 <> sparse X2 ->
  exists e, _decide_dmmv_impl X1 X2 v w l st = (Raise e, st)
            /\ (is_Some (policies st !! l) -> e = sparsity_error).
Proof.
  intros Hne. destruct (policies st !! l) as [o |] eqn:Hl.
  - rewrite (_decide_dmmv_impl_eq X1 X2 v w l o st Hl), (xorb_sparse X1 X2 Hne).
    eauto.
  - unfold _decide_dmmv_impl. erewrite bind_raise by (apply decide_cuda_dangling, Hl).
    eexists. split; [reflexivity |]. intros [x Hx]. discriminate Hx.
Qed.

Lemma _decide_mm_impl_frame (X1 X2 : operand) (l : loc) (st1 st2 : kstate)
    (r : result backend) :
  _decide_mm_impl X1 X2 l st1 = (r, st2) -> policies st2 = policies st1.
Proof.
  intros H. destruct (policies st1 !! l) as [o |] eqn:Hl.
  - rewrite (_decide_mm_impl_eq X1 X2 l o st1 Hl) in H.
    destruct (xorb (sparse X1) (sparse X2)); inversion H; subst;
      [reflexivity | apply policies_resolved].
  - unfold _decide_mm_impl in H.
    erewrite bind_raise in H by (apply decide_cuda_dangling, Hl).
    inversion H; subst; reflexivity.
Qed.

Lemma _decide_mmv_impl_frame (X1 X2 v : operand) (l : loc) (st1 st2 : kstate)
    (r : result backend) :
  _decide_mmv_impl X1 X2 v l st1 = (r, st2) -> policies st2 = policies st1.
Proof.
  intros H. destruct (policies st1 !! l) as [o |] eqn:Hl.
  - rewrite (_decide_mmv_impl_eq X1 X2 v l o st1 Hl) in H.
    destruct (xorb (sparse X1) (sparse X2)); inversion H; subst;
      [reflexivity | apply policies_resolved].
  - unfold _decide_mmv_impl in H.
    erewrite bind_raise in H by (apply decide_cuda_dangling, Hl).
    inversion H; subst; reflexivity.
Qed.

Lemma _decide_dmmv_impl_frame (X1 X2 : operand) (v w : option operand) (l : loc)
    (st1 st2 : kstate) (r : result backend) :
  _decide_dmmv_impl X1 X2 v w l st1 = (r, st2) -> policies st2 = policies st1.
Proof.
  intros H. destruct (policies st1 !! l) as [o |] eqn:Hl.
  - rewrite (_decide_dmmv_impl_eq X1 X2 v w l o st1 Hl) in H.
    destruct (xorb (sparse X1) (sparse X2)); inversion H; subst;
      [reflexivity | apply policies_resolved].
  - unfold _decide_dmmv_impl in H.
    erewrite bind_raise in H by (apply decide_cuda_dangling, Hl).
    inversion H; subst; reflexivity.
Qed.

Lemma call_backend_frame
    (run_backend : backend_call -> gmap loc FalkonOptions -> result operand)
    (impl : backend) (X1 X2 : operand) (vecs : list (option operand))
    (self : kernel) (out : option operand) (l : loc) (st1 st2 : kstate)
    (r : result operand) :
  call_backend run_backend impl X1 X2 vecs self out l st1 = (r, st2) ->
  policies st2 = policies st1.
Proof. unfold call_backend. intros H. inversion H; subst. reflexivity. Qed.

(** ** The validators return the primary operands as they were given *)

Lemma rbind_ok_inv {A B} (r : result A) (k : A -> result B) (b : B) :
  rbind r k = Ok b -> exists a, r = Ok a /\ k a = Ok b.
Proof. destruct r as [a | e]; simpl; intros H; [eauto | discriminate H]. Qed.

Ltac validator_inv H :=
  cbv zeta in H;
  repeat (apply rbind_ok_inv in H; destruct H as (? & _ & H));
  inversion H; subst; auto.

Lemma _check_mm_dimensions_operands (X1 X2 : operand) (out : option operand)
    (a b : operand) (c : option operand) :
  _check_mm_dimensions X1 X2 out = Ok (a, b, c) -> a = X1 /\ b = X2.
Proof. unfold _check_mm_dimensions. intros H. validator_inv H. Qed.

Lemma _check_mmv_dimensions_operands (X1 X2 v : operand) (out : option operand)
    (a b c : operand) (d : option operand) :
  _check_mmv_dimensions X1 X2 v out = Ok (a, b, c, d) -> a = X1 /\ b = X2.
Proof. unfold _check_mmv_dimensions. intros H. validator_inv H. Qed.

Lemma _check_dmmv_dimensions_operands (X1 X2 : operand)
    (v w out : option operand) (a b : operand) (c d f : option operand) :
  _check_dmmv_dimensions X1 X2 v w out = Ok (a, b, c, d, f) -> a = X1 /\ b = X2.
Proof. unfold _check_dmmv_dimensions. intros H. validator_inv H. Qed.

Section PublicOperations.

Variable run_backend : backend_call -> gmap loc FalkonOptions -> result operand.

(** C5, as amended: with exactly one of [X1], [X2] sparse, each public
    operation raises and runs no backend.  The error is the sparsity error
    when the shape, type and device checks, which run first, have passed.
    When the shape and type validation fails, the error is the one of the
    validation; when the validation passes and the device check fails, it
    is the error of the device check.  In both cases the store is left as
    it was. *)
Theorem sparsity_mismatch_fails (self : kernel) (X1 X2 v : operand)
    (vo wo out : option operand) (opt : option loc) (st : kstate) :
  sparse X1 <> sparse X2 ->
  (fails_before_backend (__call__ run_backend self X1 X2 out opt) st
   /\ fails_before_backend (mmv run_backend self X1 X2 v out opt) st
   /\ fails_before_backend (dmmv run_backend self X1 X2 vo wo out opt) st)
  /\ (store_ok self opt st ->
      (forall a b c,
          _check_mm_dimensions X1 X2 out = Ok (a, b, c) ->
          check_same_device [Some a; Some b; c] = true ->
          raises_sparsity_error (__call__ run_backend self X1 X2 out opt) st)
      /\ (forall a b c d,
          _check_mmv_dimensions X1 X2 v out = Ok (a, b, c, d) ->
          check_same_device [Some a; Some b; Some c; d] = true ->
          raises_sparsity_error (mmv run_backend self X1 X2 v out opt) st)
      /\ (forall a b c d f,
          _check_dmmv_dimensions X1 X2 vo wo out = Ok (a, b, c, d, f) ->
          check_same_device [Some a; Some b; c; d; f] = true ->
          raises_sparsity_error
            (dmmv run_backend self X1 X2 vo wo out opt) st))
  /\ (forall e,
        (_check_mm_dimensions X1 X2 out = Raise e ->
         __call__ run_backend self X1 X2 out opt st = (Raise e, st))
        /\ (_check_mmv_dimensions X1 X2 v out = Raise e ->
            mmv run_backend self X1 X2 v out opt st = (Raise e, st))
        /\ (_check_dmmv_dimensions X1 X2 vo wo out = Raise e ->
            dmmv run_backend self X1 X2 vo wo out opt st = (Raise e, st)))
  /\ (forall a b c,
        _check_mm_dimensions X1 X2 out = Ok (a, b, c) ->
        check_same_device [Some a; Some b; c] = false ->
        __call__ run_backend self X1 X2 out opt st
        = (Raise (RuntimeError
             "All input arguments to kernel must be on the same device"), st))
  /\ (forall a b c d,
        _check_mmv_dimensions X1 X2 v out = Ok (a, b, c, d) ->
        check_same_device [Some a; Some b; Some c; d] = false ->
        mmv run_backend self X1 X2 v out opt st
        = (Raise (RuntimeError
             "All input arguments to mmv must be on the same device"), st))
  /\ (forall a b c d f,
        _check_dmmv_dimensions X1 X2 vo wo out = Ok (a, b, c, d, f) ->
        check_same_device [Some a; Some b; c; d; f] = false ->
        dmmv run_backend self X1 X2 vo wo out opt st
        = (Raise (RuntimeError
             "All input arguments to dmmv must be on the same device"), st)).
Proof.
  intros Hne.
  split; [split; [| split] | split; [| split; [| split; [| split]]]].
  - unfold fails_before_backend. rewrite __call___shape.
    apply operation_fails. intros [[a b] c] l st1 Hchk.
    destruct (_check_mm_dimensions_operands _ _ _ _ _ _ Hchk) as [-> ->].
    destruct (_decide_mm_impl_mismatch X1 X2 l st1 Hne) as (e & He & _). eauto.
  - unfold fails_before_backend. rewrite mmv_shape.
    apply operation_fails. intros [[[a b] c] d] l st1 Hchk.
    destruct (_check_mmv_dimensions_operands _ _ _ _ _ _ _ _ Hchk) as [-> ->].
    destruct (_decide_mmv_impl_mismatch X1 X2 c l st1 Hne) as (e & He & _). eauto.
  - unfold fails_before_backend. rewrite dmmv_shape.
    apply operation_fails. intros [[[[a b] c] d] f] l st1 Hchk.
    destruct (_check_dmmv_dimensions_operands _ _ _ _ _ _ _ _ _ _ Hchk) as [-> ->].
    destruct (_decide_dmmv_impl_mismatch X1 X2 c d l st1 Hne) as (e & He & _). eauto.
  - intros Hst. split; [| split].
    + intros a b c Hchk Hdev. unfold raises_sparsity_error. rewrite __call___shape.
      apply (operation_sparsity _ _ _ _ _ _ _ (a, b, c) Hst Hchk).
      { unfold _check_device_properties. rewrite Hdev. reflexivity. }
      destruct (_check_mm_dimensions_operands _ _ _ _ _ _ Hchk) as [-> ->].
      intros l st1 Hl.
      destruct (_decide_mm_impl_mismatch X1 X2 l st1 Hne) as (e & He & Hs).
      rewrite He, (Hs Hl). reflexivity.
    + intros a b c d Hchk Hdev. unfold raises_sparsity_error. rewrite mmv_shape.
      apply (operation_sparsity _ _ _ _ _ _ _ (a, b, c, d) Hst Hchk).
      { unfold _check_device_properties. rewrite Hdev. reflexivity. }
      destruct (_check_mmv_dimensions_operands _ _ _ _ _ _ _ _ Hchk) as [-> ->].
      intros l st1 Hl.
      destruct (_decide_mmv_impl_mismatch X1 X2 c l st1 Hne) as (e & He & Hs).
      rewrite He, (Hs Hl). reflexivity.
    + intros a b c d f Hchk Hdev. unfold raises_sparsity_error. rewrite dmmv_shape.
      apply (operation_sparsity _ _ _ _ _ _ _ (a, b, c, d, f) Hst Hchk).
      { unfold _check_device_properties. rewrite Hdev. reflexivity. }
      destruct (_check_dmmv_dimensions_operands _ _ _ _ _ _ _ _ _ _ Hchk) as [-> ->].
      intros l st1 Hl.
      destruct (_decide_dmmv_impl_mismatch X1 X2 c d l st1 Hne) as (e & He & Hs).
      rewrite He, (Hs Hl). reflexivity.
  - intros e. split; [| split]; intros Hchk.
    + rewrite __call___shape. apply operation_invalid, Hchk.
    + rewrite mmv_shape. apply operation_invalid, Hchk.
    + rewrite dmmv_shape. apply operation_invalid, Hchk.
  - intros a b c Hc Hd. rewrite __call___shape.
    apply (operation_device_error _ _ _ _ _ _ _ (a, b, c) _ Hc).
    unfold _check_device_properties. rewrite Hd. reflexivity.
  - intros a b c d Hc Hd. rewrite mmv_shape.
    apply (operation_device_error _ _ _ _ _ _ _ (a, b, c, d) _ Hc).
    unfold _check_device_properties. rewrite Hd. reflexivity.
  - intros a b c d f Hc Hd. rewrite dmmv_shape.
    apply (operation_device_error _ _ _ _ _ _ _ (a, b, c, d, f) _ Hc).
    unfold _check_device_properties. rewrite Hd. reflexivity.
Qed.

End PublicOperations.

(** C5 as stated does not hold: with a sparse [X1], a dense [X2] and a
    three-dimensional [v], [mmv] raises the shape error of [v], not the
    sparsity error. *)
Lemma shape_error_precedes_sparsity_error :
  ~ (forall (run_backend : backend_call -> gmap loc FalkonOptions -> result operand)
            (self : kernel) (X1 X2 v : operand) (out : option operand)
            (opt : option loc) (st : kstate),
       sparse X1 <> sparse X2 ->
       exists st', mmv run_backend self X1 X2 v out opt st
                   = (Raise sparsity_error, st')).
Proof.
  intros H.
  destruct (H Examples.toy_backend Examples.gaussian Examples.X1_sparse
              Examples.X2 Examples.v_3d None None Examples.st0)
    as (st' & Hrun); [discriminate |].
  vm_compute in Hrun. discriminate Hrun.
Qed.

Lemma sparsity_mismatch_fails_witness :
  raises_sparsity_error
    (mmv Examples.toy_backend Examples.gaussian Examples.X1_sparse Examples.X2
       Examples.v None None) Examples.st0
  /\ fails_before_backend
       (mmv Examples.toy_backend Examples.gaussian Examples.X1_sparse Examples.X2
          Examples.v_3d None None) Examples.st0
  /\ mmv Examples.toy_backend Examples.gaussian Examples.X1_sparse Examples.X2
       Examples.v_3d None None Examples.st0
     = (Raise (ValueError "v must be a vector or a 2D matrix. Found 3D."),
        Examples.st0)
  /\ mmv Examples.toy_backend Examples.gaussian Examples.X1_sparse Examples.X2
       Examples.v_gpu None None Examples.st0
     = (Raise (RuntimeError
          "All input arguments to mmv must be on the same device"),
        Examples.st0).
Proof.
  assert (Hne : sparse Examples.X1_sparse <> sparse Examples.X2) by discriminate.
  assert (Hst : store_ok Examples.gaussian None Examples.st0).
  { split; [exists Examples.cpu_opt; reflexivity | intros o Ho; discriminate Ho]. }
  split; [| split; [| split]].
  - destruct (sparsity_mismatch_fails Examples.toy_backend Examples.gaussian
                Examples.X1_sparse Examples.X2 Examples.v None None None None
                Examples.st0 Hne) as (_ & Hsp & _).
    destruct (Hsp Hst) as (_ & Hmmv & _).
    apply (Hmmv Examples.X1_sparse Examples.X2 Examples.v None); reflexivity.
  - destruct (sparsity_mismatch_fails Examples.toy_backend Examples.gaussian
                Examples.X1_sparse Examples.X2 Examples.v_3d None None None None
                Examples.st0 Hne) as ((_ & Hmmv & _) & _).
    exact Hmmv.
  - destruct (sparsity_mismatch_fails Examples.toy_backend Examples.gaussian
                Examples.X1_sparse Examples.X2 Examples.v_3d None None None None
                Examples.st0 Hne) as (_ & _ & Hval & _).
    destruct (Hval (ValueError "v must be a vector or a 2D matrix. Found 3D."))
      as (_ & Hmmv & _).
    apply Hmmv. reflexivity.
  - destruct (sparsity_mismatch_fails Examples.toy_backend Examples.gaussian
                Examples.X1_sparse Examples.X2 Examples.v_gpu None None None None
                Examples.st0 Hne) as (_ & _ & _ & _ & Hdev & _).
    apply (Hdev Examples.X1_sparse Examples.X2 Examples.v_gpu None); reflexivity.
Defined.

Section PolicyMerging.

Variable run_backend : backend_call -> gmap loc FalkonOptions -> result operand.

(** C9: a call with a per-call policy [o] changes no record of the store:
    the kernel's policy [p] and the caller's policy [q] are found unchanged
    afterwards.  The merged policy has the fields of [q] in place of those
    of [p]; it sits at a location that was unused before the call, and the
    resolver and the backend are run with that location. *)
Theorem merge_never_mutates (self : kernel) (X1 X2 v : operand)
    (vo wo out : option operand) (o : loc) (p q : FalkonOptions) (st : kstate) :
  policies st !! params self = Some p ->
  policies st !! o = Some q ->
  (forall r st',
      __call__ run_backend self X1 X2 out (Some o) st = (r, st')
      \/ mmv run_backend self X1 X2 v out (Some o) st = (r, st')
      \/ dmmv run_backend self X1 X2 vo wo out (Some o) st = (r, st') ->
      policies st ⊆ policies st'
      /\ policies st' !! params self = Some p
      /\ policies st' !! o = Some q)
  /\ replace p (asdict q) = Ok (Options (use_cpu q) (keops_active q))
  /\ policies st !! fresh (dom (policies st)) = None
  /\ policies (allocated st q) !! fresh (dom (policies st)) = Some q
  /\ (forall a b c,
        _check_mm_dimensions X1 X2 out = Ok (a, b, c) ->
        check_same_device [Some a; Some b; c] = true ->
        __call__ run_backend self X1 X2 out (Some o) st
        = (do impl <- _decide_mm_impl a b (fresh (dom (policies st))) ;;
           call_backend run_backend impl a b [] self c
             (fresh (dom (policies st)))) (allocated st q))
  /\ (forall a b c d,
        _check_mmv_dimensions X1 X2 v out = Ok (a, b, c, d) ->
        check_same_device [Some a; Some b; Some c; d] = true ->
        mmv run_backend self X1 X2 v out (Some o) st
        = (do impl <- _decide_mmv_impl a b c (fresh (dom (policies st))) ;;
           call_backend run_backend impl a b [Some c] self d
             (fresh (dom (policies st)))) (allocated st q))
  /\ (forall a b c d f,
        _check_dmmv_dimensions X1 X2 vo wo out = Ok (a, b, c, d, f) ->
        check_same_device [Some a; Some b; c; d; f] = true ->
        dmmv run_backend self X1 X2 vo wo out (Some o) st
        = (do impl <- _decide_dmmv_impl a b c d (fresh (dom (policies st))) ;;
           call_backend run_backend impl a b [c; d] self f
             (fresh (dom (policies st)))) (allocated st q)).
Proof.
  intros Hp Hq.
  split; [| split; [| split; [| split; [| split; [| split]]]]].
  - intros r st' Hrun.
    assert (Hsub : policies st ⊆ policies st').
    { destruct Hrun as [H | [H | H]].
      - rewrite __call___shape in H. revert H. apply operation_frame.
        + intros [[a b] c] l st1 r1 st2. apply _decide_mm_impl_frame.
        + intros [[a b] c] impl l st1 r1 st2. apply call_backend_frame.
      - rewrite mmv_shape in H. revert H. apply operation_frame.
        + intros [[[a b] c] d] l st1 r1 st2. apply _decide_mmv_impl_frame.
        + intros [[[a b] c] d] impl l st1 r1 st2. apply call_backend_frame.
      - rewrite dmmv_shape in H. revert H. apply operation_frame.
        + intros [[[[a b] c] d] f] l st1 r1 st2. apply _decide_dmmv_impl_frame.
        + intros [[[[a b] c] d] f] impl l st1 r1 st2. apply call_backend_frame. }
    split; [exact Hsub |].
    split; eapply lookup_weaken; eauto.
  - rewrite replace_asdict_fields. destruct q; reflexivity.
  - apply fresh_loc_unused.
  - unfold allocated. simpl. apply lookup_insert_eq.
  - intros a b c Hchk Hdev. rewrite __call___shape.
    rewrite (operation_merged _ _ _ _ _ o p q st (a, b, c) Hp Hq Hchk);
      [reflexivity |].
    unfold _check_device_properties. rewrite Hdev. reflexivity.
  - intros a b c d Hchk Hdev. rewrite mmv_shape.
    rewrite (operation_merged _ _ _ _ _ o p q st (a, b, c, d) Hp Hq Hchk);
      [reflexivity |].
    unfold _check_device_properties. rewrite Hdev. reflexivity.
  - intros a b c d f Hchk Hdev. rewrite dmmv_shape.
    rewrite (operation_merged _ _ _ _ _ o p q st (a, b, c, d, f) Hp Hq Hchk);
      [reflexivity |].
    unfold _check_device_properties. rewrite Hdev. reflexivity.
Qed.

End PolicyMerging.

Lemma merge_never_mutates_witness :
  (exists r st',
      mmv Examples.toy_backend Examples.gaussian Examples.X1 Examples.X2
        Examples.v None (Some 2%positive) Examples.st0 = (r, st')
      /\ policies st' !! 1%positive = Some Examples.cpu_opt
      /\ policies st' !! 2%positive = Some Examples.force_opt)
  /\ mmv Examples.toy_backend Examples.gaussian Examples.X1 Examples.X2
       Examples.v None (Some 2%positive) Examples.st0
     = (do impl <- _decide_mmv_impl Examples.X1 Examples.X2 Examples.v
                     (fresh (dom (policies Examples.st0))) ;;
        call_backend Examples.toy_backend impl Examples.X1 Examples.X2
          [Some Examples.v] Examples.gaussian None
          (fresh (dom (policies Examples.st0))))
         (allocated Examples.st0 Examples.force_opt).
Proof.
  split.
  - destruct (mmv Examples.toy_backend Examples.gaussian Examples.X1 Examples.X2
                Examples.v None (Some 2%positive) Examples.st0) as [r st'] eqn:Hrun.
    exists r, st'. split; [reflexivity |].
    destruct (merge_never_mutates Examples.toy_backend Examples.gaussian
                Examples.X1 Examples.X2 Examples.v None None None 2%positive
                Examples.cpu_opt Examples.force_opt Examples.st0 eq_refl eq_refl)
      as (Hframe & _).
    destruct (Hframe r st' (or_intror (or_introl Hrun))) as (_ & H1 & H2).
    split; [exact H1 | exact H2].
  - destruct (merge_never_mutates Examples.toy_backend Examples.gaussian
                Examples.X1 Examples.X2 Examples.v None None None 2%positive
                Examples.cpu_opt Examples.force_opt Examples.st0 eq_refl eq_refl)
      as (_ & _ & _ & _ & _ & Hmmv & _).
    apply (Hmmv Examples.X1 Examples.X2 Examples.v None); reflexivity.
Defined.

(** * Further properties *)

(** ** The eligibility check *)

Section EligibilityEdges.

Variable keops_installed : bool.

(** X1: the eligibility check raises only for a first operand without a
    column dimension, and only once the density and availability tests
    have passed; the error is then an [IndexError]. *)
Theorem should_use_keops_raises_iff (T1 T2 : operand) (opt : FalkonOptions) :
  ((exists e, should_use_keops keops_installed T1 T2 opt = Raise e) <->
     dense T1 = true /\ dense T2 = true
     /\ decide_keops keops_installed opt = true /\ dim T1 < 2)
  /\ (forall e, should_use_keops keops_installed T1 T2 opt = Raise e ->
                e = IndexError "tuple index out of range").
Proof.
  destruct (shape T1 !! 1) as [d |] eqn:Hd.
  - rewrite (should_use_keops_eq keops_installed T1 T2 opt d Hd).
    apply lookup_lt_Some in Hd. fold (dim T1) in Hd. split.
    + split; [intros [e He]; discriminate He | intros (_ & _ & _ & Hlt); lia].
    + intros e He. discriminate He.
  - pose proof Hd as Hnone. apply lookup_ge_None in Hd. fold (dim T1) in Hd.
    destruct (dense T1) eqn:H1;
      [| rewrite (should_use_keops_not_dense keops_installed T1 T2 opt (or_introl H1));
         split; [split; [intros [e He]; discriminate He
                        | intros (Hc & _); discriminate Hc]
                | intros e He; discriminate He]].
    destruct (dense T2) eqn:H2;
      [| rewrite (should_use_keops_not_dense keops_installed T1 T2 opt (or_intror H2));
         split; [split; [intros [e He]; discriminate He
                        | intros (_ & Hc & _); discriminate Hc]
                | intros e He; discriminate He]].
    destruct (decide_keops keops_installed opt) eqn:H3;
      [| rewrite (should_use_keops_undecided keops_installed T1 T2 opt H3);
         split; [split; [intros [e He]; discriminate He
                        | intros (_ & _ & Hc & _); discriminate Hc]
                | intros e He; discriminate He]].
    assert (Hrun : should_use_keops keops_installed T1 T2 opt
                   = Raise (IndexError "tuple index out of range")).
    { unfold should_use_keops, shape_at. rewrite Hnone, H3.
      unfold dense in H1, H2.
      destruct T1 as [m1 [|] | m1], T2 as [m2 [|] | m2]; simpl in *;
        try discriminate; reflexivity. }
    rewrite Hrun. split.
    + split; [intros _; repeat split; lia | intros _; eauto].
    + intros e He. congruence.
Qed.

(** X2: the check reads the density of both operands and the column count
    of the first one, and nothing else: the shape of the second operand,
    the row counts, the element types and the devices do not matter. *)
Theorem should_use_keops_reads (T1 T2 T1' T2' : operand) (opt : FalkonOptions) :
  dense T1 = dense T1' -> dense T2 = dense T2' ->
  shape T1 !! 1 = shape T1' !! 1 ->
  should_use_keops keops_installed T1 T2 opt
  = should_use_keops keops_installed T1' T2' opt.
Proof.
  intros H1 H2 Hs. unfold should_use_keops, shape_at. rewrite <- Hs.
  assert (Hd : forall t, negb (isinstance_Tensor t) || is_sparse t = negb (dense t)).
  { intros [m [|] | m]; reflexivity. }
  assert (Hc : forall a b, negb (isinstance_Tensor a) || negb (isinstance_Tensor b)
                           || is_sparse a || is_sparse b
                           = negb (dense a) || negb (dense b)).
  { intros [m [|] | m] [m' [|] | m']; reflexivity. }
  rewrite !Hc, H1, H2. reflexivity.
Qed.

(** X3: for two operands with column counts, the double-product check
    does not depend on the order of the operands, and it bounds the column
    count of both, where the single check bounds only the first. *)
Theorem keops_can_handle_dmmv_symmetric (X1 X2 : operand) (v w : option loc)
    (opt : FalkonOptions) (d1 d2 : nat) :
  shape X1 !! 1 = Some d1 -> shape X2 !! 1 = Some d2 ->
  keops_can_handle_dmmv keops_installed X1 X2 v w opt
  = keops_can_handle_dmmv keops_installed X2 X1 w v opt
  /\ keops_can_handle_dmmv keops_installed X1 X2 v w opt
     = Ok (dense X1 && dense X2 && decide_keops keops_installed opt
           && ((d1 <=? 50)%nat && (d2 <=? 50)%nat
               || String.eqb (keops_active opt) "force")).
Proof.
  intros H1 H2. unfold keops_can_handle_dmmv, keops_can_handle_mmv.
  rewrite (should_use_keops_eq keops_installed X1 X2 opt d1 H1),
    (should_use_keops_eq keops_installed X2 X1 opt d2 H2). simpl.
  destruct (dense X1), (dense X2), (decide_keops keops_installed opt),
    (d1 <=? 50)%nat, (d2 <=? 50)%nat, (String.eqb (keops_active opt) "force");
    split; reflexivity.
Qed.

End EligibilityEdges.

Lemma should_use_keops_raises_iff_witness :
  should_use_keops true Examples.vector Examples.X2 Examples.auto_opt
  = Raise (IndexError "tuple index out of range").
Proof.
  destruct (should_use_keops_raises_iff true Examples.vector Examples.X2
              Examples.auto_opt) as (Hiff & Hwhich).
  destruct (proj2 Hiff) as [e He].
  - split; [reflexivity | split; [reflexivity | split; [reflexivity |]]].
    unfold dim. simpl. lia.
  - rewrite He. f_equal. apply Hwhich, He.
Defined.

Lemma should_use_keops_reads_witness :
  should_use_keops true Examples.X1 Examples.X2 Examples.auto_opt
  = should_use_keops true Examples.X1_gpu Examples.X2_wide Examples.auto_opt.
Proof.
  apply (should_use_keops_reads true Examples.X1 Examples.X2 Examples.X1_gpu
           Examples.X2_wide Examples.auto_opt); reflexivity.
Defined.

Lemma keops_can_handle_dmmv_symmetric_witness :
  keops_can_handle_dmmv true Examples.X1 Examples.X2_wide None None
    Examples.auto_opt = Ok false
  /\ keops_can_handle_mmv true Examples.X1 Examples.X2_wide None
       Examples.auto_opt = Ok true.
Proof.
  split; [| reflexivity].
  destruct (keops_can_handle_dmmv_symmetric true Examples.X1 Examples.X2_wide
              None None Examples.auto_opt 10 64 eq_refl eq_refl) as (_ & H).
  rewrite H. reflexivity.
Defined.

(** ** The engine entry point and the helper of the double product *)

Section EngineEdges.

Context {T K : Type}.
Variable tensor_add : T -> T -> result T.

(** X4: with the engine loaded, [keops_mmv] invokes [run_keops_mmv]
    exactly once, along axis 1 with a "Sum" reduction, and returns what it
    returns; a missing [other_vars] is the empty list. *)
Theorem keops_mmv_installed (env : module_env T) (f : callable T keops_args)
    (X1 X2 : operand) (v out : option loc) (formula : string)
    (aliases : list string) (other_vars : option (list loc))
    (opt : FalkonOptions) (st : world T K) :
  run_keops_mmv env = Some f ->
  keops_mmv env X1 X2 v out formula aliases other_vars opt st
  = (let a := KeopsArgs X1 X2 v (default [] other_vars) out formula aliases
                1 "Sum" opt in
     let '(r, b) := f a (buffers st) in
     (r, World b (trace st ++ [KeopsCall a])))
  /\ keops_mmv env X1 X2 v out formula aliases None opt st
     = keops_mmv env X1 X2 v out formula aliases (Some []) opt st.
Proof.
  intros Hf. unfold keops_mmv, _has_keops. rewrite Hf. simpl.
  split; [destruct other_vars |]; reflexivity.
Qed.

(** X5: an error of the first stage ends the double product: when the
    first call of [mmv_fn] raises, when it returns no tensor although [w]
    is to be added, or when the addition fails, the helper raises that
    error and [mmv_fn] is not called a second time. *)
Theorem keops_dmmv_helper_first_stage_error (X1 X2 : operand) (kernel : K)
    (out : option loc) (opt : FalkonOptions) (mmv_fn : mmv_callable T K)
    (st : world T K) (lv : loc) :
  (forall w e b1,
      mmv_fn (X1, X2, Some lv, kernel, None, opt) (buffers st) = (Raise e, b1) ->
      keops_dmmv_helper tensor_add X1 X2 (Some lv) w kernel out opt mmv_fn st
      = (Raise e, World b1 (trace st ++ [MmvCall X1 X2 (Some lv) kernel None opt])))
  /\ (forall lw b1,
      mmv_fn (X1, X2, Some lv, kernel, None, opt) (buffers st) = (Ok None, b1) ->
      keops_dmmv_helper tensor_add X1 X2 (Some lv) (Some lw) kernel out opt
        mmv_fn st
      = (Raise (AttributeError "'NoneType' object has no attribute 'add_'"),
         World b1 (trace st ++ [MmvCall X1 X2 (Some lv) kernel None opt])))
  /\ (forall lw l1 b1 a c e,
      mmv_fn (X1, X2, Some lv, kernel, None, opt) (buffers st)
        = (Ok (Some l1), b1) ->
      b1 !! l1 = Some a -> b1 !! lw = Some c -> tensor_add a c = Raise e ->
      keops_dmmv_helper tensor_add X1 X2 (Some lv) (Some lw) kernel out opt
        mmv_fn st
      = (Raise e, World b1 (trace st ++ [MmvCall X1 X2 (Some lv) kernel None opt]))).
Proof.
  split; [| split].
  - intros w e b1 H. unfold keops_dmmv_helper.
    destruct w as [lw |]; simpl;
      erewrite bind_raise by (apply call_mmv_fn_eq; exact H); reflexivity.
  - intros lw b1 H. unfold keops_dmmv_helper. simpl.
    erewrite bind_ok by (apply call_mmv_fn_eq; exact H).
    erewrite bind_raise by reflexivity. reflexivity.
  - intros lw l1 b1 a c e H Ha Hc He. unfold keops_dmmv_helper. simpl.
    erewrite bind_ok by (apply call_mmv_fn_eq; exact H).
    erewrite bind_raise; [reflexivity |].
    unfold add_. simpl. rewrite Ha. simpl. rewrite Hc, He. reflexivity.
Qed.

(** X6: whatever [mmv_fn] does and whichever of [v], [w] are given, the
    helper calls [mmv_fn] once or twice, never the engine; the kernel and
    the options are passed on as they are, and only the last stage is
    given the output buffer. *)
Theorem keops_dmmv_helper_calls (X1 X2 : operand) (v w : option loc) (kernel : K)
    (out : option loc) (opt : FalkonOptions) (mmv_fn : mmv_callable T K)
    (st : world T K) :
  exists evs : list (event K),
    trace (snd (keops_dmmv_helper tensor_add X1 X2 v w kernel out opt mmv_fn st))
    = (trace st ++ evs)%list
    /\ 1 <= length evs <= 2
    /\ Forall (helper_call X1 X2 kernel out opt) evs.
Proof.
  assert (Hfirst : forall x, helper_call X1 X2 kernel out opt
                               (MmvCall X1 X2 x kernel None opt))
    by (intros x; exists x; left; reflexivity).
  assert (Hlast : forall x, helper_call X1 X2 kernel out opt
                              (MmvCall X2 X1 x kernel out opt))
    by (intros x; exists x; right; reflexivity).
  unfold keops_dmmv_helper, call_mmv_fn, invoke, bind, add_.
  destruct v as [lv |], w as [lw |]; simpl.
  - destruct (mmv_fn (X1, X2, Some lv, kernel, None, opt) (buffers st))
      as [[[l1 |] | e] b1]; simpl.
    + destruct (b1 !! l1) as [a |]; simpl;
        [| exists [MmvCall X1 X2 (Some lv) kernel None opt]; simpl; auto].
      destruct (b1 !! lw) as [c |]; simpl;
        [| exists [MmvCall X1 X2 (Some lv) kernel None opt]; simpl; auto].
      destruct (tensor_add a c) as [s | e]; simpl;
        [| exists [MmvCall X1 X2 (Some lv) kernel None opt]; simpl; auto].
      destruct (mmv_fn (X2, X1, Some l1, kernel, out, opt) (<[l1:=s]> b1))
        as [r b3]; simpl.
      exists [MmvCall X1 X2 (Some lv) kernel None opt;
              MmvCall X2 X1 (Some l1) kernel out opt].
      rewrite <- app_assoc. simpl. auto.
    + exists [MmvCall X1 X2 (Some lv) kernel None opt]; simpl; auto.
    + exists [MmvCall X1 X2 (Some lv) kernel None opt]; simpl; auto.
  - destruct (mmv_fn (X1, X2, Some lv, kernel, None, opt) (buffers st))
      as [[t1 | e] b1]; simpl;
      [| exists [MmvCall X1 X2 (Some lv) kernel None opt]; simpl; auto].
    destruct (mmv_fn (X2, X1, t1, kernel, out, opt) b1) as [r b2]; simpl.
    exists [MmvCall X1 X2 (Some lv) kernel None opt;
            MmvCall X2 X1 t1 kernel out opt].
    rewrite <- app_assoc. simpl. auto.
  - destruct (mmv_fn (X2, X1, Some lw, kernel, out, opt) (buffers st)) as [r b1].
    exists [MmvCall X2 X1 (Some lw) kernel out opt]; simpl; auto.
  - destruct (mmv_fn (X2, X1, None, kernel, out, opt) (buffers st)) as [r b1].
    exists [MmvCall X2 X1 None kernel out opt]; simpl; auto.
Qed.

End EngineEdges.

Lemma keops_mmv_installed_witness :
  keops_mmv Examples.with_keops Examples.X1 Examples.X2 (Some 1%positive) None
    "formula" [] None Examples.auto_opt Examples.w0
  = (Ok (Some 8%positive),
     World (<[8%positive := 7%Z]> (buffers Examples.w0))
       [KeopsCall (K := unit)
          (KeopsArgs Examples.X1 Examples.X2 (Some 1%positive) [] None "formula"
             [] 1 "Sum" Examples.auto_opt)]).
Proof.
  destruct (keops_mmv_installed (K := unit) Examples.with_keops Examples.toy_keops
              Examples.X1 Examples.X2 (Some 1%positive) None "formula" [] None
              Examples.auto_opt Examples.w0 eq_refl) as (H & _).
  rewrite H. reflexivity.
Defined.

Lemma keops_dmmv_helper_first_stage_error_witness :
  keops_dmmv_helper Examples.toy_add Examples.X1 Examples.X2 (Some 1%positive)
    (Some 2%positive) tt None Examples.auto_opt Examples.failing_mmv Examples.w0
  = (Raise (RuntimeError "out of memory"),
     World (buffers Examples.w0)
       [MmvCall Examples.X1 Examples.X2 (Some 1%positive) tt None
          Examples.auto_opt]).
Proof.
  destruct (keops_dmmv_helper_first_stage_error Examples.toy_add Examples.X1
              Examples.X2 tt None Examples.auto_opt Examples.failing_mmv
              Examples.w0 1%positive) as (H & _).
  apply (H (Some 2%positive)). reflexivity.
Defined.

(** ** The validators *)

Lemma when_raise_ok (c : bool) (e : exn) (u : unit) :
  when_raise c e = Ok u -> c = false.
Proof. destruct c; simpl; intros H; [discriminate H | reflexivity]. Qed.

Lemma dtype_with_shape (t : operand) (s : list nat) :
  dtype_of (with_shape t s) = dtype_of t.
Proof. destruct t; reflexivity. Qed.

Lemma device_with_shape (t : operand) (s : list nat) :
  device_of (with_shape t s) = device_of t.
Proof. destruct t; reflexivity. Qed.

Lemma as_column_matrix (t : operand) (a b : nat) :
  shape t = [a; b] -> as_column t = t.
Proof. intros H. apply as_column_other. unfold dim. rewrite H. discriminate. Qed.

Lemma as_column_idempotent (t : operand) : as_column (as_column t) = as_column t.
Proof.
  destruct (decide (dim t = 1)) as [H | H].
  - rewrite (as_column_vector t H). apply as_column_other.
    unfold dim, reshape_column. rewrite shape_with_shape. discriminate.
  - rewrite !(as_column_other t H). reflexivity.
Qed.

(** X7: what [_check_mm_dimensions] accepts: two operands of rank 2, an
    output buffer, if given, of shape (rows of X1, rows of X2), and one
    element type.  The column counts of [X1] and [X2] are not compared. *)
Theorem check_mm_dimensions_spec (X1 X2 : operand) (out : option operand) :
  (forall r, _check_mm_dimensions X1 X2 out = Ok r <->
     r = (X1, X2, out)
     /\ exists N D1 M D2,
          shape X1 = [N; D1] /\ shape X2 = [M; D2]
          /\ (forall o, out = Some o -> shape o = [N; M])
          /\ check_same_dtype [Some X1; Some X2; out] = true)
  /\ (forall N D1 M D2 o,
        shape X1 = [N; D1] -> shape X2 = [M; D2] -> out = Some o ->
        shape o <> [N; M] ->
        _check_mm_dimensions X1 X2 out
        = Raise (ValueError ("Output dimension is incorrect. Expected "
                             ++ str_pair N M ++ " found " ++ str_shape (shape o))))
  /\ (forall N D1 M D2 D1' D2',
        shape X1 = [N; D1] -> shape X2 = [M; D2] ->
        (exists r, _check_mm_dimensions X1 X2 out = Ok r) ->
        _check_mm_dimensions (with_shape X1 [N; D1']) (with_shape X2 [M; D2']) out
        = Ok (with_shape X1 [N; D1'], with_shape X2 [M; D2'], out)).
Proof.
  assert (Hnf : forall N D1 M D2, shape X1 = [N; D1] -> shape X2 = [M; D2] ->
            _check_mm_dimensions X1 X2 out
            = rbind (match out with
                     | Some o => when_raise (bool_decide (shape o <> [N; M]))
                         (ValueError ("Output dimension is incorrect. Expected "
                            ++ str_pair N M ++ " found " ++ str_shape (shape o)))
                     | None => Ok tt
                     end) (fun _ =>
              rbind (when_raise (negb (check_same_dtype [Some X1; Some X2; out]))
                       (TypeError "Data types of input matrices must be equal."))
                (fun _ => Ok (X1, X2, out)))).
  { intros N D1 M D2 E1 E2. unfold _check_mm_dimensions, dim, size.
    rewrite E1, E2. reflexivity. }
  assert (Hiff : forall r, _check_mm_dimensions X1 X2 out = Ok r <->
     r = (X1, X2, out)
     /\ exists N D1 M D2,
          shape X1 = [N; D1] /\ shape X2 = [M; D2]
          /\ (forall o, out = Some o -> shape o = [N; M])
          /\ check_same_dtype [Some X1; Some X2; out] = true).
  { intros r. split.
    - intros Hr.
      destruct (decide (dim X1 = 2)) as [H1 | H1].
      2: { unfold _check_mm_dimensions in Hr.
           destruct (Nat.eqb_spec (dim X1) 2); [contradiction | discriminate Hr]. }
      destruct (decide (dim X2 = 2)) as [H2 | H2].
      2: { unfold _check_mm_dimensions in Hr. rewrite H1 in Hr. simpl in Hr.
           destruct (Nat.eqb_spec (dim X2) 2); [contradiction | discriminate Hr]. }
      destruct (dim2_shape X1 H1) as (N & D1 & E1).
      destruct (dim2_shape X2 H2) as (M & D2 & E2).
      rewrite (Hnf N D1 M D2 E1 E2) in Hr.
      apply rbind_ok_inv in Hr. destruct Hr as (u1 & Ho & Hr).
      apply rbind_ok_inv in Hr. destruct Hr as (u2 & Hd & Hr).
      apply when_raise_ok in Hd. apply negb_false_iff in Hd.
      split; [congruence |]. exists N, D1, M, D2.
      split; [exact E1 | split; [exact E2 | split; [| exact Hd]]].
      intros o ->. apply when_raise_ok in Ho.
      apply bool_decide_eq_false in Ho. destruct (decide (shape o = [N; M]));
        [assumption | contradiction].
    - intros (-> & N & D1 & M & D2 & E1 & E2 & Hout & Hd).
      rewrite (Hnf N D1 M D2 E1 E2), Hd. simpl.
      destruct out as [o |]; [| reflexivity].
      rewrite bool_decide_eq_false_2
        by (intros Hne; apply Hne, Hout; reflexivity). reflexivity. }
  split; [exact Hiff | split].
  - intros N D1 M D2 o E1 E2 -> Ho. rewrite (Hnf N D1 M D2 E1 E2).
    simpl. rewrite bool_decide_eq_true_2 by exact Ho. reflexivity.
  - intros N D1 M D2 D1' D2' E1 E2 [r Hr].
    apply Hiff in Hr. destruct Hr as (_ & N0 & D10 & M0 & D20 & F1 & F2 & Hout & Hd).
    assert (N0 = N /\ M0 = M) as [-> ->] by (split; congruence).
    unfold _check_mm_dimensions, dim, size. rewrite !shape_with_shape. simpl.
    assert (Hd' : check_same_dtype
                    [Some (with_shape X1 [N; D1']); Some (with_shape X2 [M; D2']); out]
                  = true).
    { unfold check_same_dtype in *. simpl in *. rewrite !dtype_with_shape.
      exact Hd. }
    rewrite Hd'. simpl. destruct out as [o |]; [| reflexivity].
    rewrite bool_decide_eq_false_2
      by (intros Hne; apply Hne, Hout; reflexivity). reflexivity.
Qed.

(** The column count that [_check_dmmv_dimensions] calls [T]: the one of
    [v] if [v] is given, else the one of [w]. *)
Lemma check_dmmv_shapes (X1 X2 : operand) (v w out : option operand)
    (N D1 M D2 T : nat) :
  shape X1 = [N; D1] -> shape X2 = [M; D2] ->
  (v <> None \/ w <> None) ->
  (forall t, as_column_opt v = Some t -> dim t = 2) ->
  (forall t, as_column_opt w = Some t -> dim t = 2) ->
  match as_column_opt v, as_column_opt w with
  | Some t, _ => shape t !! 1
  | None, Some t => shape t !! 1
  | None, None => None
  end = Some T ->
  _check_dmmv_dimensions X1 X2 v w out
  = rbind (match out with
           | Some o => when_raise (bool_decide (shape o <> [M; T]))
               (ValueError ("Output dimension is incorrect. Expected "
                            ++ str_pair M T ++ " found " ++ str_shape (shape o)))
           | None => Ok tt
           end) (fun _ =>
    rbind (match as_column_opt v with
           | Some t => when_raise (bool_decide (shape t <> [M; T]))
               (ValueError ("Dimensions of matrix v are incorrect: Expected "
                            ++ str_pair M T ++ " found " ++ str_shape (shape t)))
           | None => Ok tt
           end) (fun _ =>
    rbind (match as_column_opt w with
           | Some t => when_raise (bool_decide (shape t <> [N; T]))
               (ValueError ("Dimensions of matrix w are incorrect: Expected "
                            ++ str_pair N T ++ " found " ++ str_shape (shape t)))
           | None => Ok tt
           end) (fun _ =>
    rbind (when_raise (negb (check_same_dtype
                               [Some X1; Some X2; as_column_opt v;
                                as_column_opt w; out]))
             (TypeError "Data types of input matrices must be equal.")) (fun _ =>
    Ok (X1, X2, as_column_opt v, as_column_opt w, out))))).
Proof.
  intros E1 E2 Hvw Hv Hw HT. unfold _check_dmmv_dimensions. cbv zeta.
  change (fun t : operand => if (dim t =? 1)%nat then reshape_column t else t)
    with as_column.
  fold (as_column_opt v). fold (as_column_opt w).
  assert (Hnone : bool_decide (v = None) && bool_decide (w = None) = false).
  { destruct Hvw as [H | H]; rewrite (bool_decide_eq_false_2 _ H);
      [reflexivity | apply andb_false_r]. }
  rewrite Hnone. unfold dim at 1 2. unfold size. rewrite E1, E2. simpl.
  destruct (as_column_opt v) as [tv |] eqn:EV, (as_column_opt w) as [tw |] eqn:EW;
    simpl; try discriminate HT.
  - rewrite (Hv tv eq_refl), (Hw tw eq_refl). simpl. rewrite HT. reflexivity.
  - rewrite (Hv tv eq_refl). simpl. rewrite HT. reflexivity.
  - rewrite (Hw tw eq_refl). simpl. rewrite HT. reflexivity.
Qed.

Lemma size_ok (t : operand) (i d : nat) :
  size t i = Ok d -> shape t !! i = Some d.
Proof.
  unfold size. destruct (shape t !! i); intros H; [congruence | discriminate H].
Qed.

Lemma as_column_opt_None (v : option operand) :
  as_column_opt v = None <-> v = None.
Proof. destruct v; simpl; split; intros H; congruence. Qed.

Lemma opt_check_ok (V : option operand) (c : operand -> bool)
    (e : operand -> exn) (u : unit) :
  match V with
  | Some t => when_raise (c t) (e t)
  | None => Ok tt
  end = Ok u -> forall t, V = Some t -> c t = false.
Proof. intros H t ->. apply when_raise_ok in H. exact H. Qed.

Lemma opt_check_pass (V : option operand) (c : operand -> bool)
    (e : operand -> exn) :
  (forall t, V = Some t -> c t = false) ->
  match V with
  | Some t => when_raise (c t) (e t)
  | None => Ok tt
  end = Ok tt.
Proof. intros H. destruct V as [t |]; [rewrite (H t eq_refl) |]; reflexivity. Qed.

(** X8: what [_check_dmmv_dimensions] accepts: at least one of [v], [w];
    [X1], [X2] of rank 2; with [T] the column count of [v] (of [w] when [v]
    is missing), [v] of shape (rows of X2, T), [w] of shape (rows of X1, T)
    and the output buffer of shape (rows of X2, T); one element type.  When
    [v] and [w] have different column counts it is [w] that is rejected. *)
Theorem check_dmmv_dimensions_spec (X1 X2 : operand) (v w out : option operand) :
  (forall r, _check_dmmv_dimensions X1 X2 v w out = Ok r <->
     r = (X1, X2, as_column_opt v, as_column_opt w, out)
     /\ (v <> None \/ w <> None)
     /\ exists N D1 M D2 T,
          shape X1 = [N; D1] /\ shape X2 = [M; D2]
          /\ (forall t, as_column_opt v = Some t -> shape t = [M; T])
          /\ (forall t, as_column_opt w = Some t -> shape t = [N; T])
          /\ (forall o, out = Some o -> shape o = [M; T])
          /\ check_same_dtype [Some X1; Some X2; as_column_opt v;
                               as_column_opt w; out] = true)
  /\ (forall tv tw N D1 M D2 T T',
        shape X1 = [N; D1] -> shape X2 = [M; D2] ->
        as_column_opt v = Some tv -> as_column_opt w = Some tw ->
        shape tv = [M; T] -> shape tw = [N; T'] -> T <> T' ->
        (forall o, out = Some o -> shape o = [M; T]) ->
        _check_dmmv_dimensions X1 X2 v w out
        = Raise (ValueError ("Dimensions of matrix w are incorrect: Expected "
                             ++ str_pair N T ++ " found " ++ str_shape (shape tw)))).
Proof.
  split.
  - intros r. split.
    + intros Hr. pose proof Hr as Hr0.
      unfold _check_dmmv_dimensions in Hr. cbv zeta in Hr.
      change (fun t : operand => if (dim t =? 1)%nat then reshape_column t else t)
        with as_column in Hr.
      fold (as_column_opt v) in Hr. fold (as_column_opt w) in Hr.
      apply rbind_ok_inv in Hr. destruct Hr as (u0 & H0 & Hr).
      apply rbind_ok_inv in Hr. destruct Hr as (u1 & H1 & Hr).
      apply rbind_ok_inv in Hr. destruct Hr as (u2 & H2 & Hr).
      apply rbind_ok_inv in Hr. destruct Hr as (u3 & H3 & Hr).
      apply rbind_ok_inv in Hr. destruct Hr as (u4 & H4 & Hr).
      apply rbind_ok_inv in Hr. destruct Hr as (T & H5 & _).
      apply when_raise_ok in H0, H1, H2.
      apply negb_false_iff, Nat.eqb_eq in H1, H2.
      assert (Hvw : v <> None \/ w <> None).
      { apply andb_false_iff in H0.
        destruct H0 as [H | H]; apply bool_decide_eq_false in H; auto. }
      assert (Hv : forall t, as_column_opt v = Some t -> dim t = 2).
      { intros t Ht. rewrite Ht in H3. apply when_raise_ok in H3.
        apply negb_false_iff, Nat.eqb_eq in H3. exact H3. }
      assert (Hw : forall t, as_column_opt w = Some t -> dim t = 2).
      { intros t Ht. rewrite Ht in H4. apply when_raise_ok in H4.
        apply negb_false_iff, Nat.eqb_eq in H4. exact H4. }
      destruct (dim2_shape X1 H1) as (N & D1 & E1).
      destruct (dim2_shape X2 H2) as (M & D2 & E2).
      assert (HT : match as_column_opt v, as_column_opt w with
                   | Some t, _ => shape t !! 1
                   | None, Some t => shape t !! 1
                   | None, None => None
                   end = Some T).
      { destruct (as_column_opt v), (as_column_opt w);
          try (apply size_ok; exact H5). discriminate H5. }
      rewrite (check_dmmv_shapes X1 X2 v w out N D1 M D2 T E1 E2 Hvw Hv Hw HT)
        in Hr0.
      apply rbind_ok_inv in Hr0. destruct Hr0 as (u6 & H6 & Hr0).
      apply rbind_ok_inv in Hr0. destruct Hr0 as (u7 & H7 & Hr0).
      apply rbind_ok_inv in Hr0. destruct Hr0 as (u8 & H8 & Hr0).
      apply rbind_ok_inv in Hr0. destruct Hr0 as (u9 & H9 & Hr0).
      apply when_raise_ok, negb_false_iff in H9.
      split; [congruence |]. split; [exact Hvw |].
      exists N, D1, M, D2, T.
      split; [exact E1 | split; [exact E2 |]].
      split; [| split; [| split; [| exact H9]]].
      * intros t Ht. rewrite Ht in H7. apply when_raise_ok in H7.
        apply bool_decide_eq_false in H7.
        destruct (decide (shape t = [M; T])); [assumption | contradiction].
      * intros t Ht. rewrite Ht in H8. apply when_raise_ok in H8.
        apply bool_decide_eq_false in H8.
        destruct (decide (shape t = [N; T])); [assumption | contradiction].
      * intros o ->. apply when_raise_ok in H6.
        apply bool_decide_eq_false in H6.
        destruct (decide (shape o = [M; T])); [assumption | contradiction].
    + intros (-> & Hvw & N & D1 & M & D2 & T & E1 & E2 & Hv & Hw & Hout & Hd).
      assert (Hv2 : forall t, as_column_opt v = Some t -> dim t = 2)
        by (intros t Ht; unfold dim; rewrite (Hv t Ht); reflexivity).
      assert (Hw2 : forall t, as_column_opt w = Some t -> dim t = 2)
        by (intros t Ht; unfold dim; rewrite (Hw t Ht); reflexivity).
      assert (HT : match as_column_opt v, as_column_opt w with
                   | Some t, _ => shape t !! 1
                   | None, Some t => shape t !! 1
                   | None, None => None
                   end = Some T).
      { destruct (as_column_opt v) as [tv |] eqn:EV.
        - rewrite (Hv tv eq_refl). reflexivity.
        - destruct (as_column_opt w) as [tw |] eqn:EW.
          + rewrite (Hw tw eq_refl). reflexivity.
          + destruct Hvw as [H | H]; exfalso; apply H.
            * apply (proj1 (as_column_opt_None v)), EV.
            * apply (proj1 (as_column_opt_None w)), EW. }
      rewrite (check_dmmv_shapes X1 X2 v w out N D1 M D2 T E1 E2 Hvw Hv2 Hw2 HT).
      rewrite Hd.
      assert (Ho : match out with
                   | Some o => when_raise (bool_decide (shape o <> [M; T]))
                       (ValueError ("Output dimension is incorrect. Expected "
                          ++ str_pair M T ++ " found " ++ str_shape (shape o)))
                   | None => Ok tt
                   end = Ok tt).
      { apply opt_check_pass with (c := fun o => bool_decide (shape o <> [M; T])).
        intros o Ho. apply bool_decide_eq_false_2. intros Hne.
        apply Hne, Hout, Ho. }
      rewrite Ho. simpl.
      rewrite (opt_check_pass (as_column_opt v)
                 (fun t => bool_decide (shape t <> [M; T])))
        by (intros t Ht; apply bool_decide_eq_false_2; intros Hne;
            apply Hne, Hv, Ht).
      simpl.
      rewrite (opt_check_pass (as_column_opt w)
                 (fun t => bool_decide (shape t <> [N; T])))
        by (intros t Ht; apply bool_decide_eq_false_2; intros Hne;
            apply Hne, Hw, Ht).
      reflexivity.
  - intros tv tw N D1 M D2 T T' E1 E2 EV EW Sv Sw HTT Hout.
    assert (Hvw : v <> None \/ w <> None).
    { left. intros ->. discriminate EV. }
    assert (Hv2 : forall t, as_column_opt v = Some t -> dim t = 2).
    { intros t Ht. rewrite EV in Ht. inversion Ht; subst. unfold dim.
      rewrite Sv. reflexivity. }
    assert (Hw2 : forall t, as_column_opt w = Some t -> dim t = 2).
    { intros t Ht. rewrite EW in Ht. inversion Ht; subst. unfold dim.
      rewrite Sw. reflexivity. }
    assert (HT : match as_column_opt v, as_column_opt w with
                 | Some t, _ => shape t !! 1
                 | None, Some t => shape t !! 1
                 | None, None => None
                 end = Some T).
    { rewrite EV, Sv. reflexivity. }
    rewrite (check_dmmv_shapes X1 X2 v w out N D1 M D2 T E1 E2 Hvw Hv2 Hw2 HT).
    rewrite EV, EW.
    assert (Ho : match out with
                 | Some o => when_raise (bool_decide (shape o <> [M; T]))
                     (ValueError ("Output dimension is incorrect. Expected "
                        ++ str_pair M T ++ " found " ++ str_shape (shape o)))
                 | None => Ok tt
                 end = Ok tt).
    { apply opt_check_pass with (c := fun o => bool_decide (shape o <> [M; T])).
      intros o Ho. apply bool_decide_eq_false_2. intros Hne.
      apply Hne, Hout, Ho. }
    rewrite Ho. simpl.
    rewrite (bool_decide_eq_false_2 (shape tv <> [M; T]))
      by (intros Hne; apply Hne, Sv).
    simpl. rewrite (bool_decide_eq_true_2 (shape tw <> [N; T]))
      by (rewrite Sw; congruence).
    reflexivity.
Qed.

Lemma check_mm_dimensions_spec_witness :
  _check_mm_dimensions Examples.X1 Examples.X2_wide None
  = Ok (Examples.X1, Examples.X2_wide, None)
  /\ _check_mm_dimensions Examples.X1 Examples.X2 (Some Examples.out_99)
     = Raise (ValueError
         "Output dimension is incorrect. Expected (100, 80) found torch.Size([99, 3])").
Proof.
  destruct (check_mm_dimensions_spec Examples.X1 Examples.X2 None)
    as (Hiff & _ & Hcols).
  destruct (check_mm_dimensions_spec Examples.X1 Examples.X2 (Some Examples.out_99))
    as (_ & Hout & _).
  split.
  - apply (Hcols 100 10 80 10 10 64 eq_refl eq_refl).
    exists (Examples.X1, Examples.X2, None). apply Hiff.
    split; [reflexivity |]. exists 100, 10, 80, 10.
    split; [reflexivity | split; [reflexivity | split; [| reflexivity]]].
    intros o Ho. discriminate Ho.
  - apply (Hout 100 10 80 10 Examples.out_99); try reflexivity. discriminate.
Defined.

Lemma check_dmmv_dimensions_spec_witness :
  _check_dmmv_dimensions Examples.X1 Examples.X2 (Some Examples.v)
    (Some Examples.w_4) None
  = Raise (ValueError
      "Dimensions of matrix w are incorrect: Expected (100, 3) found torch.Size([100, 4])")
  /\ _check_dmmv_dimensions Examples.X1 Examples.X2 None (Some Examples.w_4) None
     = Ok (Examples.X1, Examples.X2, None, Some Examples.w_4, None).
Proof.
  split.
  - destruct (check_dmmv_dimensions_spec Examples.X1 Examples.X2 (Some Examples.v)
                (Some Examples.w_4) None) as (_ & Hw).
    apply (Hw Examples.v Examples.w_4 100 10 80 10 3 4); try reflexivity.
    + discriminate.
    + intros o Ho. discriminate Ho.
  - destruct (check_dmmv_dimensions_spec Examples.X1 Examples.X2 None
                (Some Examples.w_4) None) as (Hiff & _).
    apply Hiff. split; [reflexivity |]. split; [right; discriminate |].
    exists 100, 10, 80, 10, 4.
    split; [reflexivity | split; [reflexivity |]].
    split; [intros t Ht; discriminate Ht |].
    split; [intros t Ht; inversion Ht; reflexivity |].
    split; [intros o Ho; discriminate Ho | reflexivity].
Defined.

(** X9: validation is idempotent: the operands that a validator returns
    pass the same validator again and are returned as they are, so that a
    reshaped vector is not reshaped twice. *)
Theorem validators_idempotent (X1 X2 v : operand) (vo wo out : option operand) :
  (forall a b c,
      _check_mm_dimensions X1 X2 out = Ok (a, b, c) ->
      _check_mm_dimensions a b c = Ok (a, b, c))
  /\ (forall a b c d,
      _check_mmv_dimensions X1 X2 v out = Ok (a, b, c, d) ->
      _check_mmv_dimensions a b c d = Ok (a, b, c, d))
  /\ (forall a b c d f,
      _check_dmmv_dimensions X1 X2 vo wo out = Ok (a, b, c, d, f) ->
      _check_dmmv_dimensions a b c d f = Ok (a, b, c, d, f)).
Proof.
  split; [| split].
  - intros a b c H. pose proof H as H'.
    unfold _check_mm_dimensions in H'. validator_inv H'.
  - intros a b c d H.
    assert (Hc : as_column c = c /\ a = X1 /\ b = X2 /\ d = out).
    { pose proof H as H'. unfold _check_mmv_dimensions in H'. cbv zeta in H'.
      fold (as_column v) in H'.
      repeat (apply rbind_ok_inv in H'; destruct H' as (? & _ & H')).
      inversion H'; subst. split; [apply as_column_idempotent | auto]. }
    destruct Hc as (Hc & -> & -> & ->).
    unfold _check_mmv_dimensions in *. cbv zeta in *.
    fold (as_column v) in H. fold (as_column c). rewrite Hc.
    assert (c = as_column v) as ->.
    { repeat (apply rbind_ok_inv in H; destruct H as (? & _ & H)).
      inversion H; reflexivity. }
    exact H.
  - intros a b c d f H.
    assert (Hc : as_column_opt c = c /\ as_column_opt d = d
                 /\ a = X1 /\ b = X2 /\ f = out
                 /\ c = as_column_opt vo /\ d = as_column_opt wo).
    { pose proof H as H'. unfold _check_dmmv_dimensions in H'. cbv zeta in H'.
      change (fun t : operand => if (dim t =? 1)%nat then reshape_column t else t)
        with as_column in H'.
      fold (as_column_opt vo) in H'. fold (as_column_opt wo) in H'.
      repeat (apply rbind_ok_inv in H'; destruct H' as (? & _ & H')).
      inversion H'; subst.
      repeat split; try reflexivity.
      - destruct vo; simpl; [rewrite as_column_idempotent |]; reflexivity.
      - destruct wo; simpl; [rewrite as_column_idempotent |]; reflexivity. }
    destruct Hc as (Hc & Hd & -> & -> & -> & Ec & Ed).
    unfold _check_dmmv_dimensions in *. cbv zeta in *.
    change (fun t : operand => if (dim t =? 1)%nat then reshape_column t else t)
      with as_column in *.
    fold (as_column_opt vo) in H. fold (as_column_opt wo) in H.
    fold (as_column_opt c). fold (as_column_opt d). rewrite Hc, Hd.
    subst c d.
    assert (Hnone : bool_decide (as_column_opt vo = None)
                    && bool_decide (as_column_opt wo = None)
                    = bool_decide (vo = None) && bool_decide (wo = None)).
    { f_equal; apply bool_decide_ext, as_column_opt_None. }
    rewrite Hnone. exact H.
Qed.

Lemma validators_idempotent_witness :
  _check_mmv_dimensions Examples.X1 Examples.X2 Examples.vector None
  = Ok (Examples.X1, Examples.X2, Examples.dense_on [80; 1] cpu, None)
  /\ _check_mmv_dimensions Examples.X1 Examples.X2 (Examples.dense_on [80; 1] cpu)
       None
     = Ok (Examples.X1, Examples.X2, Examples.dense_on [80; 1] cpu, None).
Proof.
  split; [reflexivity |].
  destruct (validators_idempotent Examples.X1 Examples.X2 Examples.vector
              None None None) as (_ & Hmmv & _).
  apply Hmmv. reflexivity.
Defined.

(** The resolver on operands of one sparsity: the selection, after the
    warning if any. *)
Lemma resolver_ok (F : family) (X1 X2 v : operand) (vo wo : option operand)
    (l : loc) (o : FalkonOptions) (st : kstate) :
  policies st !! l = Some o -> sparse X1 = sparse X2 ->
  resolver F X1 X2 v vo wo l st
  = (selection F st X1 o, resolved st X1 o (operation_name F)).
Proof.
  intros Hl Hs. rewrite (resolver_eq F X1 X2 v vo wo l o st Hl).
  rewrite <- Hs, xorb_nilpotent. reflexivity.
Qed.

Lemma selection_cases (F : family) (st : kstate) (X1 : operand)
    (o : FalkonOptions) :
  (use_cuda_for X1 o = false \/ cuda_import F st = None ->
   selection F st X1 o = Ok (backend_of F (use_cuda_for X1 o) (sparse X1)))
  /\ (forall e, use_cuda_for X1 o = true -> cuda_import F st = Some e ->
      selection F st X1 o = Raise e).
Proof.
  unfold selection. split.
  - intros [H | H].
    + rewrite H. reflexivity.
    + rewrite H. destruct (use_cuda_for X1 o); reflexivity.
  - intros e Hu Hi. rewrite Hu, Hi. reflexivity.
Qed.

Lemma selection_allocated (F : family) (st : kstate) (X1 : operand)
    (o q : FalkonOptions) :
  selection F (allocated st q) X1 o = selection F st X1 o.
Proof. reflexivity. Qed.

Lemma family_of_backend_of (F : family) (c s : bool) :
  family_of (backend_of F c s) = F.
Proof. destruct F, c, s; reflexivity. Qed.

Lemma is_sparse_backend_of (F : family) (c s : bool) :
  is_sparse_backend (backend_of F c s) = s.
Proof. destruct F, c, s; reflexivity. Qed.

(** The last two steps of an operation, for operands of one sparsity. *)
Lemma dispatch_steps
    (run_backend : backend_call -> gmap loc FalkonOptions -> result operand)
    (F : family) (X1 X2 v : operand) (vo wo : option operand)
    (vecs : list (option operand)) (self : kernel) (out : option operand)
    (l : loc) (o : FalkonOptions) (st : kstate) :
  policies st !! l = Some o -> sparse X1 = sparse X2 ->
  (do impl <- resolver F X1 X2 v vo wo l ;;
   call_backend run_backend impl X1 X2 vecs self out l) st
  = match selection F st X1 o with
    | Ok impl =>
        let call := BackendCall impl X1 X2 vecs self out l in
        (run_backend call (policies st),
         called (resolved st X1 o (operation_name F)) call)
    | Raise e => (Raise e, resolved st X1 o (operation_name F))
    end.
Proof.
  intros Hl Hs. unfold bind. rewrite (resolver_ok F X1 X2 v vo wo l o st Hl Hs).
  destruct (selection F st X1 o) as [impl | e]; [| reflexivity].
  unfold call_backend, called. rewrite policies_resolved. reflexivity.
Qed.

Section Dispatch.

Variable run_backend : backend_call -> gmap loc FalkonOptions -> result operand.

(** X10: when the operands are not all on one device, each operation raises
    a [RuntimeError] that names the operation; the store is as before: no
    policy has been merged, no warning emitted, no backend chosen. *)
Theorem device_mismatch_error (self : kernel) (X1 X2 v : operand)
    (vo wo out : option operand) (opt : option loc) (st : kstate) :
  (forall a b c,
      _check_mm_dimensions X1 X2 out = Ok (a, b, c) ->
      check_same_device [Some a; Some b; c] = false ->
      __call__ run_backend self X1 X2 out opt st
      = (Raise (RuntimeError
           "All input arguments to kernel must be on the same device"), st))
  /\ (forall a b c d,
      _check_mmv_dimensions X1 X2 v out = Ok (a, b, c, d) ->
      check_same_device [Some a; Some b; Some c; d] = false ->
      mmv run_backend self X1 X2 v out opt st
      = (Raise (RuntimeError
           "All input arguments to mmv must be on the same device"), st))
  /\ (forall a b c d f,
      _check_dmmv_dimensions X1 X2 vo wo out = Ok (a, b, c, d, f) ->
      check_same_device [Some a; Some b; c; d; f] = false ->
      dmmv run_backend self X1 X2 vo wo out opt st
      = (Raise (RuntimeError
           "All input arguments to dmmv must be on the same device"), st)).
Proof.
  split; [| split].
  - intros a b c Hc Hd. rewrite __call___shape.
    apply (operation_device_error _ _ _ _ _ _ _ (a, b, c) _ Hc).
    unfold _check_device_properties. rewrite Hd. reflexivity.
  - intros a b c d Hc Hd. rewrite mmv_shape.
    apply (operation_device_error _ _ _ _ _ _ _ (a, b, c, d) _ Hc).
    unfold _check_device_properties. rewrite Hd. reflexivity.
  - intros a b c d f Hc Hd. rewrite dmmv_shape.
    apply (operation_device_error _ _ _ _ _ _ _ (a, b, c, d, f) _ Hc).
    unfold _check_device_properties. rewrite Hd. reflexivity.
Qed.

(** X11: a call without a per-call policy whose arguments pass the checks
    and whose operands have the same sparsity ends in one of two ways.  If
    the resolver settles on the CPU, or on CUDA and the deferred import of
    the CUDA backends succeeds, exactly one backend runs: the one of the
    operation's family for that device and sparsity; it is given the
    validated operands, the kernel, the output buffer and the kernel's own
    policy record, and its result is the result of the call.  If the
    resolver settles on CUDA and the import fails, the call raises the
    error of the import and no backend runs.  In both cases the warning of
    the resolver, if any, has been emitted. *)
Theorem dispatch_default_policy (self : kernel) (X1 X2 v : operand)
    (vo wo out : option operand) (p : FalkonOptions) (st : kstate) :
  policies st !! params self = Some p ->
  sparse X1 = sparse X2 ->
  (forall a b c,
      _check_mm_dimensions X1 X2 out = Ok (a, b, c) ->
      check_same_device [Some a; Some b; c] = true ->
      __call__ run_backend self X1 X2 out None st
      = match selection Product st X1 p with
        | Ok impl =>
            let call := BackendCall impl X1 X2 [] self out (params self) in
            (run_backend call (policies st),
             called (resolved st X1 p "kernel") call)
        | Raise e => (Raise e, resolved st X1 p "kernel")
        end)
  /\ (forall a b c d,
      _check_mmv_dimensions X1 X2 v out = Ok (a, b, c, d) ->
      check_same_device [Some a; Some b; Some c; d] = true ->
      mmv run_backend self X1 X2 v out None st
      = match selection VectorProduct st X1 p with
        | Ok impl =>
            let call := BackendCall impl X1 X2 [Some (as_column v)] self out
                          (params self) in
            (run_backend call (policies st),
             called (resolved st X1 p "kernel-vector product") call)
        | Raise e => (Raise e, resolved st X1 p "kernel-vector product")
        end)
  /\ (forall a b c d f,
      _check_dmmv_dimensions X1 X2 vo wo out = Ok (a, b, c, d, f) ->
      check_same_device [Some a; Some b; c; d; f] = true ->
      dmmv run_backend self X1 X2 vo wo out None st
      = match selection DoubleVectorProduct st X1 p with
        | Ok impl =>
            let call := BackendCall impl X1 X2
                          [as_column_opt vo; as_column_opt wo] self out
                          (params self) in
            (run_backend call (policies st),
             called (resolved st X1 p "kernel-vector double product") call)
        | Raise e => (Raise e, resolved st X1 p "kernel-vector double product")
        end)
  /\ (forall F,
        (use_cuda_for X1 p = false \/ cuda_import F st = None ->
         selection F st X1 p
         = Ok (backend_of F (use_cuda_for X1 p) (sparse X1)))
        /\ (forall e, use_cuda_for X1 p = true -> cuda_import F st = Some e ->
            selection F st X1 p = Raise e)).
Proof.
  intros Hp Hs. split; [| split; [| split]].
  - intros a b c Hc Hd. rewrite __call___shape.
    rewrite (operation_default _ _ _ _ _ st (a, b, c) Hc)
      by (unfold _check_device_properties; rewrite Hd; reflexivity).
    assert (a = X1 /\ b = X2 /\ c = out) as (-> & -> & ->).
    { unfold _check_mm_dimensions in Hc. validator_inv Hc. }
    apply (dispatch_steps run_backend Product X1 X2 X1 None None [] self out
             (params self) p st Hp Hs).
  - intros a b c d Hc Hd. rewrite mmv_shape.
    rewrite (operation_default _ _ _ _ _ st (a, b, c, d) Hc)
      by (unfold _check_device_properties; rewrite Hd; reflexivity).
    assert (a = X1 /\ b = X2 /\ c = as_column v /\ d = out) as (-> & -> & -> & ->).
    { unfold _check_mmv_dimensions in Hc. cbv zeta in Hc. fold (as_column v) in Hc.
      validator_inv Hc. }
    apply (dispatch_steps run_backend VectorProduct X1 X2 (as_column v) None None
             [Some (as_column v)] self out (params self) p st Hp Hs).
  - intros a b c d f Hc Hd. rewrite dmmv_shape.
    rewrite (operation_default _ _ _ _ _ st (a, b, c, d, f) Hc)
      by (unfold _check_device_properties; rewrite Hd; reflexivity).
    assert (a = X1 /\ b = X2 /\ c = as_column_opt vo /\ d = as_column_opt wo
            /\ f = out) as (-> & -> & -> & -> & ->).
    { unfold _check_dmmv_dimensions in Hc. cbv zeta in Hc.
      change (fun t : operand => if (dim t =? 1)%nat then reshape_column t else t)
        with as_column in Hc.
      fold (as_column_opt vo) in Hc. fold (as_column_opt wo) in Hc.
      validator_inv Hc. }
    apply (dispatch_steps run_backend DoubleVectorProduct X1 X2 X1
             (as_column_opt vo) (as_column_opt wo)
             [as_column_opt vo; as_column_opt wo] self out (params self) p st
             Hp Hs).
  - intros F. apply selection_cases.
Qed.

End Dispatch.

(** ** What the resolver returns and touches *)

Lemma resolver_returns_family (F : family) (X1 X2 v : operand)
    (vo wo : option operand) (l : loc) (st st' : kstate) (b : backend) :
  resolver F X1 X2 v vo wo l st = (Ok b, st') ->
  family_of b = F /\ sparse X1 = sparse X2
  /\ is_sparse_backend b = sparse X1
  /\ exists o, policies st !! l = Some o
               /\ is_cuda_backend b = use_cuda_for X1 o.
Proof.
  intros Hrun. destruct (policies st !! l) as [o |] eqn:Hl.
  - rewrite (resolver_eq F X1 X2 v vo wo l o st Hl) in Hrun.
    destruct (sparse X1) eqn:S1, (sparse X2) eqn:S2; simpl in Hrun;
      try discriminate Hrun;
      unfold selection in Hrun; rewrite S1 in Hrun;
      destruct (use_cuda_for X1 o) eqn:U;
      try (destruct (cuda_import F st); [discriminate Hrun |]);
      inversion Hrun; subst;
      (split; [apply family_of_backend_of |
               split; [reflexivity |
                       split; [apply is_sparse_backend_of |]]]);
      exists o; (split; [reflexivity |]);
      rewrite is_cuda_backend_of; symmetry; exact U.
  - rewrite (resolver_dangling F X1 X2 v vo wo l st Hl) in Hrun.
    discriminate Hrun.
Qed.

(** X12: a backend returned by a resolver belongs to the resolver's own
    operation family, is the sparse variant exactly when the operands are
    sparse (which then both are), and is a CUDA backend exactly when the
    policy asks for CUDA or [X1] is on a GPU. *)
Theorem resolver_returns (X1 X2 v : operand) (vo wo : option operand) (l : loc)
    (st st' : kstate) (b : backend) :
  (_decide_mm_impl X1 X2 l st = (Ok b, st') -> family_of b = Product)
  /\ (_decide_mmv_impl X1 X2 v l st = (Ok b, st') -> family_of b = VectorProduct)
  /\ (_decide_dmmv_impl X1 X2 vo wo l st = (Ok b, st') ->
      family_of b = DoubleVectorProduct)
  /\ (_decide_mm_impl X1 X2 l st = (Ok b, st')
      \/ _decide_mmv_impl X1 X2 v l st = (Ok b, st')
      \/ _decide_dmmv_impl X1 X2 vo wo l st = (Ok b, st') ->
      sparse X1 = sparse X2
      /\ is_sparse_backend b = sparse X1
      /\ exists o, policies st !! l = Some o
                   /\ is_cuda_backend b = use_cuda_for X1 o).
Proof.
  pose proof (resolver_returns_family Product X1 X2 v vo wo l st st' b) as Hmm.
  pose proof (resolver_returns_family VectorProduct X1 X2 v vo wo l st st' b)
    as Hmmv.
  pose proof (resolver_returns_family DoubleVectorProduct X1 X2 v vo wo l st st' b)
    as Hdmmv.
  simpl in Hmm, Hmmv, Hdmmv.
  split; [| split; [| split]].
  - intros H. apply Hmm, H.
  - intros H. apply Hmmv, H.
  - intros H. apply Hdmmv, H.
  - intros [H | [H | H]].
    + destruct (Hmm H) as (_ & R). exact R.
    + destruct (Hmmv H) as (_ & R). exact R.
    + destruct (Hdmmv H) as (_ & R). exact R.
Qed.

Lemma resolver_returns_witness :
  is_sparse_backend fmmv_cuda = sparse Examples.X1_gpu
  /\ exists o, policies Examples.st0 !! 1%positive = Some o
               /\ is_cuda_backend fmmv_cuda = use_cuda_for Examples.X1_gpu o.
Proof.
  destruct (resolver_returns Examples.X1_gpu Examples.X2_gpu Examples.v None None
              1%positive Examples.st0
              (warned Examples.st0 (cpu_backend_warning "kernel-vector product"))
              fmmv_cuda) as (_ & _ & _ & H).
  destruct H as (_ & Hs & Hc); [right; left; reflexivity |].
  split; [exact Hs | exact Hc].
Defined.

Section DispatchPerCall.

Variable run_backend : backend_call -> gmap loc FalkonOptions -> result operand.

(** X13: with a per-call policy the kernel's own policy plays no part: the
    device is settled from the per-call policy alone.  When the resolver
    settles on the CPU, or on CUDA and the deferred import of the CUDA
    backends succeeds, the backend is handed the newly built record, whose
    fields are those of the per-call policy; when the import fails the call
    raises its error and no backend runs, the new record having been built
    already. *)
Theorem dispatch_per_call_policy (self : kernel) (X1 X2 v : operand)
    (vo wo out : option operand) (o : loc) (p q : FalkonOptions) (st : kstate) :
  policies st !! params self = Some p ->
  policies st !! o = Some q ->
  sparse X1 = sparse X2 ->
  (forall a b c,
      _check_mm_dimensions X1 X2 out = Ok (a, b, c) ->
      check_same_device [Some a; Some b; c] = true ->
      __call__ run_backend self X1 X2 out (Some o) st
      = match selection Product st X1 q with
        | Ok impl =>
            let call := BackendCall impl X1 X2 [] self out
                          (fresh (dom (policies st))) in
            (run_backend call (policies (allocated st q)),
             called (resolved (allocated st q) X1 q "kernel") call)
        | Raise e => (Raise e, resolved (allocated st q) X1 q "kernel")
        end)
  /\ (forall a b c d,
      _check_mmv_dimensions X1 X2 v out = Ok (a, b, c, d) ->
      check_same_device [Some a; Some b; Some c; d] = true ->
      mmv run_backend self X1 X2 v out (Some o) st
      = match selection VectorProduct st X1 q with
        | Ok impl =>
            let call := BackendCall impl X1 X2 [Some (as_column v)] self out
                          (fresh (dom (policies st))) in
            (run_backend call (policies (allocated st q)),
             called (resolved (allocated st q) X1 q "kernel-vector product")
               call)
        | Raise e =>
            (Raise e, resolved (allocated st q) X1 q "kernel-vector product")
        end)
  /\ (forall a b c d f,
      _check_dmmv_dimensions X1 X2 vo wo out = Ok (a, b, c, d, f) ->
      check_same_device [Some a; Some b; c; d; f] = true ->
      dmmv run_backend self X1 X2 vo wo out (Some o) st
      = match selection DoubleVectorProduct st X1 q with
        | Ok impl =>
            let call := BackendCall impl X1 X2
                          [as_column_opt vo; as_column_opt wo] self out
                          (fresh (dom (policies st))) in
            (run_backend call (policies (allocated st q)),
             called (resolved (allocated st q) X1 q
                       "kernel-vector double product") call)
        | Raise e =>
            (Raise e,
             resolved (allocated st q) X1 q "kernel-vector double product")
        end)
  /\ (forall F,
        (use_cuda_for X1 q = false \/ cuda_import F st = None ->
         selection F st X1 q
         = Ok (backend_of F (use_cuda_for X1 q) (sparse X1)))
        /\ (forall e, use_cuda_for X1 q = true -> cuda_import F st = Some e ->
            selection F st X1 q = Raise e))
  /\ policies (allocated st q) !! fresh (dom (policies st)) = Some q.
Proof.
  intros Hp Hq Hs.
  assert (Hl : policies (allocated st q) !! fresh (dom (policies st)) = Some q).
  { unfold allocated. simpl. apply lookup_insert_eq. }
  split; [| split; [| split; [| split]]].
  - intros a b c Hc Hd. rewrite __call___shape.
    rewrite (operation_merged _ _ _ _ _ o p q st (a, b, c) Hp Hq Hc)
      by (unfold _check_device_properties; rewrite Hd; reflexivity).
    assert (a = X1 /\ b = X2 /\ c = out) as (-> & -> & ->).
    { unfold _check_mm_dimensions in Hc. validator_inv Hc. }
    rewrite <- (selection_allocated Product st X1 q q).
    apply (dispatch_steps run_backend Product X1 X2 X1 None None [] self out
             _ q _ Hl Hs).
  - intros a b c d Hc Hd. rewrite mmv_shape.
    rewrite (operation_merged _ _ _ _ _ o p q st (a, b, c, d) Hp Hq Hc)
      by (unfold _check_device_properties; rewrite Hd; reflexivity).
    assert (a = X1 /\ b = X2 /\ c = as_column v /\ d = out) as (-> & -> & -> & ->).
    { unfold _check_mmv_dimensions in Hc. cbv zeta in Hc. fold (as_column v) in Hc.
      validator_inv Hc. }
    rewrite <- (selection_allocated VectorProduct st X1 q q).
    apply (dispatch_steps run_backend VectorProduct X1 X2 (as_column v) None None
             [Some (as_column v)] self out _ q _ Hl Hs).
  - intros a b c d f Hc Hd. rewrite dmmv_shape.
    rewrite (operation_merged _ _ _ _ _ o p q st (a, b, c, d, f) Hp Hq Hc)
      by (unfold _check_device_properties; rewrite Hd; reflexivity).
    assert (a = X1 /\ b = X2 /\ c = as_column_opt vo /\ d = as_column_opt wo
            /\ f = out) as (-> & -> & -> & -> & ->).
    { unfold _check_dmmv_dimensions in Hc. cbv zeta in Hc.
      change (fun t : operand => if (dim t =? 1)%nat then reshape_column t else t)
        with as_column in Hc.
      fold (as_column_opt vo) in Hc. fold (as_column_opt wo) in Hc.
      validator_inv Hc. }
    rewrite <- (selection_allocated DoubleVectorProduct st X1 q q).
    apply (dispatch_steps run_backend DoubleVectorProduct X1 X2 X1
             (as_column_opt vo) (as_column_opt wo)
             [as_column_opt vo; as_column_opt wo] self out _ q _ Hl Hs).
  - intros F. apply selection_cases.
  - exact Hl.
Qed.

End DispatchPerCall.

Lemma device_mismatch_error_witness :
  mmv Examples.toy_backend Examples.gaussian Examples.X1 Examples.X2
    Examples.v_gpu None (Some 2%positive) Examples.st0
  = (Raise (RuntimeError "All input arguments to mmv must be on the same device"),
     Examples.st0).
Proof.
  destruct (device_mismatch_error Examples.toy_backend Examples.gaussian
              Examples.X1 Examples.X2 Examples.v_gpu None None None
              (Some 2%positive) Examples.st0) as (_ & Hmmv & _).
  apply (Hmmv Examples.X1 Examples.X2 Examples.v_gpu None); reflexivity.
Defined.

Lemma dispatch_default_policy_witness :
  mmv Examples.toy_backend Examples.gaussian Examples.X1 Examples.X2
    Examples.vector (Some (Examples.dense_on [100; 1] cpu)) None Examples.st0
  = (Ok (Examples.dense_on [100; 1] cpu),
     called Examples.st0
       (BackendCall fmmv_cpu Examples.X1 Examples.X2
          [Some (Examples.dense_on [80; 1] cpu)] Examples.gaussian
          (Some (Examples.dense_on [100; 1] cpu)) 1%positive))
  /\ mmv Examples.toy_backend Examples.gaussian Examples.X1_gpu Examples.X2_gpu
       Examples.v_gpu None None Examples.st0_no_cuda
     = (Raise (ModuleNotFoundError "No module named 'falkon.mmv_ops.fmmv_cuda'"),
        warned Examples.st0_no_cuda (cpu_backend_warning "kernel-vector product")).
Proof.
  split.
  - destruct (dispatch_default_policy Examples.toy_backend Examples.gaussian
                Examples.X1 Examples.X2 Examples.vector None None
                (Some (Examples.dense_on [100; 1] cpu)) Examples.cpu_opt
                Examples.st0 eq_refl eq_refl) as (_ & Hmmv & _).
    exact (Hmmv Examples.X1 Examples.X2 (Examples.dense_on [80; 1] cpu)
             (Some (Examples.dense_on [100; 1] cpu)) eq_refl eq_refl).
  - destruct (dispatch_default_policy Examples.toy_backend Examples.gaussian
                Examples.X1_gpu Examples.X2_gpu Examples.v_gpu None None None
                Examples.cpu_opt Examples.st0_no_cuda eq_refl eq_refl)
      as (_ & Hmmv & _).
    exact (Hmmv Examples.X1_gpu Examples.X2_gpu Examples.v_gpu None
             eq_refl eq_refl).
Defined.

Lemma dispatch_per_call_policy_witness :
  mmv Examples.toy_backend Examples.gaussian Examples.X1_gpu Examples.X2_gpu
    Examples.v_gpu None (Some 2%positive) Examples.st0
  = (Ok (Examples.dense_on [100; 3] cpu),
     called (allocated Examples.st0 Examples.force_opt)
       (BackendCall fmmv_cuda Examples.X1_gpu Examples.X2_gpu
          [Some Examples.v_gpu] Examples.gaussian None
          (fresh (dom (policies Examples.st0)))))
  /\ mmv Examples.toy_backend Examples.gaussian Examples.X1_gpu Examples.X2_gpu
       Examples.v_gpu None (Some 2%positive) Examples.st0_no_cuda
     = (Raise (ModuleNotFoundError "No module named 'falkon.mmv_ops.fmmv_cuda'"),
        allocated Examples.st0_no_cuda Examples.force_opt).
Proof.
  split.
  - destruct (dispatch_per_call_policy Examples.toy_backend Examples.gaussian
                Examples.X1_gpu Examples.X2_gpu Examples.v_gpu None None None
                2%positive Examples.cpu_opt Examples.force_opt Examples.st0
                eq_refl eq_refl eq_refl) as (_ & Hmmv & _).
    exact (Hmmv Examples.X1_gpu Examples.X2_gpu Examples.v_gpu None
             eq_refl eq_refl).
  - destruct (dispatch_per_call_policy Examples.toy_backend Examples.gaussian
                Examples.X1_gpu Examples.X2_gpu Examples.v_gpu None None None
                2%positive Examples.cpu_opt Examples.force_opt
                Examples.st0_no_cuda eq_refl eq_refl eq_refl) as (_ & Hmmv & _).
    exact (Hmmv Examples.X1_gpu Examples.X2_gpu Examples.v_gpu None
             eq_refl eq_refl).
Defined.

(** ** What an operation does to the store *)

Lemma resolver_footprint (F : family) (X1 X2 v : operand)
    (vo wo : option operand) (l : loc) (st st2 : kstate) (r : result backend) :
  resolver F X1 X2 v vo wo l st = (r, st2) ->
  policies st2 = policies st /\ backend_calls st2 = backend_calls st
  /\ (warnings st2 = warnings st
      \/ exists m, warnings st2 = (warnings st ++ [m])%list)
  /\ (forall b, r = Ok b -> family_of b = F).
Proof.
  intros Hrun. destruct (policies st !! l) as [o |] eqn:Hl.
  - rewrite (resolver_eq F X1 X2 v vo wo l o st Hl) in Hrun.
    destruct (xorb (sparse X1) (sparse X2)).
    + inversion Hrun; subst.
      split; [reflexivity | split; [reflexivity | split; [left; reflexivity |]]].
      intros b Hb. discriminate Hb.
    + inversion Hrun; subst. split; [apply policies_resolved |].
      split; [| split].
      * unfold resolved. destruct (on_gpu X1 && negb (decide_cuda_of o));
          reflexivity.
      * unfold resolved. destruct (on_gpu X1 && negb (decide_cuda_of o));
          [right; eexists; reflexivity | left; reflexivity].
      * intros b Hb. unfold selection in Hb.
        destruct (use_cuda_for X1 o);
          [destruct (cuda_import F st); [discriminate Hb |] |];
          inversion Hb; apply family_of_backend_of.
  - rewrite (resolver_dangling F X1 X2 v vo wo l st Hl) in Hrun.
    inversion Hrun; subst.
    split; [reflexivity | split; [reflexivity | split; [left; reflexivity |]]].
    intros b Hb. discriminate Hb.
Qed.

Lemma _decide_mm_impl_footprint (X1 X2 : operand) (l : loc) (st st2 : kstate)
    (r : result backend) :
  _decide_mm_impl X1 X2 l st = (r, st2) ->
  policies st2 = policies st /\ backend_calls st2 = backend_calls st
  /\ (warnings st2 = warnings st
      \/ exists m, warnings st2 = (warnings st ++ [m])%list)
  /\ (forall b, r = Ok b -> family_of b = Product).
Proof. apply (resolver_footprint Product X1 X2 X1 None None). Qed.

Lemma _decide_mmv_impl_footprint (X1 X2 v : operand) (l : loc) (st st2 : kstate)
    (r : result backend) :
  _decide_mmv_impl X1 X2 v l st = (r, st2) ->
  policies st2 = policies st /\ backend_calls st2 = backend_calls st
  /\ (warnings st2 = warnings st
      \/ exists m, warnings st2 = (warnings st ++ [m])%list)
  /\ (forall b, r = Ok b -> family_of b = VectorProduct).
Proof. apply (resolver_footprint VectorProduct X1 X2 v None None). Qed.

Lemma _decide_dmmv_impl_footprint (X1 X2 : operand) (v w : option operand)
    (l : loc) (st st2 : kstate) (r : result backend) :
  _decide_dmmv_impl X1 X2 v w l st = (r, st2) ->
  policies st2 = policies st /\ backend_calls st2 = backend_calls st
  /\ (warnings st2 = warnings st
      \/ exists m, warnings st2 = (warnings st ++ [m])%list)
  /\ (forall b, r = Ok b -> family_of b = DoubleVectorProduct).
Proof. apply (resolver_footprint DoubleVectorProduct X1 X2 X1 v w). Qed.

Section Footprint.

Context {A : Type}.
Variable run_backend : backend_call -> gmap loc FalkonOptions -> result operand.
Variables (chk : result A) (dev : A -> result unit) (self : kernel)
  (decide : A -> loc -> M kstate backend)
  (run : A -> backend -> loc -> M kstate operand)
  (P : A -> backend -> Prop) (Q : A -> backend_call -> Prop).

Lemma operation_footprint (opt : option loc) (st st' : kstate)
    (r : result operand) :
  (forall a l st1 r1 st2, decide a l st1 = (r1, st2) ->
     policies st2 = policies st1 /\ backend_calls st2 = backend_calls st1
     /\ (warnings st2 = warnings st1
         \/ exists m, warnings st2 = (warnings st1 ++ [m])%list)
     /\ (forall b, r1 = Ok b -> P a b)) ->
  (forall a b l st1, exists c,
     run a b l st1 = (run_backend c (policies st1), called st1 c)
     /\ bc_fn c = b /\ Q a c) ->
  operation chk dev self opt decide run st = (r, st') ->
  policies st ⊆ policies st'
  /\ (opt = None -> policies st' = policies st)
  /\ (warnings st' = warnings st
      \/ exists m, warnings st' = (warnings st ++ [m])%list)
  /\ ((exists e, r = Raise e /\ backend_calls st' = backend_calls st)
      \/ exists a c, chk = Ok a /\ P a (bc_fn c) /\ Q a c
                     /\ backend_calls st' = (backend_calls st ++ [c])%list
                     /\ r = run_backend c (policies st')).
Proof.
  intros Hdec Hrun. unfold operation, bind, lift.
  destruct chk as [a | e] eqn:Hchk.
  2: { intros H; inversion H; subst.
       split; [reflexivity | split; [reflexivity | split; [left; reflexivity |]]].
       left. eauto. }
  destruct (dev a) as [[] | e].
  2: { intros H; inversion H; subst.
       split; [reflexivity | split; [reflexivity | split; [left; reflexivity |]]].
       left. eauto. }
  destruct (resolve_params self opt st) as [[l | e] st1] eqn:Hres;
    destruct (resolve_params_frame _ _ _ _ _ Hres) as (Hsub & Hw1 & Hc1).
  2: { intros H; inversion H; subst.
       split; [exact Hsub | split; [| split; [left; exact Hw1 |]]].
       - intros ->. simpl in Hres. inversion Hres.
       - left. eauto. }
  assert (Hnone : opt = None -> policies st1 = policies st).
  { intros ->. simpl in Hres. inversion Hres; subst. reflexivity. }
  destruct (decide a l st1) as [[b | e] st2] eqn:Hd;
    destruct (Hdec _ _ _ _ _ Hd) as (Hp2 & Hc2 & Hw2 & HP).
  2: { intros H; inversion H; subst.
       split; [rewrite Hp2; exact Hsub |].
       split; [intros Ho; rewrite Hp2; apply Hnone, Ho |].
       split; [rewrite <- Hw1; exact Hw2 |].
       left. eexists. split; [reflexivity | congruence]. }
  destruct (Hrun a b l st2) as (c & Hc & Hfn & HQ). rewrite Hc.
  intros H; inversion H; subst. unfold called. simpl.
  split; [rewrite Hp2; exact Hsub |].
  split; [intros Ho; rewrite Hp2; apply Hnone, Ho |].
  split; [rewrite <- Hw1; exact Hw2 |].
  right. exists a, c. split; [reflexivity |].
  split; [apply HP; reflexivity |]. split; [exact HQ |].
  split; [rewrite Hc2, Hc1; reflexivity | reflexivity].
Qed.

End Footprint.

Section Invariants.

Variable run_backend : backend_call -> gmap loc FalkonOptions -> result operand.

(** X14: whatever the arguments, an operation changes no existing policy
    record (and adds none without a per-call policy), emits at most one
    warning and runs at most one backend.  If no backend was run the
    operation raised; if one was run it belongs to the operation's family,
    it was given the kernel, [X1], [X2] and the output buffer, and what it
    returned or raised is the outcome of the operation. *)
Theorem operations_footprint (self : kernel) (X1 X2 v : operand)
    (vo wo out : option operand) (opt : option loc) (st st' : kstate)
    (r : result operand) (F : family) :
  __call__ run_backend self X1 X2 out opt st = (r, st') /\ F = Product
  \/ mmv run_backend self X1 X2 v out opt st = (r, st') /\ F = VectorProduct
  \/ dmmv run_backend self X1 X2 vo wo out opt st = (r, st')
     /\ F = DoubleVectorProduct ->
  policies st ⊆ policies st'
  /\ (opt = None -> policies st' = policies st)
  /\ (warnings st' = warnings st
      \/ exists m, warnings st' = (warnings st ++ [m])%list)
  /\ ((exists e, r = Raise e /\ backend_calls st' = backend_calls st)
      \/ exists c, backend_calls st' = (backend_calls st ++ [c])%list
                   /\ r = run_backend c (policies st')
                   /\ family_of (bc_fn c) = F
                   /\ bc_kernel c = self /\ bc_X1 c = X1 /\ bc_X2 c = X2
                   /\ bc_out c = out).
Proof.
  intros [[H ->] | [[H ->] | [H ->]]].
  - rewrite __call___shape in H.
    apply (operation_footprint run_backend _ _ _ _ _
             (fun _ b => family_of b = Product)
             (fun '(a1, a2, a3) c =>
                bc_kernel c = self /\ bc_X1 c = a1 /\ bc_X2 c = a2 /\ bc_out c = a3))
      in H.
    + destruct H as (H1 & H2 & H3 & [H4 | (a & c & Hc & HP & HQ & Hb & Hr)]);
        (split; [exact H1 | split; [exact H2 | split; [exact H3 |]]]);
        [left; exact H4 |].
      right. exists c. destruct a as [[a1 a2] a3].
      assert (a1 = X1 /\ a2 = X2 /\ a3 = out) as (-> & -> & ->).
      { unfold _check_mm_dimensions in Hc. validator_inv Hc. }
      tauto.
    + intros [[a1 a2] a3] l st1 r1 st2. apply _decide_mm_impl_footprint.
    + intros [[a1 a2] a3] b l st1. eexists. split; [reflexivity |].
      simpl. auto.
  - rewrite mmv_shape in H.
    apply (operation_footprint run_backend _ _ _ _ _
             (fun _ b => family_of b = VectorProduct)
             (fun '(a1, a2, a3, a4) c =>
                bc_kernel c = self /\ bc_X1 c = a1 /\ bc_X2 c = a2 /\ bc_out c = a4))
      in H.
    + destruct H as (H1 & H2 & H3 & [H4 | (a & c & Hc & HP & HQ & Hb & Hr)]);
        (split; [exact H1 | split; [exact H2 | split; [exact H3 |]]]);
        [left; exact H4 |].
      right. exists c. destruct a as [[[a1 a2] a3] a4].
      assert (a1 = X1 /\ a2 = X2 /\ a4 = out) as (-> & -> & ->).
      { unfold _check_mmv_dimensions in Hc. validator_inv Hc. }
      tauto.
    + intros [[[a1 a2] a3] a4] l st1 r1 st2. apply _decide_mmv_impl_footprint.
    + intros [[[a1 a2] a3] a4] b l st1. eexists. split; [reflexivity |].
      simpl. auto.
  - rewrite dmmv_shape in H.
    apply (operation_footprint run_backend _ _ _ _ _
             (fun _ b => family_of b = DoubleVectorProduct)
             (fun '(a1, a2, a3, a4, a5) c =>
                bc_kernel c = self /\ bc_X1 c = a1 /\ bc_X2 c = a2 /\ bc_out c = a5))
      in H.
    + destruct H as (H1 & H2 & H3 & [H4 | (a & c & Hc & HP & HQ & Hb & Hr)]);
        (split; [exact H1 | split; [exact H2 | split; [exact H3 |]]]);
        [left; exact H4 |].
      right. exists c. destruct a as [[[[a1 a2] a3] a4] a5].
      assert (a1 = X1 /\ a2 = X2 /\ a5 = out) as (-> & -> & ->).
      { unfold _check_dmmv_dimensions in Hc. validator_inv Hc. }
      tauto.
    + intros [[[[a1 a2] a3] a4] a5] l st1 r1 st2.
      apply _decide_dmmv_impl_footprint.
    + intros [[[[a1 a2] a3] a4] a5] b l st1. eexists. split; [reflexivity |].
      simpl. auto.
Qed.

End Invariants.

Lemma operations_footprint_witness :
  exists r st',
    dmmv Examples.toy_backend Examples.gaussian Examples.X1 Examples.X2
      (Some Examples.v) None None (Some 2%positive) Examples.st0 = (r, st')
    /\ policies Examples.st0 ⊆ policies st'
    /\ exists c, backend_calls st' = [c] /\ family_of (bc_fn c) = DoubleVectorProduct.
Proof.
  destruct (dmmv Examples.toy_backend Examples.gaussian Examples.X1 Examples.X2
              (Some Examples.v) None None (Some 2%positive) Examples.st0)
    as [r st'] eqn:Hrun.
  exists r, st'. split; [reflexivity |].
  destruct (operations_footprint Examples.toy_backend Examples.gaussian
              Examples.X1 Examples.X2 Examples.v (Some Examples.v) None None
              (Some 2%positive) Examples.st0 st' r DoubleVectorProduct)
    as (Hsub & _ & _ & Hcalls).
  - right. right. split; [exact Hrun | reflexivity].
  - split; [exact Hsub |].
    destruct Hcalls as [(e & -> & _) | (c & Hc & _ & HF & _)].
    + vm_compute in Hrun. discriminate Hrun.
    + exists c. split; [exact Hc | exact HF].
Defined.

(** ** The constructor *)

(** X15: a kernel built without options owns a record of its own, newly
    allocated with the default options; a kernel built with options keeps
    the caller's record itself, not a copy.  Either way no existing record
    changes, and the kernel's policy is a record of the store, as the
    operations need it. *)
Theorem init_policy (default_options : FalkonOptions) (nm kt : string)
    (opt : option loc) (st : kstate) :
  (forall o, opt = Some o -> is_Some (policies st !! o)) ->
  exists self st',
    __init__ default_options nm kt opt st = (Ok self, st')
    /\ name self = nm /\ kernel_type self = kt
    /\ policies st ⊆ policies st'
    /\ warnings st' = warnings st /\ backend_calls st' = backend_calls st
    /\ (opt = None ->
        policies st !! params self = None
        /\ policies st' !! params self = Some default_options)
    /\ (forall o, opt = Some o -> params self = o /\ st' = st)
    /\ (forall opt', (forall o, opt' = Some o -> is_Some (policies st !! o)) ->
                     store_ok self opt' st').
Proof.
  intros Hopt. unfold __init__. destruct opt as [o |].
  - exists (KernelObj nm kt o), st.
    split; [reflexivity |]. repeat (split; [reflexivity |]).
    split; [intros H; discriminate H |].
    split; [intros o' Ho; inversion Ho; subst; auto |].
    intros opt' Hopt'. split; [apply (Hopt o eq_refl) | exact Hopt'].
  - exists (KernelObj nm kt (fresh (dom (policies st)))), (allocated st default_options).
    split; [reflexivity |]. split; [reflexivity | split; [reflexivity |]].
    split; [apply allocated_extends |].
    split; [reflexivity | split; [reflexivity |]].
    split.
    { intros _. split; [apply fresh_loc_unused |].
      unfold allocated. simpl. apply lookup_insert_eq. }
    split; [intros o Ho; discriminate Ho |].
    intros opt' Hopt'. split.
    + unfold allocated. simpl. rewrite lookup_insert_eq. eauto.
    + intros o Ho. destruct (Hopt' o Ho) as [q Hq]. exists q.
      eapply lookup_weaken; [exact Hq | apply allocated_extends].
Qed.

Lemma init_policy_witness :
  exists self st',
    __init__ Examples.default_opt "Gaussian" "gaussian" (Some 2%positive)
      Examples.st0 = (Ok self, st')
    /\ params self = 2%positive /\ st' = Examples.st0.
Proof.
  destruct (init_policy Examples.default_opt "Gaussian" "gaussian"
              (Some 2%positive) Examples.st0)
    as (self & st' & Hrun & _ & _ & _ & _ & _ & _ & Hshare & _).
  - intros o Ho. inversion Ho; subst. exists Examples.force_opt. reflexivity.
  - exists self, st'. split; [exact Hrun | apply Hshare; reflexivity].
Defined.
